(** * go-yt-radio-server: the relay handlers and their URL validator

    A shallow embedding of the stream handlers of the repository
    (main.go, main_simple.go, main2.go, the debug variant and the
    streamer package) together with the properties the specification
    states about them.

    Layout:
    - [GoURL]: the part of Go's net/url that [isYouTubeURL] calls
      ([url.Parse] and [URL.Hostname]);
    - [Validator]: [isYouTubeURL], shared verbatim by every variant;
    - [Sys]: what a handler can do to its surroundings (events), the
      script of what the surroundings answer (a [World]), and the
      net/http response writer that the events drive;
    - [MainGo], [MainSimpleGo], [Main2Go], [DebugGo], [StreamerGo]: the
      handlers, one module per source file;
    - the vocabulary of the statements, then the lemmas and the theorems,
      one section per subject. *)

From Stdlib Require Import ZArith List Ascii String Bool Lia.
From stdpp Require Import base strings gmap list.
Import ListNotations.

Local Open Scope string_scope.
Local Open Scope list_scope.

(** Go functions return [(value, error)]; a non-nil error carries a message. *)
Inductive result (A : Type) : Type :=
| Ok (a : A)
| Err (msg : string).
Arguments Ok {A} a.
Arguments Err {A} msg.

(** ** Byte-string helpers (package strings) *)
Module Strings.

Definition byte_in (lo hi c : ascii) : bool :=
  Ascii.leb lo c && Ascii.leb c hi.

Fixpoint take (n : nat) (s : string) : string :=
  match n, s with
  | S n', String c s' => String c (take n' s')
  | _, _ => EmptyString
  end.

Fixpoint drop (n : nat) (s : string) : string :=
  match n, s with
  | S n', String _ s' => drop n' s'
  | _, _ => s
  end.

(** strings.IndexByte *)
Fixpoint IndexByte (s : string) (c : ascii) : option nat :=
  match s with
  | EmptyString => None
  | String d s' =>
      if Ascii.eqb d c then Some 0
      else match IndexByte s' c with Some i => Some (S i) | None => None end
  end.

(** strings.LastIndexByte *)
Fixpoint LastIndexByte (s : string) (c : ascii) : option nat :=
  match s with
  | EmptyString => None
  | String d s' =>
      match LastIndexByte s' c with
      | Some i => Some (S i)
      | None => if Ascii.eqb d c then Some 0 else None
      end
  end.

(** strings.Cut with a one-byte separator: text before and after the first
    occurrence, or the whole string and the empty string. *)
Definition Cut (s : string) (sep : ascii) : string * string :=
  match IndexByte s sep with
  | Some i => (take i s, drop (S i) s)
  | None => (s, EmptyString)
  end.

Definition Contains (s : string) (c : ascii) : bool :=
  match IndexByte s c with Some _ => true | None => false end.

Fixpoint Count (s : string) (c : ascii) : nat :=
  match s with
  | EmptyString => 0
  | String d s' => (if Ascii.eqb d c then 1 else 0) + Count s' c
  end.

Definition HasPrefix (s p : string) : bool := String.prefix p s.

Definition HasSuffix (s p : string) : bool :=
  Nat.leb (String.length p) (String.length s)
  && String.eqb (drop (String.length s - String.length p) s) p.

(** strings.Index *)
Definition Index (s sub : string) : option nat := String.index 0 sub s.

Definition lower_byte (c : ascii) : ascii :=
  if byte_in "A" "Z" c then ascii_of_nat (nat_of_ascii c + 32) else c.

(** strings.ToLower on strings of ASCII bytes. *)
Fixpoint ToLower (s : string) : string :=
  match s with
  | EmptyString => EmptyString
  | String c s' => String (lower_byte c) (ToLower s')
  end.

End Strings.

(** ** net/url: [Parse] and [Hostname]

    The validator's only computation is a call of [url.Parse] followed by
    [Hostname()].  Both are transcribed here from the net/url package of the
    Go release the README names (1.23); fields of [URL] that no function on
    the way to [Hostname] reads back ([RawPath], [RawFragment]) are left out.
    Later releases differ in one place, [parseHost] on a host in square
    brackets, which they accept only if it is an IP literal. *)
Module GoURL.
Import Strings.

Inductive encoding :=
| encodePath | encodePathSegment | encodeHost | encodeZone
| encodeUserPassword | encodeQueryComponent | encodeFragment.

Definition encoding_eqb (a b : encoding) : bool :=
  match a, b with
  | encodePath, encodePath | encodePathSegment, encodePathSegment
  | encodeHost, encodeHost | encodeZone, encodeZone
  | encodeUserPassword, encodeUserPassword
  | encodeQueryComponent, encodeQueryComponent
  | encodeFragment, encodeFragment => true
  | _, _ => false
  end.

Record Userinfo := {
  username : string;
  password : string;
  passwordSet : bool
}.

Record URL := {
  Scheme : string;
  Opaque : string;
  User : option Userinfo;
  Host : string;
  Path : string;
  OmitHost : bool;
  ForceQuery : bool;
  RawQuery : string;
  Fragment : string
}.

Definition ishex (c : ascii) : bool :=
  byte_in "0" "9" c || byte_in "a" "f" c || byte_in "A" "F" c.

Definition unhex (c : ascii) : nat :=
  if byte_in "0" "9" c then nat_of_ascii c - 48
  else if byte_in "a" "f" c then nat_of_ascii c - 97 + 10
  else if byte_in "A" "F" c then nat_of_ascii c - 65 + 10
  else 0.

Definition one_of (cs : string) (c : ascii) : bool := Contains cs c.

(** shouldEscape(c, mode) *)
Definition shouldEscape (c : ascii) (mode : encoding) : bool :=
  if byte_in "a" "z" c || byte_in "A" "Z" c || byte_in "0" "9" c then false
  else if (encoding_eqb mode encodeHost || encoding_eqb mode encodeZone)
          && (one_of "!$&'()*+,;=:[]<>" c || Ascii.eqb c (ascii_of_nat 34)) then false
  else if one_of "-_.~" c then false
  else if one_of "$&+,/:;=?@" c then
    match mode with
    | encodePath => Ascii.eqb c "?"
    | encodePathSegment => one_of "/;,?" c
    | encodeUserPassword => one_of "@/?:" c
    | encodeQueryComponent => true
    | encodeFragment => false
    | encodeHost | encodeZone => true
    end
  else if encoding_eqb mode encodeFragment && one_of "!()*" c then false
  else true.

(** unescape(s, mode): percent-decoding with the per-component checks. *)
Fixpoint unescape (s : string) (mode : encoding) : result string :=
  match s with
  | EmptyString => Ok EmptyString
  | String c rest =>
      if Ascii.eqb c "%" then
        match rest with
        | String h1 (String h2 rest') =>
            if negb (ishex h1 && ishex h2) then
              Err ("invalid URL escape " +:+ take 3 s)
            else if encoding_eqb mode encodeHost && (unhex h1 <? 8)%nat
                    && negb (String.eqb (take 3 s) "%25") then
              Err ("invalid URL escape " +:+ take 3 s)
            else
              let v := ascii_of_nat (unhex h1 * 16 + unhex h2) in
              if encoding_eqb mode encodeZone
                 && negb (String.eqb (take 3 s) "%25")
                 && negb (Ascii.eqb v " ")
                 && shouldEscape v encodeHost then
                Err ("invalid URL escape " +:+ take 3 s)
              else
                match unescape rest' mode with
                | Ok t => Ok (String v t)
                | Err e => Err e
                end
        | _ => Err ("invalid URL escape " +:+ take 3 s)
        end
      else if encoding_eqb mode encodeQueryComponent && Ascii.eqb c "+" then
        match unescape rest mode with
        | Ok t => Ok (String " " t)
        | Err e => Err e
        end
      else if (encoding_eqb mode encodeHost || encoding_eqb mode encodeZone)
              && (nat_of_ascii c <? 128)%nat && shouldEscape c encodeHost then
        Err ("invalid character in host name")
      else
        match unescape rest mode with
        | Ok t => Ok (String c t)
        | Err e => Err e
        end
  end.

(** stringContainsCTLByte *)
Fixpoint stringContainsCTLByte (s : string) : bool :=
  match s with
  | EmptyString => false
  | String b s' =>
      (nat_of_ascii b <? 32)%nat || (nat_of_ascii b =? 127)%nat
      || stringContainsCTLByte s'
  end.

(** getScheme: the loop over [rawURL[i]], with [s] the text from [i] on. *)
Fixpoint getScheme_from (rawURL : string) (i : nat) (s : string)
  : result (string * string) :=
  match s with
  | EmptyString => Ok (EmptyString, rawURL)
  | String c s' =>
      if byte_in "a" "z" c || byte_in "A" "Z" c then
        getScheme_from rawURL (S i) s'
      else if byte_in "0" "9" c || one_of "+-." c then
        if (i =? 0)%nat then Ok (EmptyString, rawURL)
        else getScheme_from rawURL (S i) s'
      else if Ascii.eqb c ":" then
        if (i =? 0)%nat then Err "missing protocol scheme"
        else Ok (take i rawURL, s')
      else Ok (EmptyString, rawURL)
  end.

Definition getScheme (rawURL : string) : result (string * string) :=
  getScheme_from rawURL 0 rawURL.

(** validOptionalPort *)
Definition validOptionalPort (port : string) : bool :=
  match port with
  | EmptyString => true
  | String c digits =>
      Ascii.eqb c ":"
      && forallb (byte_in "0" "9") (list_ascii_of_string digits)
  end.

(** validUserinfo *)
Definition validUserinfo (s : string) : bool :=
  forallb (fun r => byte_in "A" "Z" r || byte_in "a" "z" r
                    || byte_in "0" "9" r || one_of "-._:~!$&'()*+,;=%@" r)
          (list_ascii_of_string s).

(** parseHost.  In the first branch this release takes any text between the
    brackets that [unescape] lets through. *)
Definition parseHost (host : string) : result string :=
  if HasPrefix host "[" then
    match LastIndexByte host "]" with
    | None => Err "missing ']' in host"
    | Some i =>
        let colonPort := drop (S i) host in
        if negb (validOptionalPort colonPort) then
          Err "invalid port after host"
        else
          match Index (take i host) "%25" with
          | Some zone =>
              match unescape (take zone host) encodeHost with
              | Err e => Err e
              | Ok host1 =>
                  match unescape (drop zone (take i host)) encodeZone with
                  | Err e => Err e
                  | Ok host2 =>
                      match unescape (drop i host) encodeHost with
                      | Err e => Err e
                      | Ok host3 => Ok (host1 +:+ host2 +:+ host3)
                      end
                  end
              end
          | None => unescape host encodeHost
          end
    end
  else
    match LastIndexByte host ":" with
    | Some i =>
        if negb (validOptionalPort (drop i host)) then
          Err "invalid port after host"
        else unescape host encodeHost
    | None => unescape host encodeHost
    end.

(** parseAuthority: [user@host]; the userinfo is split at the LAST [@]. *)
Definition parseAuthority (authority : string)
  : result (option Userinfo * string) :=
  let i := LastIndexByte authority "@" in
  let hostpart := match i with
                  | None => authority
                  | Some i => drop (S i) authority
                  end in
  match parseHost hostpart with
  | Err e => Err e
  | Ok host =>
      match i with
      | None => Ok (None, host)
      | Some i =>
          let userinfo := take i authority in
          if negb (validUserinfo userinfo) then Err "net/url: invalid userinfo"
          else if negb (Contains userinfo ":") then
            match unescape userinfo encodeUserPassword with
            | Err e => Err e
            | Ok u =>
                Ok (Some {| username := u; password := ""; passwordSet := false |},
                    host)
            end
          else
            let (uname, pw) := Cut userinfo ":" in
            match unescape uname encodeUserPassword with
            | Err e => Err e
            | Ok u =>
                match unescape pw encodeUserPassword with
                | Err e => Err e
                | Ok p =>
                    Ok (Some {| username := u; password := p; passwordSet := true |},
                        host)
                end
            end
      end
  end.

(** URL.setPath, without the [RawPath] hint. *)
Definition setPath (u : URL) (p : string) : result URL :=
  match unescape p encodePath with
  | Err e => Err e
  | Ok path =>
      Ok {| Scheme := Scheme u; Opaque := Opaque u; User := User u;
            Host := Host u; Path := path; OmitHost := OmitHost u;
            ForceQuery := ForceQuery u; RawQuery := RawQuery u;
            Fragment := Fragment u |}
  end.

(** URL.setFragment, without the [RawFragment] hint. *)
Definition setFragment (u : URL) (f : string) : result URL :=
  match unescape f encodeFragment with
  | Err e => Err e
  | Ok frag =>
      Ok {| Scheme := Scheme u; Opaque := Opaque u; User := User u;
            Host := Host u; Path := Path u; OmitHost := OmitHost u;
            ForceQuery := ForceQuery u; RawQuery := RawQuery u;
            Fragment := frag |}
  end.

(** parse(rawURL, viaRequest) *)
Definition parse (rawURL : string) (viaRequest : bool) : result URL :=
  if stringContainsCTLByte rawURL then
    Err "net/url: invalid control character in URL"
  else if String.eqb rawURL "" && viaRequest then Err "empty url"
  else if String.eqb rawURL "*" then
    Ok {| Scheme := ""; Opaque := ""; User := None; Host := ""; Path := "*";
          OmitHost := false; ForceQuery := false; RawQuery := "";
          Fragment := "" |}
  else
    match getScheme rawURL with
    | Err e => Err e
    | Ok (scheme0, rest0) =>
        let scheme := ToLower scheme0 in
        let '(rest, forceQuery, rawQuery) :=
          if HasSuffix rest0 "?" && (Count rest0 "?" =? 1)%nat
          then (take (String.length rest0 - 1) rest0, true, "")
          else let (r, q) := Cut rest0 "?" in (r, false, q) in
        if negb (HasPrefix rest "/") && negb (String.eqb scheme "") then
          (* rootless paths are opaque *)
          Ok {| Scheme := scheme; Opaque := rest; User := None; Host := "";
                Path := ""; OmitHost := false; ForceQuery := forceQuery;
                RawQuery := rawQuery; Fragment := "" |}
        else if negb (HasPrefix rest "/") && viaRequest then
          Err "invalid URI for request"
        else if negb (HasPrefix rest "/")
                && Contains (fst (Cut rest "/")) ":" then
          Err "first path segment in URL cannot contain colon"
        else if (negb (String.eqb scheme "")
                 || negb viaRequest && negb (HasPrefix rest "///"))
                && HasPrefix rest "//" then
          let authority0 := drop 2 rest in
          let '(authority, rest') :=
            match IndexByte authority0 "/" with
            | Some i => (take i authority0, drop i authority0)
            | None => (authority0, "")
            end in
          match parseAuthority authority with
          | Err e => Err e
          | Ok (user, host) =>
              setPath {| Scheme := scheme; Opaque := ""; User := user;
                         Host := host; Path := ""; OmitHost := false;
                         ForceQuery := forceQuery; RawQuery := rawQuery;
                         Fragment := "" |} rest'
          end
        else
          setPath {| Scheme := scheme; Opaque := ""; User := None; Host := "";
                     Path := "";
                     OmitHost := negb (String.eqb scheme "") && HasPrefix rest "/";
                     ForceQuery := forceQuery; RawQuery := rawQuery;
                     Fragment := "" |} rest
    end.

(** url.Parse *)
Definition Parse (rawURL : string) : result URL :=
  let (u, frag) := Cut rawURL "#" in
  match parse u false with
  | Err e => Err ("parse: " +:+ e)
  | Ok url =>
      if String.eqb frag "" then Ok url
      else match setFragment url frag with
           | Err e => Err ("parse: " +:+ e)
           | Ok url' => Ok url'
           end
  end.

(** splitHostPort: drop a valid [:port], then a pair of square brackets. *)
Definition splitHostPort (hostPort : string) : string * string :=
  let '(host, port) :=
    match LastIndexByte hostPort ":" with
    | Some colon =>
        if validOptionalPort (drop colon hostPort)
        then (take colon hostPort, drop (S colon) hostPort)
        else (hostPort, "")
    | None => (hostPort, "")
    end in
  if HasPrefix host "[" && HasSuffix host "]"
  then (take (String.length host - 2) (drop 1 host), port)
  else (host, port).

(** URL.Hostname *)
Definition Hostname (u : URL) : string := fst (splitHostPort (Host u)).

End GoURL.

(** ** The validator (main.go:118-128, and verbatim in every other variant;
       [isValidYouTubeURL] in the streamer package) *)
Module Validator.

Definition isYouTubeURL (u : string) : bool :=
  match GoURL.Parse u with
  | Err _ => false
  | Ok parsed =>
      let host := GoURL.Hostname parsed in
      String.eqb host "youtube.com"
      || String.eqb host "www.youtube.com"
      || String.eqb host "youtu.be"
      || String.eqb host "music.youtube.com"
  end.

(** The four host names the comparison chain lists. *)
Definition allowed_hosts : list string :=
  ["youtube.com"; "www.youtube.com"; "youtu.be"; "music.youtube.com"].

End Validator.

(** ** The handlers' surroundings *)
Module Sys.

(** The two child processes of a request: [ytdlpCmd] and [ffmpegCmd]. *)
Inductive Proc := Extractor | Transcoder.

Definition Proc_eqb (p q : Proc) : bool :=
  match p, q with
  | Extractor, Extractor | Transcoder, Transcoder => true
  | _, _ => false
  end.

(** context.Context as the handlers build it: the request's own context
    ([r.Context()], done when the client goes away),
    [context.WithTimeout(parent, d)] with [d] in milliseconds, and the
    context that is never done, which [exec.Command] stands for. *)
Inductive Context :=
| Background
| RequestContext
| WithTimeout (parent : Context) (ms : Z).

(** exec.Cmd as built by [exec.CommandContext(ctx, name, arg...)]. *)
Record Cmd := CommandContext {
  cmd_ctx : Context;
  cmd_name : string;
  cmd_args : list string
}.

Definition Command (name : string) (args : list string) : Cmd :=
  CommandContext Background name args.

(** A non-nil error of a [Read]: [io.EOF] or anything else. *)
Inductive ReadErr := EOF | ReadFailure (msg : string).

(** One call of [Read(buf)]: the [n] bytes put in [buf[:n]] and [err]. *)
Record ReadResult := {
  data : list Byte.byte;
  rerr : option ReadErr
}.

Inductive LogArg := LStr (s : string) | LInt (n : Z).

(** What a handler does, in program order. *)
Inductive Event :=
| HeaderSet (key value : string)            (* w.Header().Set(key, value) *)
| HttpError (msg : string) (code : nat)     (* http.Error(w, msg, code) *)
| StdoutPipe (p : Proc) (ok : bool)         (* cmd.StdoutPipe() *)
| Start (p : Proc) (c : Cmd) (ok : bool)    (* cmd.Start() *)
| Kill (p : Proc)                           (* cmd.Process.Kill(), result dropped *)
| Wait (p : Proc)                           (* cmd.Wait(), result dropped *)
| GoWatcher                                 (* go func() { <-ctx.Done(); ... }() *)
| Read (r : ReadResult)                     (* ffmpegStdout.Read(buf) *)
| Write (chunk : list Byte.byte) (ok : bool) (* w.Write(chunk) *)
| Flush                                     (* f.Flush() *)
| CancelCtx                                 (* cancel(), deferred *)
| CombinedOutput (c : Cmd)                  (* cmd.CombinedOutput() *)
| Log (format : string) (args : list LogArg). (* log.Printf(format, args...) *)

(** What the surroundings answer: the error (if any) of each pipe creation
    and process start, the successive results of reading the transcoder's
    standard output, the error of the [k]-th call of [w.Write], and
    whether [w] is an [http.Flusher]. *)
Record World := {
  ytdlp_StdoutPipe : option string;
  ytdlp_Start : option string;
  ffmpeg_StdoutPipe : option string;
  ffmpeg_Start : option string;
  reads : list ReadResult;
  write_err : nat -> option string;
  flusher : bool;
  formats_output : result string;
  ytdlp_stderr : string;
  ffmpeg_stderr : string
}.

(** How a piece of handler code ends: it falls through with a value, it
    executes [return], or it is still waiting in a [Read] when the script of
    reads is used up. *)
Inductive Flow (R A : Type) : Type :=
| Next (a : A)
| Return (r : R)
| Blocked.
Arguments Next {R A} a.
Arguments Return {R A} r.
Arguments Blocked {R A}.

Definition Run (R A : Type) : Type := list Event * Flow R A.

Definition ret {R A} (a : A) : Run R A := ([], Next a).

Definition bind {R A B} (k : A -> Run R B) (m : Run R A) : Run R B :=
  match m with
  | (t, Next a) => let rest := k a in (t ++ fst rest, snd rest)
  | (t, Return r) => (t, Return r)
  | (t, Blocked) => (t, Blocked)
  end.

(** The sequencing notations [x ← m; k] and [m;; k] are stdpp's. *)
#[global] Instance Run_ret {R} : MRet (Run R) := fun A a => ret a.
#[global] Instance Run_bind {R} : MBind (Run R) := fun A B k m => bind k m.

Definition emit {R} (e : Event) : Run R unit := ([e], Next tt).
Definition return_ {R A} (r : R) : Run R A := ([], Return r).

(** [if cond { ... }] whose body may [return]. *)
Definition when {R} (b : bool) (m : Run R unit) : Run R unit :=
  if b then m else ret tt.

(** [defer cancel()]: runs when the handler returns, on every path. *)
Definition defer {R A} (e : Event) (m : Run R A) : Run R A :=
  match m with
  | (t, Blocked) => (t, Blocked)
  | (t, f) => (t ++ [e], f)
  end.

Definition trace {R A} (m : Run R A) : list Event := fst m.
Definition flow {R A} (m : Run R A) : Flow R A := snd m.

Definition isNil {A} (e : option A) : bool :=
  match e with None => true | Some _ => false end.

Definition errText (e : option string) : string :=
  match e with Some m => m | None => "<nil>" end.

(** [total += n] on Go's 64-bit [int]. *)
Definition wrap_int (x : Z) : Z :=
  ((x + 2 ^ 63) mod 2 ^ 64 - 2 ^ 63)%Z.
Definition int_add (a b : Z) : Z := wrap_int (a + b).

Definition len (chunk : list Byte.byte) : Z := Z.of_nat (length chunk).

(** *** The calls a handler makes *)
Section Calls.
Context {R : Type}.
Variable w : World.

Definition pipe_result (p : Proc) : option string :=
  match p with
  | Extractor => ytdlp_StdoutPipe w
  | Transcoder => ffmpeg_StdoutPipe w
  end.

Definition start_result (p : Proc) : option string :=
  match p with
  | Extractor => ytdlp_Start w
  | Transcoder => ffmpeg_Start w
  end.

Definition header_Set (k v : string) : Run R unit := emit (HeaderSet k v).
Definition http_Error (msg : string) (code : nat) : Run R unit :=
  emit (HttpError msg code).
Definition cmd_StdoutPipe (p : Proc) : Run R (option string) :=
  ([StdoutPipe p (isNil (pipe_result p))], Next (pipe_result p)).
Definition cmd_Start (p : Proc) (c : Cmd) : Run R (option string) :=
  ([Start p c (isNil (start_result p))], Next (start_result p)).
Definition process_Kill (p : Proc) : Run R unit := emit (Kill p).
Definition cmd_Wait (p : Proc) : Run R unit := emit (Wait p).
Definition w_Write (k : nat) (chunk : list Byte.byte) : Run R (option string) :=
  ([Write chunk (isNil (write_err w k))], Next (write_err w k)).
Definition w_Flush : Run R unit :=
  if flusher w then emit Flush else ret tt.
Definition log_Printf (format : string) (args : list LogArg) : Run R unit :=
  emit (Log format args).
End Calls.

(** *** net/http's response writer, driven by the events

    [status] is the status line once it is committed, [header] the header
    map (frozen when the status is committed), [body] the bytes accepted. *)
Record Response := {
  header : gmap string string;
  status : option nat;
  body : list Byte.byte
}.

Definition fresh : Response :=
  {| header := ∅; status := None; body := [] |}.

Definition StatusOK : nat := 200.
Definition StatusBadRequest : nat := 400.
Definition StatusInternalServerError : nat := 500.
Definition StatusBadGateway : nat := 502.
Definition StatusServiceUnavailable : nat := 503.

Definition resp_step (r : Response) (e : Event) : Response :=
  match e with
  | HeaderSet k v =>
      match status r with
      | None => {| header := <[k := v]> (header r); status := None; body := body r |}
      | Some _ => r
      end
  | HttpError msg code =>
      match status r with
      | None =>
          {| header := <["X-Content-Type-Options" := "nosniff"]>
                         (<["Content-Type" := "text/plain; charset=utf-8"]>
                            (delete "Content-Length" (header r)));
             status := Some code;
             body := body r ++ list_byte_of_string msg ++ [Byte.x0a] |}
      | Some _ =>
          {| header := header r; status := status r;
             body := body r ++ list_byte_of_string msg ++ [Byte.x0a] |}
      end
  | Write chunk ok =>
      {| header := header r;
         status := Some (match status r with Some c => c | None => StatusOK end);
         body := if ok then body r ++ chunk else body r |}
  | _ => r
  end.

(** The response after a trace, and after the handler has returned (when the
    server commits status 200 if the handler wrote nothing). *)
Definition respond (t : list Event) : Response := fold_left resp_step t fresh.

Definition finish (r : Response) : Response :=
  {| header := header r;
     status := Some (match status r with Some c => c | None => StatusOK end);
     body := body r |}.

(** *** Which processes are alive after a trace *)
Definition alive_step (p : Proc) (alive : bool) (e : Event) : bool :=
  match e with
  | Start q _ true => if Proc_eqb p q then true else alive
  | Kill q | Wait q => if Proc_eqb p q then false else alive
  | _ => alive
  end.

Definition running (t : list Event) (p : Proc) : bool :=
  fold_left (alive_step p) t false.

Definition is_Kill (p : Proc) (e : Event) : bool :=
  match e with Kill q => Proc_eqb p q | _ => false end.

Definition is_HttpError (e : Event) : bool :=
  match e with HttpError _ _ => true | _ => false end.

Definition is_process_event (e : Event) : bool :=
  match e with
  | StdoutPipe _ _ | Start _ _ _ | Kill _ | Wait _ | CombinedOutput _ => true
  | _ => false
  end.

Definition count (f : Event -> bool) (t : list Event) : nat :=
  length (List.filter f t).

(** *** Deadlines

    Time is counted in milliseconds from the moment the handler builds its
    context.  A context is done when the client has gone or when one of its
    timeouts has run out, whichever is first. *)
Fixpoint done_at (client_gone : option Z) (c : Context) : option Z :=
  match c with
  | Background => None
  | RequestContext => client_gone
  | WithTimeout parent ms =>
      match done_at client_gone parent with
      | Some t => Some (Z.min t ms)
      | None => Some ms
      end
  end.

(** A transcoder left alone delivers its output on a timeline: each entry is
    the instant a [Read] returns and what it returns. *)
Definition Timeline := list (Z * ReadResult).

(** os/exec kills a process started with [CommandContext] when the command's
    context is done; the reader of its standard output then sees the end of
    the stream instead of whatever the process had still to deliver. *)
Fixpoint observe (kill : option Z) (tl : Timeline) : list ReadResult :=
  match tl with
  | [] => []
  | (t, r) :: tl' =>
      match kill with
      | Some k =>
          if (k <=? t)%Z then [ {| data := []; rerr := Some EOF |} ]
          else r :: observe kill tl'
      | None => r :: observe kill tl'
      end
  end.

Definition with_reads (w : World) (rs : list ReadResult) : World :=
  {| ytdlp_StdoutPipe := ytdlp_StdoutPipe w; ytdlp_Start := ytdlp_Start w;
     ffmpeg_StdoutPipe := ffmpeg_StdoutPipe w; ffmpeg_Start := ffmpeg_Start w;
     reads := rs; write_err := write_err w; flusher := flusher w;
     formats_output := formats_output w;
     ytdlp_stderr := ytdlp_stderr w; ffmpeg_stderr := ffmpeg_stderr w |}.

End Sys.

(** ** The process environment and strconv.Atoi *)
Module Environ.

(** The environment as the program sees it once [godotenv.Load()] has run:
    a finite map from variable names to values. *)
Abbreviation Env := (gmap string string).

(** os.Getenv: the value, or the empty string when the variable is not set. *)
Definition Getenv (env : Env) (key : string) : string :=
  match env !! key with
  | Some v => v
  | None => ""
  end.

(** os.LookupEnv: the value and whether the variable is set. *)
Definition LookupEnv (env : Env) (key : string) : option string := env !! key.

Definition is_digit (c : ascii) : bool := Strings.byte_in "0" "9" c.

Fixpoint digits_value (acc : Z) (s : string) : Z :=
  match s with
  | EmptyString => acc
  | String c s' =>
      digits_value (acc * 10 + Z.of_nat (nat_of_ascii c - 48))%Z s'
  end.

(** strconv.Atoi on a 64-bit platform: an optional sign, then at least one
    decimal digit and nothing else, the value within the range of [int].  The
    callers in this repository look at the error only. *)
Definition Atoi (s : string) : result Z :=
  match s with
  | EmptyString => Err "invalid syntax"
  | String c rest =>
      let neg := Ascii.eqb c "-" in
      let digits := if neg || Ascii.eqb c "+" then rest else s in
      if String.eqb digits "" then Err "invalid syntax"
      else if negb (forallb is_digit (list_ascii_of_string digits)) then
        Err "invalid syntax"
      else
        let un := digits_value 0 digits in
        if negb neg && (2 ^ 63 <=? un)%Z then Err "value out of range"
        else if neg && (2 ^ 63 <? un)%Z then Err "value out of range"
        else Ok (if neg then - un else un)%Z
  end.

Definition isErr {A} (r : result A) : bool :=
  match r with Ok _ => false | Err _ => true end.

End Environ.

(** ** The route wrappers of [main]: what they do around a handler *)
Module Mux.
Import Sys.

(** A step of a route function: something the handler it calls does, or the
    route's own [w.WriteHeader(code)]. *)
Inductive Step :=
| Inner (e : Event)
| WriteHeader (code : nat).

Definition route_step (r : Response) (s : Step) : Response :=
  match s with
  | Inner e => resp_step r e
  | WriteHeader code =>
      match status r with
      | None => {| header := header r; status := Some code; body := body r |}
      | Some _ => r
      end
  end.

Definition respond (t : list Step) : Response := fold_left route_step t fresh.

Definition is_process_step (s : Step) : bool :=
  match s with
  | Inner e => is_process_event e
  | WriteHeader _ => false
  end.

End Mux.


(** ** main.go *)
Module MainGo.
Import Sys Validator.

(** main.go:32 *)
Definition ctx : Context := WithTimeout RequestContext (45 * 1000).

(** main.go:35-41 *)
Definition ytdlpCmd (vidURL : string) : Cmd :=
  CommandContext ctx "yt-dlp"
    ["-f"; "bestaudio[ext=m4a]/bestaudio";
     "-o"; "-";
     "--no-warnings";
     "--quiet";
     vidURL].

(** main.go:43-52 *)
Definition ffmpegCmd : Cmd :=
  CommandContext ctx "ffmpeg"
    ["-hide_banner"; "-loglevel"; "error";
     "-i"; "pipe:0";
     "-f"; "mp3";
     "-ac"; "2";
     "-ar"; "44100";
     "-b:a"; "128k";
     "-vn";
     "pipe:1"].

(** main.go:88-92, the body of the goroutine once [r.Context()] is done. *)
Definition watcher : list Event := [Kill Extractor; Kill Transcoder].

(** main.go:96-112.  [k] counts the calls of [w.Write] made so far. *)
Fixpoint relay (w : World) (rs : list ReadResult) (k : nat) : Run unit unit :=
  match rs with
  | [] => ([], Blocked)
  | r :: rs' =>
      emit (Read r);;
      (if (0 <? length (data r))%nat then
         writeErr ← w_Write w k (data r);
         match writeErr with
         | Some _ =>
             process_Kill Extractor;;
             process_Kill Transcoder;;
             return_ tt
         | None => w_Flush w
         end
       else ret tt);;
      match rerr r with
      | Some _ => ret tt
      | None => relay w rs' (if (0 <? length (data r))%nat then S k else k)
      end
  end.

(** main.go:12-116 *)
Definition streamHandler (w : World) (vidURL : string) : Run unit unit :=
  if String.eqb vidURL "" then
    http_Error "Missing ?url=..." StatusBadRequest;;
    return_ tt
  else if negb (isYouTubeURL vidURL) then
    http_Error "Only YouTube/YouTube Music URLs allowed" StatusBadRequest;;
    return_ tt
  else
    header_Set "Content-Type" "audio/mpeg";;
    header_Set "Cache-Control" "no-cache";;
    header_Set "Connection" "keep-alive";;
    defer CancelCtx (
      err ← cmd_StdoutPipe w Extractor;
      when (negb (isNil err)) (
        log_Printf "yt-dlp StdoutPipe failed: %v" [LStr (errText err)];;
        http_Error "Internal error" StatusInternalServerError;;
        return_ tt);;
      err ← cmd_Start w Extractor (ytdlpCmd vidURL);
      when (negb (isNil err)) (
        log_Printf "yt-dlp failed to start: %v" [LStr (errText err)];;
        http_Error "Audio fetch failed" StatusServiceUnavailable;;
        return_ tt);;
      err ← cmd_StdoutPipe w Transcoder;
      when (negb (isNil err)) (
        process_Kill Extractor;;
        log_Printf "ffmpeg StdoutPipe failed: %v" [LStr (errText err)];;
        http_Error "Encoder setup failed" StatusInternalServerError;;
        return_ tt);;
      err ← cmd_Start w Transcoder ffmpegCmd;
      when (negb (isNil err)) (
        process_Kill Extractor;;
        log_Printf "ffmpeg failed to start: %v" [LStr (errText err)];;
        http_Error "Encoding failed" StatusInternalServerError;;
        return_ tt);;
      emit GoWatcher;;
      relay w (reads w) 0;;
      cmd_Wait Transcoder;;
      cmd_Wait Extractor).

End MainGo.

(** ** main_simple.go: main.go with the two tool paths read from the
       environment.  Only the pipeline construction is modelled here. *)
Module MainSimpleGo.
Import Sys.

(** main_simple.go:58 *)
Definition ctx : Context := WithTimeout RequestContext (45 * 1000).

(** main_simple.go:62-68 *)
Definition ytdlpCmd (ytDlpPath vidURL : string) : Cmd :=
  CommandContext ctx ytDlpPath
    ["-f"; "bestaudio[ext=m4a]/bestaudio";
     "-o"; "-";
     "--no-warnings";
     "--quiet";
     vidURL].

(** main_simple.go:70-79 *)
Definition ffmpegCmd (ffmpegPath : string) : Cmd :=
  CommandContext ctx ffmpegPath
    ["-hide_banner"; "-loglevel"; "error";
     "-i"; "pipe:0";
     "-f"; "mp3";
     "-ac"; "2";
     "-ar"; "44100";
     "-b:a"; "128k";
     "-vn";
     "pipe:1"].

(** main_simple.go:34-39 *)
Definition getEnv (env : Environ.Env) (key fallback : string) : string :=
  let v := Environ.Getenv env key in
  if negb (String.eqb v "") then v else fallback.

(** main_simple.go:18-32.  The result is the four values and what was
    logged. *)
Definition getConfig (env : Environ.Env)
  : (string * string * string * string) * list Event :=
  let host := getEnv env "HOST" "" in
  let port := getEnv env "PORT" "8080" in
  let ytDlpPath := getEnv env "YT_DLP_PATH" "yt-dlp" in
  let ffmpegPath := getEnv env "FFMPEG_PATH" "ffmpeg" in
  if Environ.isErr (Environ.Atoi port) then
    ((host, "8080", ytDlpPath, ffmpegPath),
     [Log "⚠️ Invalid PORT='%s', using 8080" [LStr port]])
  else ((host, port, ytDlpPath, ffmpegPath), []).

(** main_simple.go:117-132 *)
Fixpoint relay (w : World) (rs : list ReadResult) (k : nat) : Run unit unit :=
  match rs with
  | [] => ([], Blocked)
  | r :: rs' =>
      emit (Read r);;
      (if (0 <? length (data r))%nat then
         writeErr ← w_Write w k (data r);
         match writeErr with
         | Some _ =>
             process_Kill Extractor;;
             process_Kill Transcoder;;
             return_ tt
         | None => w_Flush w
         end
       else ret tt);;
      match rerr r with
      | Some _ => ret tt
      | None => relay w rs' (if (0 <? length (data r))%nat then S k else k)
      end
  end.

(** main_simple.go:41-137 *)
Definition streamHandler (ytDlpPath ffmpegPath : string)
    (w : World) (vidURL : string) : Run unit unit :=
  if String.eqb vidURL "" then
    http_Error "Missing ?url=..." StatusBadRequest;;
    return_ tt
  else if negb (Validator.isYouTubeURL vidURL) then
    http_Error "Only YouTube/YouTube Music URLs allowed" StatusBadRequest;;
    return_ tt
  else
    header_Set "Content-Type" "audio/mpeg";;
    header_Set "Cache-Control" "no-cache";;
    header_Set "Connection" "keep-alive";;
    defer CancelCtx (
      err ← cmd_StdoutPipe w Extractor;
      when (negb (isNil err)) (
        log_Printf "yt-dlp pipe: %v" [LStr (errText err)];;
        http_Error "Internal error" StatusInternalServerError;;
        return_ tt);;
      err ← cmd_Start w Extractor (ytdlpCmd ytDlpPath vidURL);
      when (negb (isNil err)) (
        log_Printf "yt-dlp start (%s): %v" [LStr ytDlpPath; LStr (errText err)];;
        http_Error "yt-dlp failed — check YT_DLP_PATH" StatusServiceUnavailable;;
        return_ tt);;
      err ← cmd_StdoutPipe w Transcoder;
      when (negb (isNil err)) (
        process_Kill Extractor;;
        log_Printf "ffmpeg pipe: %v" [LStr (errText err)];;
        http_Error "Encoder setup failed" StatusInternalServerError;;
        return_ tt);;
      err ← cmd_Start w Transcoder (ffmpegCmd ffmpegPath);
      when (negb (isNil err)) (
        process_Kill Extractor;;
        log_Printf "ffmpeg start (%s): %v" [LStr ffmpegPath; LStr (errText err)];;
        http_Error "ffmpeg failed — check FFMPEG_PATH" StatusInternalServerError;;
        return_ tt);;
      emit GoWatcher;;
      relay w (reads w) 0;;
      cmd_Wait Transcoder;;
      cmd_Wait Extractor).

End MainSimpleGo.

(** ** main2.go: the single-stage variant.  Only the construction of the
       extractor's argument list is modelled here. *)
Module Main2Go.
Import Sys.

(** main2.go:53 *)
Definition ctx : Context := RequestContext.

(** main2.go:56-71 *)
Definition ytdlpArgs (cookiesPath vidURL : string) : list string :=
  let ytdlpArgs :=
    ["--extractor-args"; "youtube:player_client=web,ios,android;include_live_dash";
     "--compat-options"; "no-youtube-unavailable-videos";
     "-f"; "best[ext=mp4][acodec~='mp4a']/best[ext=mp4]/best";
     "--extract-audio";
     "--audio-format"; "mp3";
     "--audio-quality"; "0";
     "-o"; "-";
     "--quiet";
     "--no-warnings"] in
  let ytdlpArgs :=
    if negb (String.eqb cookiesPath "")
    then ytdlpArgs ++ ["--cookies"; cookiesPath]
    else ytdlpArgs in
  ytdlpArgs ++ [vidURL].

(** main2.go:73 *)
Definition cmd (ytDlpPath cookiesPath vidURL : string) : Cmd :=
  CommandContext ctx ytDlpPath (ytdlpArgs cookiesPath vidURL).

(** main2.go:28-33 *)
Definition getEnv (env : Environ.Env) (key fallback : string) : string :=
  let v := Environ.Getenv env key in
  if negb (String.eqb v "") then v else fallback.

(** main2.go:15-26 *)
Definition getConfig (env : Environ.Env)
  : (string * string * string * string) * list Event :=
  let host := getEnv env "HOST" "" in
  let port := getEnv env "PORT" "8080" in
  let ytDlpPath := getEnv env "YT_DLP_PATH" "yt-dlp" in
  let cookiesPath := getEnv env "COOKIES_PATH" "" in
  if Environ.isErr (Environ.Atoi port) then
    ((host, "8080", ytDlpPath, cookiesPath),
     [Log "⚠️ Invalid PORT='%s', using 8080" [LStr port]])
  else ((host, port, ytDlpPath, cookiesPath), []).

End Main2Go.

(** ** The debug variant (two-stage, with cookies and a format-listing
       branch) *)
Module DebugGo.
Import Sys Validator.

Definition newline : string := String (ascii_of_nat 10) EmptyString.

(** lines 38-51 *)
Definition listFormats_cmd (ytDlpPath cookiesPath vidURL : string) : Cmd :=
  let args := ["--list-formats"] in
  let args :=
    if negb (String.eqb cookiesPath "")
    then args ++ ["--cookies"; cookiesPath]
    else args in
  Command ytDlpPath (args ++ [vidURL]).

Definition listFormats {R} (w : World) (ytDlpPath cookiesPath vidURL : string)
  : Run R string :=
  emit (CombinedOutput (listFormats_cmd ytDlpPath cookiesPath vidURL));;
  match formats_output w with
  | Err e => ret ("Failed to list formats: " +:+ e)
  | Ok output => ret output
  end.

(** line 81 *)
Definition ctx : Context := RequestContext.

(** lines 86-97 *)
Definition ytdlpArgs (cookiesPath vidURL : string) : list string :=
  let ytdlpArgs :=
    ["-f"; "worst";
     "-o"; "-";
     "--no-warnings"] in
  let ytdlpArgs :=
    if negb (String.eqb cookiesPath "")
    then ytdlpArgs ++ ["--cookies"; cookiesPath]
    else ytdlpArgs in
  ytdlpArgs ++ [vidURL].

Definition ytdlpCmd (ytDlpPath cookiesPath vidURL : string) : Cmd :=
  CommandContext ctx ytDlpPath (ytdlpArgs cookiesPath vidURL).

(** lines 100-109 *)
Definition ffmpegCmd (ffmpegPath : string) : Cmd :=
  CommandContext ctx ffmpegPath
    ["-i"; "pipe:0";
     "-vn";
     "-f"; "mp3";
     "-ac"; "2";
     "-ar"; "44100";
     "-b:a"; "128k";
     "-loglevel"; "warning";
     "pipe:1"].

(** lines 151-156, the body of the goroutine once [ctx] is done. *)
Definition watcher (vidURL : string) : list Event :=
  [Kill Extractor; Kill Transcoder;
   Log "🛑 Stream stopped: %s" [LStr vidURL]].

Definition is_EOF (e : ReadErr) : bool :=
  match e with EOF => true | ReadFailure _ => false end.

Definition readErrText (e : ReadErr) : string :=
  match e with EOF => "EOF" | ReadFailure m => m end.

(** lines 163-183.  [k] counts the calls of [w.Write] made so far; the loop
    hands [total] on to the code after it. *)
Fixpoint relay (w : World) (rs : list ReadResult) (k : nat) (total : Z)
  : Run unit Z :=
  match rs with
  | [] => ([], Blocked)
  | r :: rs' =>
      emit (Read r);;
      total ← (if (0 <? length (data r))%nat then
                 let total := int_add total (len (data r)) in
                 e ← w_Write w k (data r);
                 match e with
                 | Some _ =>
                     log_Printf "Client left after %d bytes" [LInt total];;
                     process_Kill Extractor;;
                     process_Kill Transcoder;;
                     return_ tt
                 | None => w_Flush w;; ret total
                 end
               else ret total);
      match rerr r with
      | Some err =>
          when (negb (is_EOF err))
               (log_Printf "⚠️ Read error: %v" [LStr (readErrText err)]);;
          ret total
      | None => relay w rs' (if (0 <? length (data r))%nat then S k else k) total
      end
  end.

(** lines 53-203 *)
Definition streamHandler (ytDlpPath ffmpegPath cookiesPath : string)
    (w : World) (vidURL debug : string) : Run unit unit :=
  if String.eqb vidURL "" then
    http_Error "Missing ?url=..." StatusBadRequest;;
    return_ tt
  else if negb (isYouTubeURL vidURL) then
    http_Error "Only YouTube/YouTube Music URLs allowed" StatusBadRequest;;
    return_ tt
  else if String.eqb debug "1" || String.eqb debug "true" then
    header_Set "Content-Type" "text/plain";;
    formats ← listFormats w ytDlpPath cookiesPath vidURL;
    w_Write w 0 (list_byte_of_string
                   ("=== Available Formats ===" +:+ newline +:+ newline));;
    w_Write w 1 (list_byte_of_string formats);;
    return_ tt
  else
    header_Set "Content-Type" "audio/mpeg";;
    header_Set "Cache-Control" "no-cache";;
    header_Set "Connection" "keep-alive";;
    header_Set "Accept-Ranges" "none";;
    header_Set "Transfer-Encoding" "chunked";;
    log_Printf "🔍 Starting stream for: %s" [LStr vidURL];;
    err ← cmd_StdoutPipe w Extractor;
    when (negb (isNil err)) (
      log_Printf "❌ yt-dlp pipe error: %v" [LStr (errText err)];;
      http_Error "Setup failed" StatusInternalServerError;;
      return_ tt);;
    err ← cmd_StdoutPipe w Transcoder;
    when (negb (isNil err)) (
      log_Printf "❌ ffmpeg pipe error: %v" [LStr (errText err)];;
      http_Error "ffmpeg setup failed" StatusInternalServerError;;
      return_ tt);;
    err ← cmd_Start w Extractor (ytdlpCmd ytDlpPath cookiesPath vidURL);
    when (negb (isNil err)) (
      log_Printf "❌ yt-dlp start failed: %v" [LStr (errText err)];;
      http_Error "yt-dlp failed" StatusServiceUnavailable;;
      return_ tt);;
    err ← cmd_Start w Transcoder (ffmpegCmd ffmpegPath);
    when (negb (isNil err)) (
      process_Kill Extractor;;
      log_Printf "❌ ffmpeg start failed: %v" [LStr (errText err)];;
      http_Error "ffmpeg failed" StatusInternalServerError;;
      return_ tt);;
    log_Printf "🎵 Streaming: %s" [LStr vidURL];;
    emit GoWatcher;;
    total ← relay w (reads w) 0 0;
    cmd_Wait Transcoder;;
    cmd_Wait Extractor;;
    when (0 <? String.length (ytdlp_stderr w))%nat
         (log_Printf "yt-dlp stderr: %s" [LStr (ytdlp_stderr w)]);;
    when (0 <? String.length (ffmpeg_stderr w))%nat
         (log_Printf "ffmpeg stderr: %s" [LStr (ffmpeg_stderr w)]);;
    when (total =? 0)%Z
         (log_Printf "❌ WARNING: Stream completed but sent 0 bytes!" []);;
    log_Printf "✅ Stream done: %s (%d bytes)" [LStr vidURL; LInt total].

(** lines 31-36 *)
Definition getEnv (env : Environ.Env) (key fallback : string) : string :=
  let v := Environ.Getenv env key in
  if negb (String.eqb v "") then v else fallback.

(** lines 17-29 *)
Definition getConfig (env : Environ.Env)
  : (string * string * string * string * string) * list Event :=
  let host := getEnv env "HOST" "" in
  let port := getEnv env "PORT" "8080" in
  let ytDlpPath := getEnv env "YT_DLP_PATH" "yt-dlp" in
  let ffmpegPath := getEnv env "FFMPEG_PATH" "ffmpeg" in
  let cookiesPath := getEnv env "COOKIES_PATH" "" in
  if Environ.isErr (Environ.Atoi port) then
    ((host, "8080", ytDlpPath, ffmpegPath, cookiesPath),
     [Log "⚠️ Invalid PORT='%s', using 8080" [LStr port]])
  else ((host, port, ytDlpPath, ffmpegPath, cookiesPath), []).

(** lines 221-230, the function registered for /radio/stream in [main]. *)
Definition radio_stream (ytDlpPath ffmpegPath cookiesPath : string)
    (w : World) (method vidURL debug : string) : list Mux.Step :=
  [Mux.Inner (HeaderSet "Access-Control-Allow-Origin" "*");
   Mux.Inner (HeaderSet "Access-Control-Allow-Methods" "GET, OPTIONS");
   Mux.Inner (HeaderSet "Access-Control-Allow-Headers" "Content-Type")]
  ++ if String.eqb method "OPTIONS" then [Mux.WriteHeader StatusOK]
     else map Mux.Inner
              (trace (streamHandler ytDlpPath ffmpegPath cookiesPath w vidURL debug)).

End DebugGo.

(** ** Package streamer *)
Module StreamerGo.
Import Sys.

(** lines 103-113 *)
Definition isValidYouTubeURL (u : string) : bool :=
  match GoURL.Parse u with
  | Err _ => false
  | Ok parsed =>
      let host := GoURL.Hostname parsed in
      String.eqb host "youtube.com"
      || String.eqb host "www.youtube.com"
      || String.eqb host "youtu.be"
      || String.eqb host "music.youtube.com"
  end.

(** lines 27-33 *)
Definition ytdlpCmd (ctx : Context) (ytURL : string) : Cmd :=
  CommandContext ctx "yt-dlp"
    ["-f"; "bestaudio[ext=m4a]/bestaudio";
     "--no-warnings";
     "--quiet";
     "-o"; "-";
     ytURL].

(** lines 35-44 *)
Definition ffmpegCmd (ctx : Context) : Cmd :=
  CommandContext ctx "ffmpeg"
    ["-hide_banner"; "-loglevel"; "error";
     "-i"; "pipe:0";
     "-f"; "mp3";
     "-ac"; "2";
     "-ar"; "44100";
     "-b:a"; "128k";
     "-vn";
     "pipe:1"].

(** lines 68-72, the body of the goroutine once [ctx] is done. *)
Definition watcher : list Event := [Kill Extractor; Kill Transcoder].

(** lines 76-93.  The function's result is Go's [error]: [None] is nil. *)
Fixpoint relay (w : World) (rs : list ReadResult) (k : nat)
  : Run (option string) unit :=
  match rs with
  | [] => ([], Blocked)
  | r :: rs' =>
      emit (Read r);;
      (if (0 <? length (data r))%nat then
         writeErr ← w_Write w k (data r);
         match writeErr with
         | Some _ => return_ (Some "client disconnected")
         | None => w_Flush w
         end
       else ret tt);;
      match rerr r with
      | Some EOF => ret tt
      | Some (ReadFailure m) => return_ (Some ("ffmpeg read: " +:+ m))
      | None => relay w rs' (if (0 <? length (data r))%nat then S k else k)
      end
  end.

(** lines 16-100 *)
Definition StreamFromURL (ctx : Context) (w : World) (ytURL : string)
  : Run (option string) unit :=
  if negb (isValidYouTubeURL ytURL) then
    return_ (Some ("invalid YouTube URL: " +:+ ytURL))
  else
    header_Set "Content-Type" "audio/mpeg";;
    header_Set "Cache-Control" "no-cache";;
    header_Set "Connection" "keep-alive";;
    err ← cmd_StdoutPipe w Extractor;
    when (negb (isNil err))
         (return_ (Some ("yt-dlp stdout pipe: " +:+ errText err)));;
    err ← cmd_StdoutPipe w Transcoder;
    when (negb (isNil err))
         (return_ (Some ("ffmpeg stdout pipe: " +:+ errText err)));;
    err ← cmd_Start w Extractor (ytdlpCmd ctx ytURL);
    when (negb (isNil err))
         (return_ (Some ("yt-dlp start: " +:+ errText err)));;
    err ← cmd_Start w Transcoder (ffmpegCmd ctx);
    when (negb (isNil err)) (
      process_Kill Extractor;;
      return_ (Some ("ffmpeg start: " +:+ errText err)));;
    emit GoWatcher;;
    relay w (reads w) 0;;
    cmd_Wait Transcoder;;
    cmd_Wait Extractor;;
    return_ None.

(** lines 117-136 *)
Definition ServeHTTP (w : World) (ytURL : string) : Run unit unit :=
  if String.eqb ytURL "" then
    http_Error "Missing ?url=YouTube_URL" StatusBadRequest;;
    return_ tt
  else
    let ctx := WithTimeout RequestContext (45 * 1000) in
    defer CancelCtx (
      log_Printf "Streaming: %s" [LStr ytURL];;
      match StreamFromURL ctx w ytURL with
      | (t, Return (Some err)) =>
          (t, Next tt);;
          log_Printf "Stream failed: %v" [LStr err];;
          http_Error "Stream error" StatusServiceUnavailable
      | (t, Return None) => (t, Next tt)
      | (t, Next _) => (t, Next tt)
      | (t, Blocked) => (t, Blocked)
      end).

End StreamerGo.

(** ** The plain variant: main.go with the listen address read from the
       environment.  Only the configuration is modelled here; its handler is
       main.go's, message texts apart. *)
Module PlainGo.
Import Sys.

(** [getEnv], with [os.LookupEnv] *)
Definition getEnv (env : Environ.Env) (key fallback : string) : string :=
  match Environ.LookupEnv env key with
  | Some value => value
  | None => fallback
  end.

(** [loadConfig] *)
Definition loadConfig (env : Environ.Env) : (string * string) * list Event :=
  let host := getEnv env "HOST" "" in
  let port := getEnv env "PORT" "8080" in
  if Environ.isErr (Environ.Atoi port) then
    ((host, "8080"), [Log "⚠️ Invalid PORT='%s', using 8080" [LStr port]])
  else ((host, port), []).

End PlainGo.

(** * The vocabulary of the statements *)

(** ** Sample surroundings, used where a statement is tried on a concrete
       request *)
Module Samples.
Import Sys.

Definition chunk (bs : list Byte.byte) : ReadResult :=
  {| data := bs; rerr := None |}.
Definition last_chunk (bs : list Byte.byte) (e : ReadErr) : ReadResult :=
  {| data := bs; rerr := Some e |}.

(** Every set-up step succeeds, the client takes every write, and the
    transcoder delivers [rs]. *)
Definition healthy (rs : list ReadResult) : World :=
  {| ytdlp_StdoutPipe := None; ytdlp_Start := None;
     ffmpeg_StdoutPipe := None; ffmpeg_Start := None;
     reads := rs; write_err := fun _ => None; flusher := true;
     formats_output := Ok ""; ytdlp_stderr := ""; ffmpeg_stderr := "" |}.

(** As [healthy], but the client is gone from the [k]-th write on. *)
Definition client_leaves_at (k : nat) (rs : list ReadResult) : World :=
  {| ytdlp_StdoutPipe := None; ytdlp_Start := None;
     ffmpeg_StdoutPipe := None; ffmpeg_Start := None;
     reads := rs;
     write_err := fun i => if (i <? k)%nat then None else Some "broken pipe";
     flusher := true;
     formats_output := Ok ""; ytdlp_stderr := ""; ffmpeg_stderr := "" |}.

(** As [healthy], but the transcoder binary cannot be started. *)
Definition no_ffmpeg : World :=
  {| ytdlp_StdoutPipe := None; ytdlp_Start := None;
     ffmpeg_StdoutPipe := None;
     ffmpeg_Start := Some "exec: ffmpeg: executable file not found in $PATH";
     reads := []; write_err := fun _ => None; flusher := true;
     formats_output := Ok ""; ytdlp_stderr := ""; ffmpeg_stderr := "" |}.

Definition good_url : string := "https://youtu.be/abc123".
Definition evil_url : string := "https://evil.example/abc123".

End Samples.

Section Vocabulary.
Import Sys Validator.

(** [flag] is directly followed by [value]. *)
Definition has_pair (flag value : string) (args : list string) : Prop :=
  exists before after, args = before ++ flag :: value :: after.

(** [x] is the final element. *)
Definition ends_with (x : string) (args : list string) : Prop :=
  exists init, args = init ++ [x].

(** The literal that main2.go starts its list from. *)
Definition main2_fixed_args : list string :=
  ["--extractor-args"; "youtube:player_client=web,ios,android;include_live_dash";
   "--compat-options"; "no-youtube-unavailable-videos";
   "-f"; "best[ext=mp4][acodec~='mp4a']/best[ext=mp4]/best";
   "--extract-audio"; "--audio-format"; "mp3"; "--audio-quality"; "0";
   "-o"; "-"; "--quiet"; "--no-warnings"].

Definition nonempty (r : ReadResult) : bool := (0 <? length (data r))%nat.

Definition flush_events (w : World) : list Event :=
  if flusher w then [Flush] else [].

(** The loop goes through all of [pre]: no read in it carries an error, and
    the client takes every chunk ([k] writes were made before). *)
Fixpoint passes (w : World) (pre : list ReadResult) (k : nat) : bool :=
  match pre with
  | [] => true
  | r :: pre' =>
      isNil (rerr r)
      && (if nonempty r
          then isNil (write_err w k) && passes w pre' (S k)
          else passes w pre' k)
  end.

(** The number of writes the loop makes while going through [pre]. *)
Fixpoint writes_in (pre : list ReadResult) : nat :=
  match pre with
  | [] => 0
  | r :: pre' => (if nonempty r then 1 else 0) + writes_in pre'
  end.

(** The bytes the client has taken once the loop is through [pre]. *)
Fixpoint relayed (pre : list ReadResult) : Z :=
  match pre with
  | [] => 0
  | r :: pre' => len (data r) + relayed pre'
  end.

(** What the loop does while going through [pre]. *)
Fixpoint pass_trace (w : World) (pre : list ReadResult) : list Event :=
  match pre with
  | [] => []
  | r :: pre' =>
      (Read r :: if nonempty r then Write (data r) true :: flush_events w else [])
      ++ pass_trace w pre'
  end.

Definition is_Read (e : Event) : bool :=
  match e with Read _ => true | _ => false end.
Definition is_Write (e : Event) : bool :=
  match e with Write _ _ => true | _ => false end.
Definition is_Flush (e : Event) : bool :=
  match e with Flush => true | _ => false end.

(** What the handler itself does: the trace without the answers of [Read]. *)
Definition outputs (t : list Event) : list Event :=
  List.filter (fun e => negb (is_Read e)) t.

(** [total] after the loop of the debug variant went through [pre]. *)
Fixpoint total_after (total : Z) (pre : list ReadResult) : Z :=
  match pre with
  | [] => total
  | r :: pre' =>
      total_after (if nonempty r then int_add total (len (data r)) else total)
                  pre'
  end.

Definition read_error_log (e : ReadErr) : list Event :=
  if DebugGo.is_EOF e then []
  else [Log "⚠️ Read error: %v" [LStr (DebugGo.readErrText e)]].

(** Both pipes are created and both processes start. *)
Definition setup_ok (w : World) : bool :=
  isNil (ytdlp_StdoutPipe w) && isNil (ytdlp_Start w)
  && isNil (ffmpeg_StdoutPipe w) && isNil (ffmpeg_Start w).

(** What main.go does before it enters the loop, when set-up succeeds. *)
Definition main_setup_trace (vidURL : string) : list Event :=
  [HeaderSet "Content-Type" "audio/mpeg";
   HeaderSet "Cache-Control" "no-cache";
   HeaderSet "Connection" "keep-alive";
   StdoutPipe Extractor true;
   Start Extractor (MainGo.ytdlpCmd vidURL) true;
   StdoutPipe Transcoder true;
   Start Transcoder MainGo.ffmpegCmd true;
   GoWatcher].

(** What main.go does after the loop, by the way the loop ended. *)
Definition main_after_loop (f : Flow unit unit) : list Event :=
  match f with
  | Next _ => [Wait Transcoder; Wait Extractor; CancelCtx]
  | Return _ => [CancelCtx]
  | Blocked => []
  end.

(** Events that leave the header map and an uncommitted status alone,
    [Write] apart, which commits status 200. *)
Definition quiet (e : Event) : bool :=
  match e with
  | HeaderSet _ _ | HttpError _ _ => false
  | _ => true
  end.

(** What the debug variant does before it enters the loop, when set-up
    succeeds. *)
Definition debug_setup_trace (yt ff ck vidURL : string) : list Event :=
  [HeaderSet "Content-Type" "audio/mpeg";
   HeaderSet "Cache-Control" "no-cache";
   HeaderSet "Connection" "keep-alive";
   HeaderSet "Accept-Ranges" "none";
   HeaderSet "Transfer-Encoding" "chunked";
   Log "🔍 Starting stream for: %s" [LStr vidURL];
   StdoutPipe Extractor true;
   StdoutPipe Transcoder true;
   Start Extractor (DebugGo.ytdlpCmd yt ck vidURL) true;
   Start Transcoder (DebugGo.ffmpegCmd ff) true;
   Log "🎵 Streaming: %s" [LStr vidURL];
   GoWatcher].

(** What [StreamFromURL] does before it enters the loop, when set-up
    succeeds. *)
Definition streamer_setup_trace (c : Context) (ytURL : string) : list Event :=
  [HeaderSet "Content-Type" "audio/mpeg";
   HeaderSet "Cache-Control" "no-cache";
   HeaderSet "Connection" "keep-alive";
   StdoutPipe Extractor true;
   StdoutPipe Transcoder true;
   Start Extractor (StreamerGo.ytdlpCmd c ytURL) true;
   Start Transcoder (StreamerGo.ffmpegCmd c) true;
   GoWatcher].

(** What a loop does with the last read [r] once its chunk is taken. *)
Definition chunk_events (w : World) (r : ReadResult) : list Event :=
  Read r :: if nonempty r then Write (data r) true :: flush_events w else [].

(** The instant os/exec kills the process of a command. *)
Definition kill_time (client_gone : option Z) (c : Cmd) : option Z :=
  done_at client_gone (cmd_ctx c).

(** main.go serving a request in time: the transcoder, left alone, would
    deliver [tl]; the client goes away at [client_gone], if ever. *)
Definition main_serve (client_gone : option Z) (tl : Timeline)
           (w : World) (vidURL : string) : Run unit unit :=
  MainGo.streamHandler
    (with_reads w (observe (kill_time client_gone MainGo.ffmpegCmd) tl)) vidURL.

Definition end_of_stream : ReadResult := {| data := []; rerr := Some EOF |}.

(** A transcoder that delivers one byte every second for [n] seconds, then
    ends its output. *)
Definition one_per_second (n : nat) : Timeline :=
  map (fun i => (1000 * Z.of_nat i, Samples.chunk [Byte.xff])%Z) (seq 1 n)
  ++ [((1000 * Z.of_nat (S n))%Z, end_of_stream)].

Definition is_good_Write (e : Event) : bool :=
  match e with Write _ true => true | _ => false end.

(** The write-failure path of the loop (main.go:100-103) was taken. *)
Definition write_failed (w : World) : bool :=
  match flow (MainGo.relay w (reads w) 0) with
  | Return _ => true
  | _ => false
  end.

End Vocabulary.

(** ** More vocabulary, for the further properties *)
Section MoreVocabulary.
Import Sys Validator.

(** The handler has come to its end (it is not waiting in a [Read]). *)
Definition returned {R A : Type} (m : Run R A) : bool :=
  match flow m with
  | Blocked => false
  | _ => true
  end.

(** Every successful write is directly followed by a flush. *)
Fixpoint flush_follows_write (t : list Event) : bool :=
  match t with
  | [] => true
  | Write _ true :: rest =>
      match rest with
      | Flush :: _ => flush_follows_write rest
      | _ => false
      end
  | _ :: rest => flush_follows_write rest
  end.

(** The reads up to and including the first one that carries an error. *)
Fixpoint until_error (rs : list ReadResult) : list ReadResult :=
  match rs with
  | [] => []
  | r :: rs' =>
      match rerr r with
      | Some _ => [r]
      | None => r :: until_error rs'
      end
  end.

(** The client takes every write. *)
Definition client_stays (w : World) : Prop := forall k, write_err w k = None.

(** Message texts put aside: what is left of an event is what it does to the
    processes and to the status line. *)
Definition erase_text (e : Event) : Event :=
  match e with
  | Log _ _ => Log "" []
  | HttpError _ code => HttpError "" code
  | _ => e
  end.

Definition is_Start (p : Proc) (e : Event) : bool :=
  match e with Start q _ _ => Proc_eqb p q | _ => false end.

Definition is_Wait (p : Proc) (e : Event) : bool :=
  match e with Wait q => Proc_eqb p q | _ => false end.

(** The three headers the route functions set before anything else. *)
Definition cors_headers : list (string * string) :=
  [("Access-Control-Allow-Origin", "*");
   ("Access-Control-Allow-Methods", "GET, OPTIONS");
   ("Access-Control-Allow-Headers", "Content-Type")].

(** An event that cannot change one of the three headers above. *)
Definition keeps_cors (e : Event) : bool :=
  match e with
  | HeaderSet k _ =>
      negb (existsb (fun kv => String.eqb (fst kv) k) cors_headers)
  | _ => true
  end.

(** What the debug variant does after its loop has ended with [total]. *)
Definition debug_after_loop (w : World) (vidURL : string) (total : Z)
  : list Event :=
  [Wait Transcoder; Wait Extractor]
  ++ (if (0 <? String.length (ytdlp_stderr w))%nat
      then [Log "yt-dlp stderr: %s" [LStr (ytdlp_stderr w)]] else [])
  ++ (if (0 <? String.length (ffmpeg_stderr w))%nat
      then [Log "ffmpeg stderr: %s" [LStr (ffmpeg_stderr w)]] else [])
  ++ (if (total =? 0)%Z
      then [Log "❌ WARNING: Stream completed but sent 0 bytes!" []] else [])
  ++ [Log "✅ Stream done: %s (%d bytes)" [LStr vidURL; LInt total]].

(** The warning the debug variant logs for a stream that ended empty. *)
Definition is_zero_warning (e : Event) : bool :=
  match e with
  | Log format [] =>
      String.eqb format "❌ WARNING: Stream completed but sent 0 bytes!"
  | _ => false
  end.

(** Events that put nothing into the body. *)
Definition no_body (e : Event) : bool :=
  match e with
  | Write _ _ | HttpError _ _ => false
  | _ => true
  end.

End MoreVocabulary.

(** ** A request of main.go as a whole

    Besides the handler, three parties act on the two processes, each on a
    goroutine of its own:
    - the goroutine of main.go:88-92, which waits for [r.Context()] and then
      kills both processes;
    - for each of the two commands, built with [exec.CommandContext] and
      started, the goroutine in which os/exec waits for the command's context
      [ctx] and then calls [cmd.Cancel], that is [cmd.Process.Kill]; it ends
      without a kill when [cmd.Wait] collects the process first.
    [r.Context()] is done when the client's connection closes and, at the
    latest, when the handler has returned (net/http cancels it then).  [ctx]
    (main.go:32) is done when [r.Context()] is, when its 45 s have run out, or
    when the deferred [cancel] runs.  A context that is done stays done: a
    second cause changes nothing. *)
Section RequestVocabulary.
Import Sys Validator.

(** What happens during a request, by who does it. *)
Inductive Act :=
| Does (e : Event)        (* the handler's next call *)
| ClientGone              (* the client's connection closes *)
| Deadline                (* the 45 s of [ctx] run out *)
| ServerCancel            (* net/http cancels [r.Context()] after the handler *)
| Goroutine (e : Event)   (* main.go:90-91 *)
| ExecKill (p : Proc).    (* os/exec: [cmd.Cancel()] after [<-ctx.Done()] *)

(** The state the parties share. *)
Record Control := {
  request_done : bool;      (* [r.Context()] is done *)
  ctx_done : bool;          (* [ctx] is done *)
  goroutine : list Event;   (* what the goroutine of main.go has still to do *)
  watched : Proc -> bool    (* os/exec waits for [ctx] on behalf of the process *)
}.

Definition begin : Control :=
  {| request_done := false; ctx_done := false; goroutine := [];
     watched := fun _ => false |}.

(** [exec.Command] gives a command without a context; os/exec starts no
    goroutine for it. *)
Definition has_context (c : Cmd) : bool :=
  match cmd_ctx c with
  | Background => false
  | _ => true
  end.

Definition set_watched (p : Proc) (b : bool) (k : Control) : Control :=
  {| request_done := request_done k; ctx_done := ctx_done k;
     goroutine := goroutine k;
     watched := fun q => if Proc_eqb q p then b else watched k q |}.

Definition set_goroutine (l : list Event) (k : Control) : Control :=
  {| request_done := request_done k; ctx_done := ctx_done k;
     goroutine := l; watched := watched k |}.

(** [ctx] is done. *)
Definition cancel_ctx (k : Control) : Control :=
  {| request_done := request_done k; ctx_done := true;
     goroutine := goroutine k; watched := watched k |}.

(** [r.Context()] is done, and [ctx], its child, with it. *)
Definition cancel_request (k : Control) : Control :=
  {| request_done := true; ctx_done := true;
     goroutine := goroutine k; watched := watched k |}.

(** What a call of the handler means to the other parties: [cmd.Start]
    starts the goroutine of os/exec, [cmd.Wait] ends it, the [go] statement
    starts the goroutine of main.go, [cancel()] ends [ctx]. *)
Definition after_call (e : Event) (k : Control) : Control :=
  match e with
  | Start p c true => if has_context c then set_watched p true k else k
  | Wait p => set_watched p false k
  | GoWatcher => set_goroutine (goroutine k ++ MainGo.watcher) k
  | CancelCtx => cancel_ctx k
  | _ => k
  end.

(** One step of a request: the handler's calls still to come, and the shared
    state. *)
Inductive step : list Event * Control -> Act -> list Event * Control -> Prop :=
| step_handler (e : Event) (todo : list Event) (k : Control) :
    step (e :: todo, k) (Does e) (todo, after_call e k)
| step_client (todo : list Event) (k : Control) :
    step (todo, k) ClientGone (todo, cancel_request k)
| step_deadline (todo : list Event) (k : Control) :
    step (todo, k) Deadline (todo, cancel_ctx k)
| step_server (k : Control) :
    step ([], k) ServerCancel ([], cancel_request k)
| step_goroutine (todo : list Event) (k : Control) (e : Event) (rest : list Event) :
    request_done k = true ->
    goroutine k = e :: rest ->
    step (todo, k) (Goroutine e) (todo, set_goroutine rest k)
| step_exec (todo : list Event) (k : Control) (p : Proc) :
    ctx_done k = true ->
    watched k p = true ->
    step (todo, k) (ExecKill p) (todo, set_watched p false k).

Inductive runs : list Event * Control -> list Act -> list Event * Control -> Prop :=
| runs_nil (s : list Event * Control) : runs s [] s
| runs_cons (s s1 s2 : list Event * Control) (a : Act) (g : list Act) :
    step s a s1 -> runs s1 g s2 -> runs s (a :: g) s2.

(** Nothing is left to happen: the handler has returned, net/http has
    cancelled the request's context, and no goroutine has a kill to issue. *)
Definition finished (s : list Event * Control) : Prop :=
  fst s = []
  /\ request_done (snd s) = true
  /\ goroutine (snd s) = []
  /\ forall p, watched (snd s) p = false.

(** A request as a whole: the handler's trace [main] with the steps of the
    other parties among its calls, in any order the rules allow, up to the
    point where nothing is left to happen. *)
Definition execution (main : list Event) (g : list Act) : Prop :=
  exists s, runs (main, begin) g s /\ finished s.

(** Kill attempts on a process, by party.  An attempt is a call of
    [Process.Kill], whatever state the process is in and whatever the call
    returns. *)
Definition kill_by_handler (p : Proc) (a : Act) : bool :=
  match a with Does e => is_Kill p e | _ => false end.

Definition kill_by_goroutine (p : Proc) (a : Act) : bool :=
  match a with Goroutine e => is_Kill p e | _ => false end.

Definition kill_by_exec (p : Proc) (a : Act) : bool :=
  match a with ExecKill q => Proc_eqb p q | _ => false end.

Definition is_attempt (p : Proc) (a : Act) : bool :=
  kill_by_handler p a || kill_by_goroutine p a || kill_by_exec p a.

Definition tally (f : Act -> bool) (g : list Act) : nat :=
  length (List.filter f g).

Definition attempts (p : Proc) (g : list Act) : nat := tally (is_attempt p) g.

(** The handler's own calls in an execution. *)
Definition calls (g : list Act) : list Event :=
  flat_map (fun a => match a with Does e => [e] | _ => [] end) g.

Definition is_GoWatcher (e : Event) : bool :=
  match e with GoWatcher => true | _ => false end.

(** A successful start of [p] as a command with a context. *)
Definition arms (p : Proc) (e : Event) : bool :=
  match e with
  | Start q c true => Proc_eqb p q && has_context c
  | _ => false
  end.

Definition waits_for (p : Proc) (e : Event) : bool :=
  match e with Wait q => Proc_eqb p q | _ => false end.

(** Calls that mean nothing to the other parties. *)
Definition own_business (e : Event) : bool :=
  match e with
  | Start _ _ _ | Wait _ | GoWatcher | CancelCtx => false
  | _ => true
  end.

(** The state after the handler has made the calls [t]. *)
Definition after_calls (t : list Event) (k : Control) : Control :=
  fold_left (fun k e => after_call e k) t k.

End RequestVocabulary.

(** ** Vocabulary for URLs *)
Section UrlVocabulary.
Import Strings GoURL Validator.

(** Every byte of [s] satisfies [p]. *)
Fixpoint all_bytes (p : ascii -> bool) (s : string) : bool :=
  match s with
  | EmptyString => true
  | String c s' => p c && all_bytes p s'
  end.

(** The bytes of a registered host name: letters, digits, dot and hyphen. *)
Definition name_byte (c : ascii) : bool :=
  byte_in "a" "z" c || byte_in "A" "Z" c || byte_in "0" "9" c
  || Ascii.eqb c "." || Ascii.eqb c "-".

(** The bytes of a path and query that [url.Parse] takes as they are: no
    control character, no [#] (it starts the fragment) and no [%] (it starts
    an escape). *)
Definition ordinary (c : ascii) : bool :=
  negb ((nat_of_ascii c <? 32)%nat || (nat_of_ascii c =? 127)%nat)
  && negb (Ascii.eqb c "#") && negb (Ascii.eqb c "%").

(** The bytes [unescape] copies in a given mode. *)
Definition taken_as_is (mode : encoding) (c : ascii) : bool :=
  negb (Ascii.eqb c "%")
  && negb (encoding_eqb mode encodeQueryComponent && Ascii.eqb c "+")
  && negb ((encoding_eqb mode encodeHost || encoding_eqb mode encodeZone)
           && (nat_of_ascii c <? 128)%nat && shouldEscape c encodeHost).

(** The bytes of a scheme after its first letter. *)
Definition scheme_byte (c : ascii) : bool :=
  byte_in "a" "z" c || byte_in "A" "Z" c || byte_in "0" "9" c
  || one_of "+-." c.

(** A scheme as [getScheme] wants it: a letter, then letters, digits, [+],
    [-] and [.]. *)
Definition scheme_text (s : string) : bool :=
  match s with
  | EmptyString => false
  | String c cs => (byte_in "a" "z" c || byte_in "A" "Z" c) && all_bytes scheme_byte cs
  end.

(** The bytes an authority may hold for [parse] to cut it out as written: no
    control character and none of [/], [?] and [#]. *)
Definition authority_byte (c : ascii) : bool :=
  negb ((nat_of_ascii c <? 32)%nat || (nat_of_ascii c =? 127)%nat)
  && negb (Ascii.eqb c "/") && negb (Ascii.eqb c "?") && negb (Ascii.eqb c "#").

(** The bytes of a host name followed by a port. *)
Definition hostport_byte (c : ascii) : bool := name_byte c || Ascii.eqb c ":".

(** What follows the authority: nothing, or a slash and ordinary text. *)
Definition after_authority (r : string) : bool :=
  match r with
  | EmptyString => true
  | String c tail => Ascii.eqb c "/" && all_bytes ordinary tail
  end.

(** The [Host] field of a parsed URL names the host [h]: it is [h], with or
    without square brackets around it, and with or without a port. *)
Definition names_host (h hostField : string) : Prop :=
  exists port,
    validOptionalPort port = true
    /\ (hostField = h +:+ port \/ hostField = "[" +:+ h +:+ "]" +:+ port).

End UrlVocabulary.

(** * Properties *)

(** ** The validator *)
Section ValidatorFacts.
Import Sys Validator.

Lemma isYouTubeURL_spec (u : string) :
  isYouTubeURL u = true <->
  exists parsed, GoURL.Parse u = Ok parsed
                 /\ In (GoURL.Hostname parsed) allowed_hosts.
Proof.
  unfold isYouTubeURL, allowed_hosts. split.
  - destruct (GoURL.Parse u) as [parsed|e]; [|discriminate].
    intros H. exists parsed. split; [reflexivity|].
    repeat (apply orb_prop in H; destruct H as [H|H]);
      apply String.eqb_eq in H; rewrite H; simpl; tauto.
  - intros (parsed & -> & Hin). simpl in Hin.
    destruct Hin as [<-|[<-|[<-|[<-|[]]]]]; reflexivity.
Qed.

Lemma streamer_validator_same (u : string) :
  StreamerGo.isValidYouTubeURL u = isYouTubeURL u.
Proof. reflexivity. Qed.

Lemma allowed_hosts_lower (h : string) :
  In h allowed_hosts -> Strings.ToLower h = h.
Proof.
  unfold allowed_hosts. simpl.
  intros [<-|[<-|[<-|[<-|[]]]]]; reflexivity.
Qed.

(** A rejected URL ends each handler before it touches a process. *)
Lemma rejected_main (w : World) (u : string) :
  isYouTubeURL u = false ->
  count is_process_event (trace (MainGo.streamHandler w u)) = 0
  /\ flow (MainGo.streamHandler w u) = Return tt
  /\ status (respond (trace (MainGo.streamHandler w u))) = Some StatusBadRequest.
Proof.
  intros H. unfold MainGo.streamHandler. rewrite H.
  destruct (String.eqb u ""); repeat split.
Qed.

Lemma rejected_debug (yt ff ck : string) (w : World) (u dbg : string) :
  isYouTubeURL u = false ->
  count is_process_event (trace (DebugGo.streamHandler yt ff ck w u dbg)) = 0
  /\ flow (DebugGo.streamHandler yt ff ck w u dbg) = Return tt.
Proof.
  intros H. unfold DebugGo.streamHandler. rewrite H.
  destruct (String.eqb u ""); repeat split.
Qed.

Lemma rejected_streamer (c : Context) (w : World) (u : string) :
  isYouTubeURL u = false ->
  trace (StreamerGo.StreamFromURL c w u) = []
  /\ flow (StreamerGo.StreamFromURL c w u)
     = Return (Some ("invalid YouTube URL: " +:+ u)).
Proof.
  intros H. unfold StreamerGo.StreamFromURL.
  rewrite streamer_validator_same, H. split; reflexivity.
Qed.

End ValidatorFacts.

(** ** [url.Parse] on the URLs that name a host *)
Section UrlFacts.
Import Strings GoURL Validator.

Lemma append_cons (c : ascii) (s t : string) :
  String c s +:+ t = String c (s +:+ t).
Proof. reflexivity. Qed.

Lemma append_nil_l (s : string) : "" +:+ s = s.
Proof. reflexivity. Qed.

Lemma append_nil_r (s : string) : s +:+ "" = s.
Proof.
  induction s as [|c s IH]; [reflexivity|]. rewrite append_cons, IH. reflexivity.
Qed.

Lemma append_assoc (s1 s2 s3 : string) : (s1 +:+ s2) +:+ s3 = s1 +:+ s2 +:+ s3.
Proof.
  induction s1 as [|c s1 IH]; [reflexivity|].
  rewrite !append_cons, IH. reflexivity.
Qed.

Lemma length_append (s1 s2 : string) :
  String.length (s1 +:+ s2) = String.length s1 + String.length s2.
Proof.
  induction s1 as [|c s1 IH]; [reflexivity|].
  rewrite append_cons. cbn [String.length]. rewrite IH. reflexivity.
Qed.

Lemma take_append (s1 s2 : string) (n : nat) :
  String.length s1 <= n ->
  take n (s1 +:+ s2) = s1 +:+ take (n - String.length s1) s2.
Proof.
  revert n. induction s1 as [|c s1 IH]; intros n Hn;
    rewrite ?append_cons, ?append_nil_l; cbn in *.
  - rewrite Nat.sub_0_r. reflexivity.
  - destruct n as [|n]; [lia|]. cbn. rewrite IH by lia. reflexivity.
Qed.

Lemma drop_append (s1 s2 : string) (n : nat) :
  String.length s1 <= n ->
  drop n (s1 +:+ s2) = drop (n - String.length s1) s2.
Proof.
  revert n. induction s1 as [|c s1 IH]; intros n Hn;
    rewrite ?append_cons, ?append_nil_l; cbn in *.
  - rewrite Nat.sub_0_r. reflexivity.
  - destruct n as [|n]; [lia|]. cbn. apply IH. lia.
Qed.

Lemma take_all (s : string) (n : nat) : String.length s <= n -> take n s = s.
Proof.
  revert n. induction s as [|c s IH]; intros n Hn; cbn in *.
  - destruct n; reflexivity.
  - destruct n as [|n]; [lia|]. cbn. rewrite IH by lia. reflexivity.
Qed.

Lemma take_0 (s : string) : take 0 s = "".
Proof. destruct s; reflexivity. Qed.

Lemma drop_0 (s : string) : drop 0 s = s.
Proof. destruct s; reflexivity. Qed.

Lemma take_drop (s : string) (n : nat) : take n s +:+ drop n s = s.
Proof.
  revert n. induction s as [|c s IH]; intros [|n]; cbn [take drop];
    rewrite ?append_cons, ?append_nil_l; try reflexivity.
  rewrite IH. reflexivity.
Qed.

Lemma all_bytes_append (p : ascii -> bool) (s1 s2 : string) :
  all_bytes p (s1 +:+ s2) = all_bytes p s1 && all_bytes p s2.
Proof.
  induction s1 as [|c s1 IH]; rewrite ?append_cons, ?append_nil_l; cbn;
    [reflexivity|].
  rewrite IH, andb_assoc. reflexivity.
Qed.

Lemma all_bytes_weaken (p q : ascii -> bool) (s : string) :
  (forall c, p c = true -> q c = true) ->
  all_bytes p s = true -> all_bytes q s = true.
Proof.
  intros Hpq. induction s as [|c s IH]; cbn; [reflexivity|].
  intros H. apply andb_prop in H. destruct H as [Hc Hs].
  rewrite (Hpq c Hc), (IH Hs). reflexivity.
Qed.

Lemma all_bytes_take (p : ascii -> bool) (s : string) (n : nat) :
  all_bytes p s = true -> all_bytes p (take n s) = true.
Proof.
  revert n. induction s as [|c s IH]; intros [|n] H; cbn in *; try reflexivity.
  apply andb_prop in H. destruct H as [Hc Hs]. rewrite Hc, (IH n Hs). reflexivity.
Qed.

Lemma all_bytes_forallb (p : ascii -> bool) (s : string) :
  forallb p (list_ascii_of_string s) = all_bytes p s.
Proof. induction s as [|c s IH]; cbn; [|rewrite IH]; reflexivity. Qed.

Lemma IndexByte_absent (p : ascii -> bool) (s : string) (x : ascii) :
  p x = false -> all_bytes p s = true -> IndexByte s x = None.
Proof.
  intros Hx. induction s as [|c s IH]; cbn; [reflexivity|].
  intros H. apply andb_prop in H. destruct H as [Hc Hs].
  destruct (Ascii.eqb_spec c x) as [->|_]; [congruence|].
  rewrite (IH Hs). reflexivity.
Qed.

Lemma LastIndexByte_absent (p : ascii -> bool) (s : string) (x : ascii) :
  p x = false -> all_bytes p s = true -> LastIndexByte s x = None.
Proof.
  intros Hx. induction s as [|c s IH]; cbn; [reflexivity|].
  intros H. apply andb_prop in H. destruct H as [Hc Hs].
  rewrite (IH Hs).
  destruct (Ascii.eqb_spec c x) as [->|_]; [congruence|reflexivity].
Qed.

Lemma Count_absent (p : ascii -> bool) (s : string) (x : ascii) :
  p x = false -> all_bytes p s = true -> Count s x = 0.
Proof.
  intros Hx. induction s as [|c s IH]; cbn; [reflexivity|].
  intros H. apply andb_prop in H. destruct H as [Hc Hs].
  rewrite (IH Hs).
  destruct (Ascii.eqb_spec c x) as [->|_]; [congruence|reflexivity].
Qed.

Lemma IndexByte_append (s1 s2 : string) (x : ascii) :
  IndexByte s1 x = None ->
  IndexByte (s1 +:+ s2) x
  = match IndexByte s2 x with
    | Some i => Some (String.length s1 + i)
    | None => None
    end.
Proof.
  induction s1 as [|c s1 IH]; rewrite ?append_cons, ?append_nil_l; cbn.
  - intros _. destruct (IndexByte s2 x); reflexivity.
  - destruct (Ascii.eqb c x); [discriminate|].
    destruct (IndexByte s1 x) eqn:E; [discriminate|]. intros _.
    rewrite (IH eq_refl). destruct (IndexByte s2 x); reflexivity.
Qed.

Lemma LastIndexByte_append (s1 s2 : string) (x : ascii) :
  LastIndexByte (s1 +:+ s2) x
  = match LastIndexByte s2 x with
    | Some i => Some (String.length s1 + i)
    | None => LastIndexByte s1 x
    end.
Proof.
  induction s1 as [|c s1 IH]; rewrite ?append_cons, ?append_nil_l; cbn.
  - destruct (LastIndexByte s2 x); reflexivity.
  - rewrite IH. destruct (LastIndexByte s2 x); reflexivity.
Qed.

Lemma Count_append (s1 s2 : string) (x : ascii) :
  Count (s1 +:+ s2) x = Count s1 x + Count s2 x.
Proof.
  induction s1 as [|c s1 IH]; rewrite ?append_cons, ?append_nil_l; cbn;
    [|rewrite IH]; lia.
Qed.

Lemma CTL_append (s1 s2 : string) :
  stringContainsCTLByte (s1 +:+ s2)
  = stringContainsCTLByte s1 || stringContainsCTLByte s2.
Proof.
  induction s1 as [|c s1 IH]; rewrite ?append_cons, ?append_nil_l;
    cbn [stringContainsCTLByte orb]; [reflexivity|].
  rewrite IH, !orb_assoc. reflexivity.
Qed.

Lemma CTL_absent (p : ascii -> bool) (s : string) :
  (forall c, p c = true ->
             (nat_of_ascii c <? 32)%nat || (nat_of_ascii c =? 127)%nat = false) ->
  all_bytes p s = true -> stringContainsCTLByte s = false.
Proof.
  intros Hp. induction s as [|c s IH]; cbn [all_bytes stringContainsCTLByte];
    [reflexivity|].
  intros H. apply andb_prop in H. destruct H as [Hc Hs].
  rewrite (Hp c Hc), (IH Hs). reflexivity.
Qed.

Lemma HasPrefix_absent (p : ascii -> bool) (s : string) (x : ascii) :
  p x = false -> all_bytes p s = true ->
  HasPrefix s (String x EmptyString) = false.
Proof.
  intros Hx. unfold HasPrefix. destruct s as [|c s]; cbn; [reflexivity|].
  intros H. apply andb_prop in H. destruct H as [Hc _].
  destruct (ascii_dec x c) as [->|_]; [congruence|reflexivity].
Qed.

(** [unescape] copies a text made of bytes it has nothing to do with. *)
Lemma unescape_as_is (mode : encoding) (s : string) :
  all_bytes (taken_as_is mode) s = true -> unescape s mode = Ok s.
Proof.
  induction s as [|c s IH]; [reflexivity|].
  cbn [all_bytes]. intros H. apply andb_prop in H. destruct H as [Hc Hs].
  unfold taken_as_is in Hc.
  apply andb_prop in Hc. destruct Hc as [Hc H3].
  apply andb_prop in Hc. destruct Hc as [H1 H2].
  apply negb_true_iff in H1, H2, H3.
  cbn [unescape]. rewrite H1, H2, H3, (IH Hs). reflexivity.
Qed.


(** *** Classes of bytes *)

Lemma hostport_byte_facts (c : ascii) :
  hostport_byte c = true ->
  authority_byte c = true /\ taken_as_is encodeHost c = true.
Proof.
  destruct c as [[] [] [] [] [] [] [] []]; vm_compute; intros H;
    try discriminate H; split; reflexivity.
Qed.

Lemma scheme_byte_facts (c : ascii) :
  scheme_byte c = true ->
  (nat_of_ascii c <? 32)%nat || (nat_of_ascii c =? 127)%nat = false
  /\ Ascii.eqb c "#" = false /\ Ascii.eqb c ":" = false
  /\ Ascii.eqb c "*" = false.
Proof.
  destruct c as [[] [] [] [] [] [] [] []]; vm_compute; intros H;
    try discriminate H; repeat split; reflexivity.
Qed.

Lemma authority_byte_facts (c : ascii) :
  authority_byte c = true ->
  (nat_of_ascii c <? 32)%nat || (nat_of_ascii c =? 127)%nat = false.
Proof.
  destruct c as [[] [] [] [] [] [] [] []]; vm_compute; intros H;
    try discriminate H; reflexivity.
Qed.

Lemma ordinary_facts (c : ascii) :
  ordinary c = true ->
  (nat_of_ascii c <? 32)%nat || (nat_of_ascii c =? 127)%nat = false
  /\ taken_as_is encodePath c = true.
Proof.
  destruct c as [[] [] [] [] [] [] [] []]; vm_compute; intros H;
    try discriminate H; split; reflexivity.
Qed.

Lemma name_is_hostport (a : string) :
  all_bytes name_byte a = true -> all_bytes hostport_byte a = true.
Proof.
  apply all_bytes_weaken. intros c H. unfold hostport_byte. rewrite H. reflexivity.
Qed.

(** A valid optional port is nothing, or a colon and digits. *)
Lemma port_shape (port : string) :
  validOptionalPort port = true ->
  port = "" \/ exists ds, port = String ":" ds
                          /\ all_bytes (byte_in "0" "9") ds = true.
Proof.
  destruct port as [|c ds]; [left; reflexivity|]. cbn [validOptionalPort].
  rewrite all_bytes_forallb. intros H. apply andb_prop in H.
  destruct H as [Hc Hds]. apply Ascii.eqb_eq in Hc. subst c.
  right. exists ds. split; [reflexivity | exact Hds].
Qed.

Lemma digits_are_names (ds : string) :
  all_bytes (byte_in "0" "9") ds = true -> all_bytes name_byte ds = true.
Proof.
  apply all_bytes_weaken. intros c H. unfold name_byte. rewrite H.
  rewrite !orb_true_r. reflexivity.
Qed.

Lemma port_is_hostport (port : string) :
  validOptionalPort port = true -> all_bytes hostport_byte port = true.
Proof.
  intros H. destruct (port_shape port H) as [->|(ds & -> & Hds)]; [reflexivity|].
  cbn [all_bytes]. rewrite (name_is_hostport ds (digits_are_names ds Hds)).
  reflexivity.
Qed.

(** The last colon of [s1 port] is the colon of the port. *)
Lemma last_colon (s1 port : string) :
  LastIndexByte s1 ":" = None ->
  validOptionalPort port = true ->
  (port = "" /\ LastIndexByte (s1 +:+ port) ":" = None)
  \/ (LastIndexByte (s1 +:+ port) ":" = Some (String.length s1)
      /\ drop (String.length s1) (s1 +:+ port) = port
      /\ take (String.length s1) (s1 +:+ port) = s1).
Proof.
  intros H1 Hp. destruct (port_shape port Hp) as [->|(ds & -> & Hds)].
  - left. rewrite append_nil_r. split; [reflexivity | exact H1].
  - right. rewrite LastIndexByte_append. cbn [LastIndexByte].
    rewrite (LastIndexByte_absent name_byte ds ":" eq_refl (digits_are_names ds Hds)).
    cbn [Ascii.eqb Bool.eqb]. rewrite Nat.add_0_r.
    rewrite drop_append, take_append, Nat.sub_diag by lia.
    rewrite take_0, drop_0, append_nil_r. repeat split.
Qed.

(** *** The authority *)

Lemma parseHost_hostport (a port : string) :
  all_bytes name_byte a = true ->
  validOptionalPort port = true ->
  parseHost (a +:+ port) = Ok (a +:+ port).
Proof.
  intros Ha Hp.
  assert (Hall : all_bytes hostport_byte (a +:+ port) = true).
  { rewrite all_bytes_append, (name_is_hostport a Ha), (port_is_hostport port Hp).
    reflexivity. }
  assert (Hun : unescape (a +:+ port) encodeHost = Ok (a +:+ port)).
  { apply unescape_as_is. revert Hall. apply all_bytes_weaken.
    intros c Hc. apply hostport_byte_facts, Hc. }
  unfold parseHost.
  rewrite (HasPrefix_absent hostport_byte _ "[" eq_refl Hall).
  destruct (last_colon a port (LastIndexByte_absent name_byte a ":" eq_refl Ha) Hp)
    as [[-> _]|(-> & -> & _)].
  - rewrite append_nil_r in *.
    rewrite (LastIndexByte_absent name_byte a ":" eq_refl Ha). exact Hun.
  - rewrite Hp. exact Hun.
Qed.

Lemma parseAuthority_hostport (a port : string) :
  all_bytes name_byte a = true ->
  validOptionalPort port = true ->
  parseAuthority (a +:+ port) = Ok (None, a +:+ port).
Proof.
  intros Ha Hp.
  assert (Hall : all_bytes hostport_byte (a +:+ port) = true).
  { rewrite all_bytes_append, (name_is_hostport a Ha), (port_is_hostport port Hp).
    reflexivity. }
  unfold parseAuthority.
  rewrite (LastIndexByte_absent hostport_byte _ "@" eq_refl Hall).
  rewrite (parseHost_hostport a port Ha Hp). reflexivity.
Qed.

(** *** [Hostname] *)

Lemma splitHostPort_port (s1 port : string) :
  LastIndexByte s1 ":" = None ->
  validOptionalPort port = true ->
  fst (splitHostPort (s1 +:+ port)) = fst (splitHostPort s1).
Proof.
  intros H1 Hp. unfold splitHostPort.
  destruct (last_colon s1 port H1 Hp) as [[-> _]|(-> & -> & ->)].
  - rewrite append_nil_r. reflexivity.
  - rewrite Hp, H1.
    destruct (HasPrefix s1 "[" && HasSuffix s1 "]"); reflexivity.
Qed.

Lemma splitHostPort_name (a : string) :
  all_bytes name_byte a = true -> fst (splitHostPort a) = a.
Proof.
  intros Ha. unfold splitHostPort.
  rewrite (LastIndexByte_absent name_byte a ":" eq_refl Ha).
  rewrite (HasPrefix_absent name_byte a "[" eq_refl Ha). reflexivity.
Qed.

Lemma strip_brackets (host : string) :
  HasPrefix host "[" && HasSuffix host "]" = true ->
  host = "[" +:+ take (String.length host - 2) (drop 1 host) +:+ "]".
Proof.
  intros H. apply andb_prop in H. destruct H as [Hpre Hsuf].
  destruct host as [|c t]; [discriminate|].
  unfold HasPrefix in Hpre. cbn [String.prefix] in Hpre.
  destruct (ascii_dec "[" c) as [<-|]; [|discriminate]. clear Hpre.
  unfold HasSuffix in Hsuf. apply andb_prop in Hsuf. destruct Hsuf as [_ Hsuf].
  apply String.eqb_eq in Hsuf.
  destruct t as [|d t']; [discriminate|].
  cbn [String.length Nat.sub drop] in Hsuf |- *.
  rewrite append_cons, append_nil_l, Nat.sub_0_r. f_equal.
  rewrite <- Hsuf. symmetry. apply take_drop.
Qed.

(** Whatever the [Host] field holds, it is the host name, in square brackets
    or not, followed by a port or not. *)
Lemma Host_of_Hostname (hostField : string) :
  names_host (fst (splitHostPort hostField)) hostField.
Proof.
  unfold names_host, splitHostPort.
  destruct (LastIndexByte hostField ":") as [colon|].
  - destruct (validOptionalPort (drop colon hostField)) eqn:Hv.
    + exists (drop colon hostField). split; [exact Hv|].
      destruct (HasPrefix (take colon hostField) "["
                && HasSuffix (take colon hostField) "]") eqn:Hb; cbn [fst].
      * right. rewrite <- append_assoc, <- append_assoc.
        rewrite (append_assoc "[" _ "]").
        rewrite <- (strip_brackets _ Hb). rewrite take_drop. reflexivity.
      * left. rewrite take_drop. reflexivity.
    + exists "". split; [reflexivity|].
      destruct (HasPrefix hostField "[" && HasSuffix hostField "]") eqn:Hb;
        cbn [fst].
      * right. rewrite append_nil_r. apply strip_brackets, Hb.
      * left. rewrite append_nil_r. reflexivity.
  - exists "". split; [reflexivity|].
    destruct (HasPrefix hostField "[" && HasSuffix hostField "]") eqn:Hb;
      cbn [fst].
    + right. rewrite append_nil_r. apply strip_brackets, Hb.
    + left. rewrite append_nil_r. reflexivity.
Qed.

Lemma allowed_hosts_are_names (h : string) :
  In h allowed_hosts -> all_bytes name_byte h = true.
Proof.
  unfold allowed_hosts. cbn [In].
  intros [<-|[<-|[<-|[<-|[]]]]]; reflexivity.
Qed.

(** A [Host] field that names an allow-listed host has it as host name. *)
Lemma Hostname_of_Host (h hostField : string) :
  In h allowed_hosts -> names_host h hostField ->
  fst (splitHostPort hostField) = h.
Proof.
  intros Hin (port & Hp & [->| ->]).
  - rewrite splitHostPort_port;
      [apply splitHostPort_name, allowed_hosts_are_names, Hin | | exact Hp].
    apply (LastIndexByte_absent name_byte _ ":" eq_refl),
      allowed_hosts_are_names, Hin.
  - rewrite <- append_assoc, <- append_assoc, (append_assoc "[" h "]").
    rewrite splitHostPort_port; [| | exact Hp].
    + unfold allowed_hosts in Hin. cbn [In] in Hin.
      destruct Hin as [<-|[<-|[<-|[<-|[]]]]]; reflexivity.
    + unfold allowed_hosts in Hin. cbn [In] in Hin.
      destruct Hin as [<-|[<-|[<-|[<-|[]]]]]; reflexivity.
Qed.


(** *** The scheme *)

Lemma getScheme_from_scheme (raw s rest : string) :
  forall pre : string,
    pre <> "" ->
    all_bytes scheme_byte s = true ->
    raw = pre +:+ s +:+ String ":" rest ->
    getScheme_from raw (String.length pre) (s +:+ String ":" rest)
    = Ok (pre +:+ s, rest).
Proof.
  induction s as [|c cs IH]; intros pre Hpre Hs Hraw.
  - rewrite append_nil_l in *. cbn [getScheme_from].
    change (byte_in "a" "z" ":" || byte_in "A" "Z" ":") with false.
    change (byte_in "0" "9" ":" || one_of "+-." ":") with false.
    change (Ascii.eqb ":" ":") with true. cbv iota.
    destruct pre as [|p0 pre']; [congruence|]. cbn [String.length Nat.eqb].
    rewrite Hraw.
    change (S (String.length pre')) with (String.length (String p0 pre')).
    rewrite take_append, Nat.sub_diag, take_0, !append_nil_r by lia.
    reflexivity.
  - cbn [all_bytes] in Hs. apply andb_prop in Hs. destruct Hs as [Hc Hcs].
    rewrite append_cons. cbn [getScheme_from].
    assert (Hnext : getScheme_from raw (S (String.length pre))
                      (cs +:+ String ":" rest)
                    = Ok (pre +:+ String c cs, rest)).
    { replace (S (String.length pre))
        with (String.length (pre +:+ String c ""))
        by (rewrite length_append; cbn; lia).
      rewrite (IH (pre +:+ String c "")).
      - rewrite append_assoc. reflexivity.
      - destruct pre; discriminate.
      - exact Hcs.
      - rewrite Hraw, !append_assoc. reflexivity. }
    unfold scheme_byte in Hc.
    destruct (byte_in "a" "z" c || byte_in "A" "Z" c); [exact Hnext|].
    cbn [orb] in Hc. rewrite Hc.
    destruct pre as [|p0 pre']; [congruence|]. exact Hnext.
Qed.

Lemma getScheme_scheme (scheme rest : string) :
  scheme_text scheme = true ->
  getScheme (scheme +:+ String ":" rest) = Ok (scheme, rest).
Proof.
  destruct scheme as [|c cs]; [discriminate|]. cbn [scheme_text].
  intros H. apply andb_prop in H. destruct H as [Hc Hcs].
  unfold getScheme. rewrite append_cons. cbn [getScheme_from]. rewrite Hc.
  apply (getScheme_from_scheme _ cs rest (String c "")).
  - discriminate.
  - exact Hcs.
  - reflexivity.
Qed.

(** *** What follows the authority *)

Lemma after_authority_shape (r : string) :
  after_authority r = true ->
  r = "" \/ exists tail, r = String "/" tail /\ all_bytes ordinary tail = true.
Proof.
  destruct r as [|c tail]; [left; reflexivity|]. cbn [after_authority].
  intros H. apply andb_prop in H. destruct H as [Hc Ht].
  apply Ascii.eqb_eq in Hc. subst c. right. exists tail. split; [reflexivity|exact Ht].
Qed.

Lemma after_authority_take (r : string) (m : nat) :
  after_authority r = true -> after_authority (take m r) = true.
Proof.
  destruct r as [|c tail]; [destruct m; reflexivity|].
  destruct m as [|m]; [reflexivity|]. cbn [after_authority take].
  intros H. apply andb_prop in H. destruct H as [-> Ht].
  apply (all_bytes_take _ _ m Ht).
Qed.

Lemma after_authority_ordinary (r : string) :
  after_authority r = true -> all_bytes ordinary r = true.
Proof.
  intros H. destruct (after_authority_shape r H) as [->|(tail & -> & Ht)];
    [reflexivity|].
  cbn [all_bytes]. rewrite Ht. reflexivity.
Qed.

(** The query is cut off after the authority, not inside it. *)
Lemma query_cut (p r : string) :
  Count p "?" = 0 ->
  exists m,
    fst (fst (if HasSuffix (p +:+ r) "?" && (Count (p +:+ r) "?" =? 1)%nat
              then (take (String.length (p +:+ r) - 1) (p +:+ r), true, "")
              else let (r', q) := Cut (p +:+ r) "?" in (r', false, q)))
    = p +:+ take m r.
Proof.
  intros Hp.
  assert (Hi : IndexByte p "?" = None).
  { clear r. induction p as [|c p IH]; [reflexivity|]. cbn [Count] in Hp.
    cbn [IndexByte]. destruct (Ascii.eqb c "?"); [discriminate|].
    rewrite IH by exact Hp. reflexivity. }
  destruct (HasSuffix (p +:+ r) "?" && (Count (p +:+ r) "?" =? 1)%nat) eqn:E.
  - apply andb_prop in E. destruct E as [_ E]. apply Nat.eqb_eq in E.
    rewrite Count_append, Hp in E. cbn [fst].
    destruct r as [|c r']; [discriminate|].
    exists (String.length (String c r') - 1).
    rewrite take_append by (rewrite length_append; cbn; lia).
    f_equal. f_equal. rewrite length_append. lia.
  - unfold Cut. rewrite (IndexByte_append p r "?" Hi).
    destruct (IndexByte r "?") as [i|]; cbn [fst].
    + exists i. rewrite take_append by lia. f_equal. f_equal. lia.
    + exists (String.length r). rewrite take_all by lia. reflexivity.
Qed.

(** *** [url.Parse] on a URL with an authority *)

Lemma IndexByte_append_none (s1 s2 : string) (x : ascii) :
  IndexByte s1 x = None -> IndexByte s2 x = None ->
  IndexByte (s1 +:+ s2) x = None.
Proof. intros H1 H2. rewrite (IndexByte_append s1 s2 x H1), H2. reflexivity. Qed.

Lemma parse_authority_url (scheme a r : string) (user : option Userinfo)
      (host : string) :
  scheme_text scheme = true ->
  all_bytes authority_byte a = true ->
  after_authority r = true ->
  parseAuthority a = Ok (user, host) ->
  exists parsed,
    parse (scheme +:+ "://" +:+ a +:+ r) false = Ok parsed
    /\ Host parsed = host.
Proof.
  intros Hs Ha Hr Hauth.
  assert (Hsb : all_bytes scheme_byte scheme = true).
  { destruct scheme as [|c cs]; [discriminate|]. cbn [scheme_text] in Hs.
    apply andb_prop in Hs. destruct Hs as [Hc Hcs]. cbn [all_bytes].
    rewrite Hcs. unfold scheme_byte. rewrite Hc. reflexivity. }
  unfold parse.
  (* no control character *)
  assert (Hctl : stringContainsCTLByte (scheme +:+ "://" +:+ a +:+ r) = false).
  { rewrite !CTL_append.
    rewrite (CTL_absent scheme_byte scheme
               (fun c H => proj1 (scheme_byte_facts c H)) Hsb).
    rewrite (CTL_absent authority_byte a authority_byte_facts Ha).
    rewrite (CTL_absent ordinary r (fun c H => proj1 (ordinary_facts c H))
               (after_authority_ordinary r Hr)).
    reflexivity. }
  rewrite Hctl, andb_false_r.
  assert (Hstar : String.eqb (scheme +:+ "://" +:+ a +:+ r) "*" = false).
  { destruct scheme as [|c cs]; [discriminate|]. rewrite append_cons.
    cbn [all_bytes] in Hsb. apply andb_prop in Hsb. destruct Hsb as [Hc _].
    cbn [String.eqb].
    rewrite (proj2 (proj2 (proj2 (scheme_byte_facts c Hc)))). reflexivity. }
  rewrite Hstar.
  change (scheme +:+ "://" +:+ a +:+ r)
    with (scheme +:+ String ":" ("//" +:+ a +:+ r)).
  rewrite (getScheme_scheme scheme _ Hs).
  (* the query *)
  assert (Hq : Count ("//" +:+ a) "?" = 0).
  { rewrite Count_append. cbn [Count Ascii.eqb Bool.eqb Nat.add].
    apply (Count_absent authority_byte a "?" eq_refl Ha). }
  destruct (query_cut ("//" +:+ a) r Hq) as [m Hm].
  rewrite append_assoc in Hm.
  destruct (if HasSuffix ("//" +:+ a +:+ r) "?"
               && (Count ("//" +:+ a +:+ r) "?" =? 1)%nat
            then (take (String.length ("//" +:+ a +:+ r) - 1)
                    ("//" +:+ a +:+ r), true, "")
            else let (r', q) := Cut ("//" +:+ a +:+ r) "?" in (r', false, q))
    as [[rest forceQuery] rawQuery].
  cbn [fst] in Hm. subst rest.
  pose proof (after_authority_take r m Hr) as Hr1.
  set (r1 := take m r) in *.
  rewrite append_assoc, !append_cons, append_nil_l.
  change (HasPrefix (String "/" (String "/" (a +:+ r1))) "/") with true.
  assert (Hslashes : HasPrefix (String "/" (String "/" (a +:+ r1))) "//" = true).
  { unfold HasPrefix. cbn. destruct (a +:+ r1); reflexivity. }
  rewrite Hslashes.
  assert (Hne : String.eqb (ToLower scheme) "" = false).
  { destruct scheme; [discriminate|reflexivity]. }
  rewrite Hne. cbn [negb andb orb drop].
  (* the authority *)
  assert (Hcut : match IndexByte (a +:+ r1) "/" with
                 | Some i => (take i (a +:+ r1), drop i (a +:+ r1))
                 | None => (a +:+ r1, "")
                 end = (a, r1)).
  { rewrite (IndexByte_append a r1 "/"
               (IndexByte_absent authority_byte a "/" eq_refl Ha)).
    destruct (after_authority_shape r1 Hr1) as [->|(tail & -> & _)].
    - cbn [IndexByte]. rewrite append_nil_r. reflexivity.
    - cbn [IndexByte Ascii.eqb Bool.eqb]. rewrite Nat.add_0_r.
      rewrite take_append, drop_append, Nat.sub_diag by lia.
      rewrite take_0, drop_0, append_nil_r. reflexivity. }
  rewrite Hcut, Hauth. unfold setPath.
  rewrite (unescape_as_is encodePath r1).
  - eexists. split; reflexivity.
  - generalize (after_authority_ordinary r1 Hr1). apply all_bytes_weaken.
    intros c Hc. apply ordinary_facts, Hc.
Qed.

Lemma Parse_authority_url (scheme a r : string) (user : option Userinfo)
      (host : string) :
  scheme_text scheme = true ->
  all_bytes authority_byte a = true ->
  after_authority r = true ->
  parseAuthority a = Ok (user, host) ->
  exists parsed,
    Parse (scheme +:+ "://" +:+ a +:+ r) = Ok parsed /\ Host parsed = host.
Proof.
  intros Hs Ha Hr Hauth.
  destruct (parse_authority_url scheme a r user host Hs Ha Hr Hauth)
    as (parsed & Hp & Hh).
  assert (Hsb : all_bytes scheme_byte scheme = true).
  { destruct scheme as [|c cs]; [discriminate|]. cbn [scheme_text] in Hs.
    apply andb_prop in Hs. destruct Hs as [Hc Hcs]. cbn [all_bytes].
    rewrite Hcs. unfold scheme_byte. rewrite Hc. reflexivity. }
  assert (Hhash : IndexByte (scheme +:+ "://" +:+ a +:+ r) "#" = None).
  { repeat apply IndexByte_append_none.
    - apply (IndexByte_absent scheme_byte scheme "#" eq_refl Hsb).
    - reflexivity.
    - apply (IndexByte_absent authority_byte a "#" eq_refl Ha).
    - apply (IndexByte_absent ordinary r "#" eq_refl),
        after_authority_ordinary, Hr. }
  unfold Parse, Cut. rewrite Hhash, Hp. cbn [String.eqb].
  exists parsed. split; [reflexivity | exact Hh].
Qed.

(** A URL with a scheme, a registered name as host, a port or none, and
    ordinary text or nothing after that: the validator looks at the name. *)
Lemma isYouTubeURL_named (scheme a port r : string) :
  scheme_text scheme = true ->
  all_bytes name_byte a = true ->
  validOptionalPort port = true ->
  after_authority r = true ->
  isYouTubeURL (scheme +:+ "://" +:+ a +:+ port +:+ r) = true
  <-> In a allowed_hosts.
Proof.
  intros Hs Ha Hp Hr.
  assert (Hall : all_bytes authority_byte (a +:+ port) = true).
  { rewrite all_bytes_append.
    rewrite (all_bytes_weaken hostport_byte authority_byte a
               (fun c H => proj1 (hostport_byte_facts c H))
               (name_is_hostport a Ha)).
    rewrite (all_bytes_weaken hostport_byte authority_byte port
               (fun c H => proj1 (hostport_byte_facts c H))
               (port_is_hostport port Hp)).
    reflexivity. }
  destruct (Parse_authority_url scheme (a +:+ port) r None (a +:+ port)
              Hs Hall Hr (parseAuthority_hostport a port Ha Hp))
    as (parsed & HP & HH).
  rewrite append_assoc in HP.
  assert (Hname : Hostname parsed = a).
  { unfold Hostname. rewrite HH, splitHostPort_port.
    - apply splitHostPort_name, Ha.
    - apply (LastIndexByte_absent name_byte a ":" eq_refl Ha).
    - exact Hp. }
  rewrite isYouTubeURL_spec. split.
  - intros (parsed' & HP' & Hin). rewrite HP in HP'. injection HP' as <-.
    rewrite Hname in Hin. exact Hin.
  - intros Hin. exists parsed. split; [exact HP|]. rewrite Hname. exact Hin.
Qed.

End UrlFacts.

(** C6.  The validator accepts a string exactly when [url.Parse] succeeds on
    it and the [Host] field of the result names one of youtube.com,
    www.youtube.com, youtu.be and music.youtube.com: the field is that name,
    byte for byte, with or without a port after it (a colon and digits, not
    checked for range) and with or without square brackets around it.
    Whether [url.Parse] can return a bracketed name depends on the release of
    net/url: the one transcribed here passes it, later ones return only IP
    literals in brackets, and never such a [Host] field.

    For the URLs made of a scheme, [://], a host written with letters,
    digits, dots and hyphens, a port or none, and then nothing or a slash and
    text without control characters, [#] and [%], this is a statement about
    the string itself: such a URL is accepted exactly when the host as
    written is one of the four names.  So the usual links are accepted, with
    http or https or any other scheme (and with none, or with user
    information before the host, as the examples show), and decoys such as
    youtube.com.evil.example, a name with a dot at its end, or a name in the
    query or before an [@] are rejected, and so are the empty string and
    malformed URLs.  On a rejected URL no handler creates a pipe or starts,
    kills or waits for a process.  The validator is a total function of its
    argument alone. *)
Theorem validator_accepts_exactly_allowed_hosts :
  (forall u : string,
      Validator.isYouTubeURL u = true <->
      exists parsed h,
        GoURL.Parse u = Ok parsed
        /\ In h Validator.allowed_hosts
        /\ names_host h (GoURL.Host parsed))
  /\ (forall scheme a port r : string,
         scheme_text scheme = true ->
         all_bytes name_byte a = true ->
         GoURL.validOptionalPort port = true ->
         after_authority r = true ->
         (Validator.isYouTubeURL (scheme +:+ "://" +:+ a +:+ port +:+ r) = true
          <-> In a Validator.allowed_hosts))
  /\ Validator.isYouTubeURL "https://www.youtube.com/watch?v=dQw4w9WgXcQ" = true
  /\ Validator.isYouTubeURL "https://youtu.be/dQw4w9WgXcQ" = true
  /\ Validator.isYouTubeURL "https://music.youtube.com/watch?v=abc&list=xyz#t=10"
     = true
  /\ Validator.isYouTubeURL "http://youtube.com" = true
  /\ Validator.isYouTubeURL "//youtube.com/watch?v=abc" = true
  /\ Validator.isYouTubeURL "https://user:pw@youtube.com/x" = true
  /\ Validator.isYouTubeURL "https://youtube.com:99999999999999999999/x" = true
  /\ Validator.isYouTubeURL "" = false
  /\ Validator.isYouTubeURL "https://youtube.com.evil.example/watch" = false
  /\ Validator.isYouTubeURL "https://evil.example/?next=youtube.com" = false
  /\ Validator.isYouTubeURL "https://youtube.com@evil.example/" = false
  /\ Validator.isYouTubeURL "https://youtube.com/%zz" = false
  /\ (forall (w : Sys.World) (u : string),
         Validator.isYouTubeURL u = false ->
         Sys.count Sys.is_process_event (Sys.trace (MainGo.streamHandler w u)) = 0
         /\ Sys.flow (MainGo.streamHandler w u) = Sys.Return tt)
  /\ (forall (yt ff ck : string) (w : Sys.World) (u dbg : string),
         Validator.isYouTubeURL u = false ->
         Sys.count Sys.is_process_event
           (Sys.trace (DebugGo.streamHandler yt ff ck w u dbg)) = 0)
  /\ (forall (c : Sys.Context) (w : Sys.World) (u : string),
         Validator.isYouTubeURL u = false ->
         Sys.trace (StreamerGo.StreamFromURL c w u) = []).
Proof.
  split.
  { intros u. rewrite isYouTubeURL_spec. split.
    - intros (parsed & HP & Hin).
      exists parsed, (GoURL.Hostname parsed).
      split; [exact HP|]. split; [exact Hin|]. apply Host_of_Hostname.
    - intros (parsed & h & HP & Hin & Hn). exists parsed.
      split; [exact HP|]. unfold GoURL.Hostname.
      rewrite (Hostname_of_Host h _ Hin Hn). exact Hin. }
  split; [exact isYouTubeURL_named|].
  do 12 (split; [vm_compute; reflexivity|]).
  split; [|split].
  - intros w u H. destruct (rejected_main w u H) as (H1 & H2 & _). now split.
  - intros yt ff ck w u dbg H. apply (rejected_debug yt ff ck w u dbg H).
  - intros c w u H. apply (rejected_streamer c w u H).
Qed.

Lemma validator_accepts_exactly_allowed_hosts_witness :
  Validator.isYouTubeURL "https://music.youtube.com:443/watch?v=abc" = true
  /\ Validator.isYouTubeURL Samples.evil_url = false
  /\ Sys.count Sys.is_process_event
       (Sys.trace (MainGo.streamHandler (Samples.healthy []) Samples.evil_url)) = 0
  /\ Sys.trace (StreamerGo.StreamFromURL Sys.RequestContext (Samples.healthy [])
                  Samples.evil_url) = [].
Proof.
  split.
  - apply (proj2 (proj1 (proj2 validator_accepts_exactly_allowed_hosts)
                    "https" "music.youtube.com" ":443" "/watch?v=abc"
                    eq_refl eq_refl eq_refl eq_refl)).
    right. right. right. left. reflexivity.
  - split; [reflexivity|]. split.
    + apply (proj1 (proj2 (proj2 (proj2 (proj2 (proj2 (proj2 (proj2 (proj2
               (proj2 (proj2 (proj2 (proj2 (proj2 (proj2
                 validator_accepts_exactly_allowed_hosts))))))))))))))).
      reflexivity.
    + apply (proj2 (proj2 (proj2 (proj2 (proj2 (proj2 (proj2 (proj2 (proj2
               (proj2 (proj2 (proj2 (proj2 (proj2 (proj2 (proj2
                 validator_accepts_exactly_allowed_hosts)))))))))))))))).
      reflexivity.
Defined.

(** C10.  The host comparison is byte for byte: a parsed host name that
    differs from its own lower-case form is rejected even when the lower-case
    form is allow-listed, and a string that parses with an empty host name is
    rejected.  So https://YouTube.com/x is rejected (its host name is kept as
    YouTube.com), and so is the scheme-less youtube.com/watch?v=x (it parses
    as a path, with an empty host name). *)
Theorem validator_host_comparison_is_bytewise :
  (forall (u : string) (parsed : GoURL.URL),
      GoURL.Parse u = Ok parsed ->
      GoURL.Hostname parsed <> Strings.ToLower (GoURL.Hostname parsed) ->
      Validator.isYouTubeURL u = false)
  /\ (forall (u : string) (parsed : GoURL.URL),
         GoURL.Parse u = Ok parsed ->
         GoURL.Hostname parsed = "" ->
         Validator.isYouTubeURL u = false)
  /\ (exists parsed, GoURL.Parse "https://YouTube.com/x" = Ok parsed
                     /\ GoURL.Hostname parsed = "YouTube.com"
                     /\ In (Strings.ToLower (GoURL.Hostname parsed))
                           Validator.allowed_hosts)
  /\ Validator.isYouTubeURL "https://YouTube.com/x" = false
  /\ (exists parsed, GoURL.Parse "youtube.com/watch?v=x" = Ok parsed
                     /\ GoURL.Hostname parsed = ""
                     /\ GoURL.Path parsed = "youtube.com/watch")
  /\ Validator.isYouTubeURL "youtube.com/watch?v=x" = false.
Proof.
  split; [|split; [|split; [|split; [|split]]]].
  - intros u parsed HP Hne.
    destruct (Validator.isYouTubeURL u) eqn:E; [|reflexivity].
    apply isYouTubeURL_spec in E. destruct E as (p' & HP' & Hin).
    rewrite HP in HP'. injection HP' as <-.
    apply allowed_hosts_lower in Hin. congruence.
  - intros u parsed HP Hempty.
    unfold Validator.isYouTubeURL. rewrite HP, Hempty. reflexivity.
  - eexists. split; [vm_compute; reflexivity|]. split; [reflexivity|].
    vm_compute. tauto.
  - vm_compute; reflexivity.
  - eexists. split; [vm_compute; reflexivity|]. split; reflexivity.
  - vm_compute; reflexivity.
Qed.

Lemma validator_host_comparison_is_bytewise_witness :
  Validator.isYouTubeURL "https://WWW.YOUTUBE.COM/watch" = false
  /\ Validator.isYouTubeURL "/watch?v=x" = false.
Proof.
  split.
  - apply (proj1 validator_host_comparison_is_bytewise
             "https://WWW.YOUTUBE.COM/watch"
             {| GoURL.Scheme := "https"; GoURL.Opaque := ""; GoURL.User := None;
                GoURL.Host := "WWW.YOUTUBE.COM"; GoURL.Path := "/watch";
                GoURL.OmitHost := false; GoURL.ForceQuery := false;
                GoURL.RawQuery := ""; GoURL.Fragment := "" |}).
    + vm_compute; reflexivity.
    + vm_compute; discriminate.
  - apply (proj1 (proj2 validator_host_comparison_is_bytewise)
             "/watch?v=x"
             {| GoURL.Scheme := ""; GoURL.Opaque := ""; GoURL.User := None;
                GoURL.Host := ""; GoURL.Path := "/watch";
                GoURL.OmitHost := false; GoURL.ForceQuery := false;
                GoURL.RawQuery := "v=x"; GoURL.Fragment := "" |}).
    + vm_compute; reflexivity.
    + reflexivity.
Defined.

(** ** The argument lists *)
Section Arguments.

Lemma has_pair_intro (flag value : string) (before after args : list string) :
  args = before ++ flag :: value :: after -> has_pair flag value args.
Proof. intros ->. exists before, after. reflexivity. Qed.

Lemma validated_is_not_a_flag (vidURL : string) :
  Validator.isYouTubeURL vidURL = true -> vidURL <> "--cookies".
Proof. intros H ->. vm_compute in H. discriminate. Qed.

Lemma main2_args_shape (cookiesPath vidURL : string) :
  Main2Go.ytdlpArgs cookiesPath vidURL
  = main2_fixed_args
    ++ (if String.eqb cookiesPath "" then [] else ["--cookies"; cookiesPath])
    ++ [vidURL].
Proof.
  unfold Main2Go.ytdlpArgs. destruct (String.eqb cookiesPath ""); reflexivity.
Qed.

End Arguments.

(** C7.  For a validated URL, the extractor argument list of main2.go holds
    the format selector after -f, the output-to-stdout directive -o -, the
    flags --quiet and --no-warnings, the flag --cookies (followed by the
    path) exactly when a cookies path is configured, and the URL as its last
    element; the extractor list of main.go, which has no cookies setting,
    holds the same directives, no --cookies, and the URL last; the transcoder
    list of main.go fixes -ar 44100, -ac 2, -b:a 128k, -vn, -f mp3 and ends
    with pipe:1. *)
Theorem pipeline_arguments_are_as_specified :
  forall cookiesPath vidURL : string,
    Validator.isYouTubeURL vidURL = true ->
    (let args := Main2Go.ytdlpArgs cookiesPath vidURL in
     has_pair "-f" "best[ext=mp4][acodec~='mp4a']/best[ext=mp4]/best" args
     /\ has_pair "-o" "-" args
     /\ In "--quiet" args
     /\ In "--no-warnings" args
     /\ (In "--cookies" args <-> cookiesPath <> "")
     /\ (cookiesPath <> "" -> has_pair "--cookies" cookiesPath args)
     /\ ends_with vidURL args)
    /\ (let args := Sys.cmd_args (MainGo.ytdlpCmd vidURL) in
        has_pair "-f" "bestaudio[ext=m4a]/bestaudio" args
        /\ has_pair "-o" "-" args
        /\ In "--quiet" args
        /\ In "--no-warnings" args
        /\ ~ In "--cookies" args
        /\ ends_with vidURL args)
    /\ (let args := Sys.cmd_args MainGo.ffmpegCmd in
        has_pair "-ar" "44100" args
        /\ has_pair "-ac" "2" args
        /\ has_pair "-b:a" "128k" args
        /\ In "-vn" args
        /\ has_pair "-f" "mp3" args
        /\ has_pair "-i" "pipe:0" args
        /\ ends_with "pipe:1" args).
Proof.
  intros cookiesPath vidURL Hvalid.
  pose proof (validated_is_not_a_flag vidURL Hvalid) as Hflag.
  split; [|split].
  - cbv zeta. rewrite main2_args_shape.
    split; [eapply (has_pair_intro _ _ [_; _; _; _]); reflexivity|].
    split; [eapply (has_pair_intro _ _ [_; _; _; _; _; _; _; _; _; _; _]);
            reflexivity|].
    split; [simpl; tauto|].
    split; [simpl; tauto|].
    destruct (String.eqb_spec cookiesPath "") as [->|Hne].
    + split; [|split].
      * simpl. split; [|congruence].
        intros H. repeat (destruct H as [H|H]; [try discriminate; congruence|]).
        destruct H.
      * congruence.
      * exists main2_fixed_args. reflexivity.
    + split; [|split].
      * split; [intros _; exact Hne|]. intros _. simpl. tauto.
      * intros _.
        eapply (has_pair_intro _ _
                  [_; _; _; _; _; _; _; _; _; _; _; _; _; _; _]).
        reflexivity.
      * exists (main2_fixed_args ++ ["--cookies"; cookiesPath]).
        reflexivity.
  - cbv zeta. simpl Sys.cmd_args.
    split; [eapply (has_pair_intro _ _ []); reflexivity|].
    split; [eapply (has_pair_intro _ _ [_; _]); reflexivity|].
    split; [simpl; tauto|].
    split; [simpl; tauto|].
    split.
    + simpl. intros H.
      repeat (destruct H as [H|H]; [try discriminate; congruence|]).
      destruct H.
    + exists ["-f"; "bestaudio[ext=m4a]/bestaudio"; "-o"; "-";
              "--no-warnings"; "--quiet"]. reflexivity.
  - cbv zeta. simpl Sys.cmd_args.
    split; [eapply (has_pair_intro _ _ [_; _; _; _; _; _; _; _; _]); reflexivity|].
    split; [eapply (has_pair_intro _ _ [_; _; _; _; _; _; _]); reflexivity|].
    split; [eapply (has_pair_intro _ _ [_; _; _; _; _; _; _; _; _; _; _]);
            reflexivity|].
    split; [simpl; tauto|].
    split; [eapply (has_pair_intro _ _ [_; _; _; _; _]); reflexivity|].
    split; [eapply (has_pair_intro _ _ [_; _; _]); reflexivity|].
    exists ["-hide_banner"; "-loglevel"; "error"; "-i"; "pipe:0"; "-f"; "mp3";
            "-ac"; "2"; "-ar"; "44100"; "-b:a"; "128k"; "-vn"].
    reflexivity.
Qed.

Lemma pipeline_arguments_are_as_specified_witness :
  Validator.isYouTubeURL Samples.good_url = true
  /\ In "--cookies" (Main2Go.ytdlpArgs "/srv/cookies.txt" Samples.good_url)
  /\ ends_with Samples.good_url
       (Main2Go.ytdlpArgs "/srv/cookies.txt" Samples.good_url).
Proof.
  assert (Hv : Validator.isYouTubeURL Samples.good_url = true) by reflexivity.
  pose proof (pipeline_arguments_are_as_specified
                "/srv/cookies.txt" Samples.good_url Hv) as [Hm2 _].
  cbv zeta in Hm2.
  destruct Hm2 as (_ & _ & _ & _ & Hck & _ & Hend).
  split; [exact Hv|]. split; [|exact Hend].
  apply Hck. discriminate.
Defined.

(** ** The relay loops *)
Section RelayFacts.
Import Sys.

Lemma relayed_nonneg (pre : list ReadResult) : (0 <= relayed pre)%Z.
Proof. induction pre; simpl; unfold len; lia. Qed.

(** One turn of the loop of main.go. *)
Lemma main_relay_cons (w : World) (r : ReadResult) (rs : list ReadResult) (k : nat) :
  MainGo.relay w (r :: rs) k =
  if nonempty r then
    match write_err w k with
    | Some _ =>
        ([Read r; Write (data r) false; Kill Extractor; Kill Transcoder],
         Return tt)
    | None =>
        match rerr r with
        | Some _ => (Read r :: Write (data r) true :: flush_events w, Next tt)
        | None =>
            (Read r :: Write (data r) true :: flush_events w
               ++ trace (MainGo.relay w rs (S k)),
             flow (MainGo.relay w rs (S k)))
        end
    end
  else
    match rerr r with
    | Some _ => ([Read r], Next tt)
    | None => (Read r :: trace (MainGo.relay w rs k), flow (MainGo.relay w rs k))
    end.
Proof.
  unfold nonempty, flush_events. cbn [MainGo.relay].
  unfold mbind, Run_bind, bind, emit, w_Write, w_Flush, process_Kill, return_,
    ret, emit, trace, flow.
  destruct (0 <? length (data r))%nat; cbn [fst snd app].
  - destruct (write_err w k); cbn [fst snd app isNil]; [reflexivity|].
    destruct (flusher w); cbn [fst snd app];
      destruct (rerr r); cbn [fst snd app]; reflexivity.
  - destruct (rerr r); cbn [fst snd app]; reflexivity.
Qed.

Lemma main_relay_passes (w : World) (pre rest : list ReadResult) (k : nat) :
  passes w pre k = true ->
  MainGo.relay w (pre ++ rest) k
  = (pass_trace w pre ++ trace (MainGo.relay w rest (k + writes_in pre)),
     flow (MainGo.relay w rest (k + writes_in pre))).
Proof.
  revert k. induction pre as [|r pre IH]; intros k Hp.
  - cbn [app pass_trace writes_in]. rewrite Nat.add_0_r.
    destruct (MainGo.relay w rest k); reflexivity.
  - cbn [passes] in Hp. apply andb_prop in Hp. destruct Hp as [Hr Hp].
    destruct (rerr r) eqn:Er; [discriminate|].
    rewrite <- app_comm_cons, main_relay_cons, Er.
    cbn [pass_trace writes_in].
    destruct (nonempty r).
    + apply andb_prop in Hp. destruct Hp as [Hw Hp].
      destruct (write_err w k); [discriminate|].
      rewrite (IH _ Hp). unfold trace, flow. cbn [fst snd].
      replace (k + (1 + writes_in pre)) with (S k + writes_in pre) by lia.
      rewrite <- !app_assoc. reflexivity.
    + rewrite (IH _ Hp). unfold trace, flow. cbn [fst snd].
      reflexivity.
Qed.

Lemma wrap_int_small (x : Z) :
  (- 2 ^ 63 <= x < 2 ^ 63)%Z -> wrap_int x = x.
Proof. intros H. unfold wrap_int. rewrite Z.mod_small; lia. Qed.

Lemma len_nonempty (r : ReadResult) :
  nonempty r = false -> len (data r) = 0%Z.
Proof.
  unfold nonempty, len. destruct (data r); [reflexivity|discriminate].
Qed.

Lemma total_after_relayed (pre : list ReadResult) (total : Z) :
  (0 <= total)%Z -> (total + relayed pre < 2 ^ 63)%Z ->
  total_after total pre = (total + relayed pre)%Z.
Proof.
  revert total. induction pre as [|r pre IH]; intros total H0 Hb.
  - cbn. lia.
  - cbn [total_after relayed] in *.
    pose proof (relayed_nonneg pre) as Hr.
    assert (Hl : (0 <= len (data r))%Z) by (unfold len; lia).
    destruct (nonempty r) eqn:En.
    + unfold int_add. rewrite wrap_int_small by lia. rewrite IH; lia.
    + rewrite (len_nonempty r En) in *. rewrite IH; lia.
Qed.

(** One turn of the loop of the debug variant. *)
Lemma debug_relay_cons (w : World) (r : ReadResult) (rs : list ReadResult)
      (k : nat) (total : Z) :
  DebugGo.relay w (r :: rs) k total =
  if nonempty r then
    let total' := int_add total (len (data r)) in
    match write_err w k with
    | Some _ =>
        ([Read r; Write (data r) false;
          Log "Client left after %d bytes" [LInt total'];
          Kill Extractor; Kill Transcoder],
         Return tt)
    | None =>
        match rerr r with
        | Some e =>
            (Read r :: Write (data r) true :: flush_events w ++ read_error_log e,
             Next total')
        | None =>
            (Read r :: Write (data r) true :: flush_events w
               ++ trace (DebugGo.relay w rs (S k) total'),
             flow (DebugGo.relay w rs (S k) total'))
        end
    end
  else
    match rerr r with
    | Some e => (Read r :: read_error_log e, Next total)
    | None =>
        (Read r :: trace (DebugGo.relay w rs k total),
         flow (DebugGo.relay w rs k total))
    end.
Proof.
  unfold nonempty, flush_events, read_error_log. cbn [DebugGo.relay].
  unfold mbind, Run_bind, bind, emit, w_Write, w_Flush, process_Kill,
    log_Printf, when, return_, ret, emit, trace, flow.
  destruct (0 <? length (data r))%nat; cbn [fst snd app].
  - destruct (write_err w k); cbn [fst snd app isNil]; [reflexivity|].
    destruct (flusher w); cbn [fst snd app];
      destruct (rerr r) as [[|m]|]; cbn [fst snd app DebugGo.is_EOF negb];
      reflexivity.
  - destruct (rerr r) as [[|m]|]; cbn [fst snd app DebugGo.is_EOF negb];
      reflexivity.
Qed.

Lemma debug_relay_passes (w : World) (pre rest : list ReadResult)
      (k : nat) (total : Z) :
  passes w pre k = true ->
  DebugGo.relay w (pre ++ rest) k total
  = (pass_trace w pre
       ++ trace (DebugGo.relay w rest (k + writes_in pre) (total_after total pre)),
     flow (DebugGo.relay w rest (k + writes_in pre) (total_after total pre))).
Proof.
  revert k total. induction pre as [|r pre IH]; intros k total Hp.
  - cbn [app pass_trace writes_in total_after]. rewrite Nat.add_0_r.
    destruct (DebugGo.relay w rest k total); reflexivity.
  - cbn [passes] in Hp. apply andb_prop in Hp. destruct Hp as [Hr Hp].
    destruct (rerr r) eqn:Er; [discriminate|].
    rewrite <- app_comm_cons, debug_relay_cons, Er.
    cbn [pass_trace writes_in total_after].
    destruct (nonempty r).
    + apply andb_prop in Hp. destruct Hp as [Hw Hp].
      destruct (write_err w k); [discriminate|]. cbv zeta.
      rewrite (IH _ _ Hp). unfold trace, flow. cbn [fst snd].
      replace (k + (1 + writes_in pre)) with (S k + writes_in pre) by lia.
      rewrite <- !app_assoc. reflexivity.
    + rewrite (IH _ _ Hp). unfold trace, flow. cbn [fst snd].
      reflexivity.
Qed.

(** One turn of the loop of the streamer package. *)
Lemma streamer_relay_cons (w : World) (r : ReadResult) (rs : list ReadResult)
      (k : nat) :
  StreamerGo.relay w (r :: rs) k =
  if nonempty r then
    match write_err w k with
    | Some _ =>
        ([Read r; Write (data r) false], Return (Some "client disconnected"))
    | None =>
        match rerr r with
        | Some EOF => (Read r :: Write (data r) true :: flush_events w, Next tt)
        | Some (ReadFailure m) =>
            (Read r :: Write (data r) true :: flush_events w,
             Return (Some ("ffmpeg read: " +:+ m)))
        | None =>
            (Read r :: Write (data r) true :: flush_events w
               ++ trace (StreamerGo.relay w rs (S k)),
             flow (StreamerGo.relay w rs (S k)))
        end
    end
  else
    match rerr r with
    | Some EOF => ([Read r], Next tt)
    | Some (ReadFailure m) => ([Read r], Return (Some ("ffmpeg read: " +:+ m)))
    | None =>
        (Read r :: trace (StreamerGo.relay w rs k),
         flow (StreamerGo.relay w rs k))
    end.
Proof.
  unfold nonempty, flush_events. cbn [StreamerGo.relay].
  unfold mbind, Run_bind, bind, emit, w_Write, w_Flush, return_,
    ret, emit, trace, flow.
  destruct (0 <? length (data r))%nat; cbn [fst snd app].
  - destruct (write_err w k); cbn [fst snd app isNil]; [reflexivity|].
    destruct (flusher w); cbn [fst snd app];
      destruct (rerr r) as [[|m]|]; cbn [fst snd app]; reflexivity.
  - destruct (rerr r) as [[|m]|]; cbn [fst snd app]; reflexivity.
Qed.

Lemma streamer_relay_passes (w : World) (pre rest : list ReadResult) (k : nat) :
  passes w pre k = true ->
  StreamerGo.relay w (pre ++ rest) k
  = (pass_trace w pre ++ trace (StreamerGo.relay w rest (k + writes_in pre)),
     flow (StreamerGo.relay w rest (k + writes_in pre))).
Proof.
  revert k. induction pre as [|r pre IH]; intros k Hp.
  - cbn [app pass_trace writes_in]. rewrite Nat.add_0_r.
    destruct (StreamerGo.relay w rest k); reflexivity.
  - cbn [passes] in Hp. apply andb_prop in Hp. destruct Hp as [Hr Hp].
    destruct (rerr r) eqn:Er; [discriminate|].
    rewrite <- app_comm_cons, streamer_relay_cons, Er.
    cbn [pass_trace writes_in].
    destruct (nonempty r).
    + apply andb_prop in Hp. destruct Hp as [Hw Hp].
      destruct (write_err w k); [discriminate|].
      rewrite (IH _ Hp). unfold trace, flow. cbn [fst snd].
      replace (k + (1 + writes_in pre)) with (S k + writes_in pre) by lia.
      rewrite <- !app_assoc. reflexivity.
    + rewrite (IH _ Hp). unfold trace, flow. cbn [fst snd].
      reflexivity.
Qed.

End RelayFacts.

(** ** The handlers around the loops *)
Section HandlerFacts.
Import Sys Validator.

Lemma setup_ok_fields (w : World) :
  setup_ok w = true ->
  ytdlp_StdoutPipe w = None /\ ytdlp_Start w = None
  /\ ffmpeg_StdoutPipe w = None /\ ffmpeg_Start w = None.
Proof.
  unfold setup_ok. intros H.
  destruct (ytdlp_StdoutPipe w), (ytdlp_Start w), (ffmpeg_StdoutPipe w),
    (ffmpeg_Start w); try discriminate. tauto.
Qed.

Lemma accepted_nonempty (u : string) :
  isYouTubeURL u = true -> String.eqb u "" = false.
Proof.
  intros H. destruct (String.eqb_spec u "") as [->|]; [|reflexivity].
  vm_compute in H. discriminate.
Qed.

Lemma main_streaming (w : World) (vidURL : string) :
  isYouTubeURL vidURL = true ->
  setup_ok w = true ->
  trace (MainGo.streamHandler w vidURL)
  = main_setup_trace vidURL
      ++ trace (MainGo.relay w (reads w) 0)
      ++ main_after_loop (flow (MainGo.relay w (reads w) 0))
  /\ flow (MainGo.streamHandler w vidURL)
     = match flow (MainGo.relay w (reads w) 0) with
       | Next _ => Next tt
       | Return _ => Return tt
       | Blocked => Blocked
       end.
Proof.
  intros Hu Hs. apply setup_ok_fields in Hs.
  destruct Hs as (H1 & H2 & H3 & H4).
  unfold MainGo.streamHandler.
  rewrite (accepted_nonempty _ Hu), Hu. cbn [negb].
  unfold cmd_StdoutPipe, cmd_Start, pipe_result, start_result.
  rewrite H1, H2, H3, H4.
  destruct (MainGo.relay w (reads w) 0) as [t [[]|[]|]]; cbn;
    rewrite ?app_nil_r, <- ?app_assoc; split; reflexivity.
Qed.

(** main.go:79-85 *)
Lemma main_transcoder_start_fails (w : World) (vidURL e : string) :
  isYouTubeURL vidURL = true ->
  ytdlp_StdoutPipe w = None -> ytdlp_Start w = None ->
  ffmpeg_StdoutPipe w = None -> ffmpeg_Start w = Some e ->
  MainGo.streamHandler w vidURL
  = ([HeaderSet "Content-Type" "audio/mpeg";
      HeaderSet "Cache-Control" "no-cache";
      HeaderSet "Connection" "keep-alive";
      StdoutPipe Extractor true;
      Start Extractor (MainGo.ytdlpCmd vidURL) true;
      StdoutPipe Transcoder true;
      Start Transcoder MainGo.ffmpegCmd false]
       ++ Kill Extractor
       :: [Log "ffmpeg failed to start: %v" [LStr e];
           HttpError "Encoding failed" StatusInternalServerError;
           CancelCtx],
     Return tt).
Proof.
  intros Hu H1 H2 H3 H4. unfold MainGo.streamHandler.
  rewrite (accepted_nonempty _ Hu), Hu. cbn [negb].
  unfold cmd_StdoutPipe, cmd_Start, pipe_result, start_result.
  rewrite H1, H2, H3, H4. reflexivity.
Qed.

(** lines 140-146 of the debug variant *)
Lemma debug_transcoder_start_fails (yt ff ck : string) (w : World)
      (vidURL dbg e : string) :
  isYouTubeURL vidURL = true ->
  String.eqb dbg "1" || String.eqb dbg "true" = false ->
  ytdlp_StdoutPipe w = None -> ytdlp_Start w = None ->
  ffmpeg_StdoutPipe w = None -> ffmpeg_Start w = Some e ->
  DebugGo.streamHandler yt ff ck w vidURL dbg
  = ([HeaderSet "Content-Type" "audio/mpeg";
      HeaderSet "Cache-Control" "no-cache";
      HeaderSet "Connection" "keep-alive";
      HeaderSet "Accept-Ranges" "none";
      HeaderSet "Transfer-Encoding" "chunked";
      Log "🔍 Starting stream for: %s" [LStr vidURL];
      StdoutPipe Extractor true;
      StdoutPipe Transcoder true;
      Start Extractor (DebugGo.ytdlpCmd yt ck vidURL) true;
      Start Transcoder (DebugGo.ffmpegCmd ff) false]
       ++ Kill Extractor
       :: [Log "❌ ffmpeg start failed: %v" [LStr e];
           HttpError "ffmpeg failed" StatusInternalServerError],
     Return tt).
Proof.
  intros Hu Hd H1 H2 H3 H4. unfold DebugGo.streamHandler.
  rewrite (accepted_nonempty _ Hu), Hu, Hd. cbn [negb].
  unfold cmd_StdoutPipe, cmd_Start, pipe_result, start_result.
  rewrite H1, H2, H3, H4. reflexivity.
Qed.

(** *** The response writer under a trace *)

Lemma respond_app (t1 t2 : list Event) :
  respond (t1 ++ t2) = fold_left resp_step t2 (respond t1).
Proof. unfold respond. apply fold_left_app. Qed.

Lemma resp_quiet (t : list Event) (r : Response) :
  forallb quiet t = true ->
  header (fold_left resp_step t r) = header r
  /\ status (fold_left resp_step t r)
     = match status r with
       | Some c => Some c
       | None => if existsb is_Write t then Some StatusOK else None
       end.
Proof.
  revert r. induction t as [|e t IH]; intros r Hq.
  - cbn. destruct (status r); split; reflexivity.
  - cbn [forallb] in Hq. apply andb_prop in Hq. destruct Hq as [He Hq].
    cbn [fold_left existsb].
    destruct (IH (resp_step r e) Hq) as [IHh IHs]. rewrite IHh, IHs.
    destruct e; try discriminate; cbn [resp_step is_Write orb header status];
      try (split; reflexivity).
    destruct (status r); split; reflexivity.
Qed.

Lemma main_relay_quiet (w : World) (rs : list ReadResult) (k : nat) :
  forallb quiet (trace (MainGo.relay w rs k)) = true.
Proof.
  revert k. induction rs as [|r rs IH]; intros k; [reflexivity|].
  rewrite main_relay_cons. unfold flush_events.
  destruct (nonempty r), (write_err w k), (rerr r), (flusher w);
    cbn [trace fst forallb quiet andb app]; auto.
Qed.

Lemma main_after_loop_quiet (f : Flow unit unit) :
  forallb quiet (main_after_loop f) = true.
Proof. destruct f; reflexivity. Qed.

(** The response of main.go once set-up has succeeded. *)
Lemma main_streaming_response (w : World) (vidURL : string) :
  isYouTubeURL vidURL = true ->
  setup_ok w = true ->
  let t := trace (MainGo.streamHandler w vidURL) in
  header (respond t) !! "Content-Type" = Some "audio/mpeg"
  /\ header (respond t) !! "Cache-Control" = Some "no-cache"
  /\ header (respond t) !! "Connection" = Some "keep-alive"
  /\ status (respond t) = (if existsb is_Write t then Some StatusOK else None)
  /\ status (finish (respond t)) = Some StatusOK.
Proof.
  intros Hu Hs. cbv zeta.
  destruct (main_streaming w vidURL Hu Hs) as [Ht _]. rewrite Ht.
  set (rest := trace (MainGo.relay w (reads w) 0)
                 ++ main_after_loop (flow (MainGo.relay w (reads w) 0))).
  assert (Hq : forallb quiet rest = true).
  { unfold rest. rewrite forallb_app, main_relay_quiet, main_after_loop_quiet.
    reflexivity. }
  rewrite respond_app.
  destruct (resp_quiet rest (respond (main_setup_trace vidURL)) Hq) as [Hh Hst].
  rewrite Hh. unfold finish. cbn [status]. rewrite Hst.
  rewrite existsb_app.
  replace (existsb is_Write (main_setup_trace vidURL)) with false by reflexivity.
  cbn [orb].
  replace (status (respond (main_setup_trace vidURL))) with (@None nat)
    by reflexivity.
  repeat split; try (vm_compute; reflexivity).
  destruct (existsb is_Write rest); reflexivity.
Qed.

End HandlerFacts.

(** C1.  When the transcoder fails to start after the extractor has been
    started, the handler kills the extractor before it reports the failure:
    the kill comes while the extractor is running and before any error
    response, exactly one error response follows, the handler returns, and
    neither process is running at the end.  This holds for main.go and for
    the debug variant. *)
Theorem transcoder_start_failure_kills_extractor :
  forall (w : Sys.World) (vidURL e yt ff ck dbg : string),
    Validator.isYouTubeURL vidURL = true ->
    String.eqb dbg "1" || String.eqb dbg "true" = false ->
    Sys.ytdlp_StdoutPipe w = None ->
    Sys.ytdlp_Start w = None ->
    Sys.ffmpeg_StdoutPipe w = None ->
    Sys.ffmpeg_Start w = Some e ->
    (let t := Sys.trace (MainGo.streamHandler w vidURL) in
     (exists before after,
         t = before ++ Sys.Kill Sys.Extractor :: after
         /\ Sys.running before Sys.Extractor = true
         /\ Sys.running before Sys.Transcoder = false
         /\ Sys.count Sys.is_HttpError before = 0
         /\ Sys.count Sys.is_HttpError after = 1)
     /\ Sys.count Sys.is_HttpError t = 1
     /\ Sys.running t Sys.Extractor = false
     /\ Sys.running t Sys.Transcoder = false
     /\ Sys.flow (MainGo.streamHandler w vidURL) = Sys.Return tt)
    /\ (let t := Sys.trace (DebugGo.streamHandler yt ff ck w vidURL dbg) in
        (exists before after,
            t = before ++ Sys.Kill Sys.Extractor :: after
            /\ Sys.running before Sys.Extractor = true
            /\ Sys.running before Sys.Transcoder = false
            /\ Sys.count Sys.is_HttpError before = 0
            /\ Sys.count Sys.is_HttpError after = 1)
        /\ Sys.count Sys.is_HttpError t = 1
        /\ Sys.running t Sys.Extractor = false
        /\ Sys.running t Sys.Transcoder = false
        /\ Sys.flow (DebugGo.streamHandler yt ff ck w vidURL dbg) = Sys.Return tt).
Proof.
  intros w vidURL e yt ff ck dbg Hu Hd H1 H2 H3 H4. split; cbv zeta.
  - rewrite (main_transcoder_start_fails w vidURL e Hu H1 H2 H3 H4).
    split; [|repeat split].
    eexists _, _. split; [reflexivity|]. repeat split.
  - rewrite (debug_transcoder_start_fails yt ff ck w vidURL dbg e Hu Hd H1 H2 H3 H4).
    split; [|repeat split].
    eexists _, _. split; [reflexivity|]. repeat split.
Qed.

Lemma transcoder_start_failure_kills_extractor_witness :
  Sys.running (Sys.trace (MainGo.streamHandler Samples.no_ffmpeg Samples.good_url))
    Sys.Extractor = false
  /\ Sys.count Sys.is_HttpError
       (Sys.trace (DebugGo.streamHandler "yt-dlp" "ffmpeg" "" Samples.no_ffmpeg
                     Samples.good_url "")) = 1.
Proof.
  pose proof (transcoder_start_failure_kills_extractor
                Samples.no_ffmpeg Samples.good_url
                "exec: ffmpeg: executable file not found in $PATH"
                "yt-dlp" "ffmpeg" "" ""
                eq_refl eq_refl eq_refl eq_refl eq_refl eq_refl) as [Hm Hd].
  cbv zeta in Hm, Hd.
  destruct Hm as (_ & _ & Hrun & _). destruct Hd as (_ & Hone & _).
  split; [exact Hrun | exact Hone].
Defined.

(** C8, as the code has it.  For main.go: a missing or rejected URL gets
    status 400 and no process; when the URL is accepted, a failure to create
    either pipe gets 500, a failure to start the extractor gets 503, a failure
    to start the transcoder gets 500; and when set-up succeeds the response
    carries Content-Type audio/mpeg, Cache-Control no-cache and Connection
    keep-alive, its status is 200 from the first write on, and 200 when the
    handler returns. *)
Theorem stream_response_statuses :
  forall (w : Sys.World) (vidURL : string),
    let t := Sys.trace (MainGo.streamHandler w vidURL) in
    let r := Sys.respond t in
    (vidURL = "" \/ Validator.isYouTubeURL vidURL = false ->
     Sys.status r = Some Sys.StatusBadRequest
     /\ Sys.count Sys.is_process_event t = 0)
    /\ (Validator.isYouTubeURL vidURL = true ->
        (Sys.ytdlp_StdoutPipe w <> None ->
         Sys.status r = Some Sys.StatusInternalServerError)
        /\ (Sys.ytdlp_StdoutPipe w = None -> Sys.ytdlp_Start w <> None ->
            Sys.status r = Some Sys.StatusServiceUnavailable)
        /\ (Sys.ytdlp_StdoutPipe w = None -> Sys.ytdlp_Start w = None ->
            Sys.ffmpeg_StdoutPipe w <> None ->
            Sys.status r = Some Sys.StatusInternalServerError)
        /\ (Sys.ytdlp_StdoutPipe w = None -> Sys.ytdlp_Start w = None ->
            Sys.ffmpeg_StdoutPipe w = None -> Sys.ffmpeg_Start w <> None ->
            Sys.status r = Some Sys.StatusInternalServerError)
        /\ (setup_ok w = true ->
            Sys.header r !! "Content-Type" = Some "audio/mpeg"
            /\ Sys.header r !! "Cache-Control" = Some "no-cache"
            /\ Sys.header r !! "Connection" = Some "keep-alive"
            /\ Sys.status r = (if existsb is_Write t then Some Sys.StatusOK else None)
            /\ Sys.status (Sys.finish r) = Some Sys.StatusOK)).
Proof.
  intros w vidURL. cbv zeta. split.
  - intros Hbad.
    assert (Hrej : Validator.isYouTubeURL vidURL = false).
    { destruct Hbad as [->|H]; [vm_compute; reflexivity | exact H]. }
    destruct (rejected_main w vidURL Hrej) as (Hc & _ & Hs). now split.
  - intros Hu.
    split; [|split; [|split; [|split]]].
    + intros H1. unfold MainGo.streamHandler.
      rewrite (accepted_nonempty _ Hu), Hu. cbn [negb].
      unfold Sys.cmd_StdoutPipe, Sys.pipe_result.
      destruct (Sys.ytdlp_StdoutPipe w); [reflexivity | congruence].
    + intros H1 H2. unfold MainGo.streamHandler.
      rewrite (accepted_nonempty _ Hu), Hu. cbn [negb].
      unfold Sys.cmd_StdoutPipe, Sys.cmd_Start, Sys.pipe_result, Sys.start_result.
      rewrite H1. destruct (Sys.ytdlp_Start w); [reflexivity | congruence].
    + intros H1 H2 H3. unfold MainGo.streamHandler.
      rewrite (accepted_nonempty _ Hu), Hu. cbn [negb].
      unfold Sys.cmd_StdoutPipe, Sys.cmd_Start, Sys.pipe_result, Sys.start_result.
      rewrite H1, H2. destruct (Sys.ffmpeg_StdoutPipe w); [reflexivity | congruence].
    + intros H1 H2 H3 H4.
      destruct (Sys.ffmpeg_Start w) as [e|] eqn:E; [|congruence].
      rewrite (main_transcoder_start_fails w vidURL e Hu H1 H2 H3 E).
      reflexivity.
    + intros Hs. exact (main_streaming_response w vidURL Hu Hs).
Qed.

Lemma stream_response_statuses_witness :
  Sys.status (Sys.respond (Sys.trace
     (MainGo.streamHandler (Samples.healthy []) Samples.evil_url)))
  = Some Sys.StatusBadRequest
  /\ Sys.status (Sys.finish (Sys.respond (Sys.trace
        (MainGo.streamHandler
           (Samples.healthy [Samples.last_chunk [Byte.x49; Byte.x44; Byte.x33] Sys.EOF])
           Samples.good_url))))
     = Some Sys.StatusOK.
Proof.
  split.
  - apply (proj1 (stream_response_statuses (Samples.healthy []) Samples.evil_url)).
    right. reflexivity.
  - apply (proj2 (stream_response_statuses
                    (Samples.healthy
                       [Samples.last_chunk [Byte.x49; Byte.x44; Byte.x33] Sys.EOF])
                    Samples.good_url)); reflexivity.
Defined.

(** C8 as stated fails: with an accepted URL and a transcoder that cannot be
    started (a set-up failure), main.go answers 500, which is neither 502 nor
    503. *)
Lemma setup_failure_status_counterexample :
  Validator.isYouTubeURL Samples.good_url = true
  /\ Sys.ffmpeg_Start Samples.no_ffmpeg <> None
  /\ Sys.status (Sys.respond (Sys.trace
        (MainGo.streamHandler Samples.no_ffmpeg Samples.good_url)))
     = Some 500
  /\ ~ (Sys.status (Sys.respond (Sys.trace
          (MainGo.streamHandler Samples.no_ffmpeg Samples.good_url)))
        = Some Sys.StatusBadGateway
        \/ Sys.status (Sys.respond (Sys.trace
             (MainGo.streamHandler Samples.no_ffmpeg Samples.good_url)))
           = Some Sys.StatusServiceUnavailable).
Proof.
  split; [reflexivity|]. split; [discriminate|]. split; [reflexivity|].
  intros [H|H]; vm_compute in H; discriminate.
Qed.

(** ** The client goes away *)
Section ClientGone.
Import Sys Validator.

(** When the loop of the debug variant ends in [return], so does the
    handler, with nothing in between. *)
Lemma debug_streaming_return (yt ff ck : string) (w : World) (vidURL dbg : string) :
  isYouTubeURL vidURL = true ->
  String.eqb dbg "1" || String.eqb dbg "true" = false ->
  setup_ok w = true ->
  flow (DebugGo.relay w (reads w) 0 0) = Return tt ->
  DebugGo.streamHandler yt ff ck w vidURL dbg
  = (debug_setup_trace yt ff ck vidURL ++ trace (DebugGo.relay w (reads w) 0 0),
     Return tt).
Proof.
  intros Hu Hd Hs Hf. apply setup_ok_fields in Hs.
  destruct Hs as (H1 & H2 & H3 & H4).
  unfold DebugGo.streamHandler.
  rewrite (accepted_nonempty _ Hu), Hu, Hd. cbn [negb].
  unfold cmd_StdoutPipe, cmd_Start, pipe_result, start_result.
  rewrite H1, H2, H3, H4.
  destruct (DebugGo.relay w (reads w) 0 0) as [t f]. cbn in Hf. subst f.
  reflexivity.
Qed.

(** The client has received exactly the chunks the loop went through. *)
Lemma pass_trace_body (w : World) (pre : list ReadResult) (r : Response) :
  body (fold_left resp_step (pass_trace w pre) r)
  = body r ++ flat_map data pre.
Proof.
  revert r. induction pre as [|x pre IH]; intros r.
  - cbn. rewrite app_nil_r. reflexivity.
  - cbn [pass_trace flat_map]. rewrite fold_left_app, IH.
    rewrite app_assoc. f_equal.
    unfold nonempty, flush_events.
    destruct (data x) as [|b bs] eqn:Ed; cbn [length Nat.ltb Nat.leb].
    + cbn. rewrite app_nil_r. reflexivity.
    + destruct (flusher w); reflexivity.
Qed.

Lemma relayed_flat_map (pre : list ReadResult) :
  len (flat_map data pre) = relayed pre.
Proof.
  induction pre as [|x pre IH]; [reflexivity|].
  cbn [flat_map relayed]. rewrite <- IH. unfold len.
  rewrite length_app. lia.
Qed.

End ClientGone.

(** C2, as the code has it.  Let the loop have gone through the reads [pre]
    (so the client holds N = [relayed pre] bytes) and let the write of the next
    chunk [r] fail.  Then main.go and the debug variant stop at once: after the
    failed write come only the kills of the extractor and of the transcoder,
    and the handler returns.  The client's body is the N bytes of [pre].  The
    byte count the debug variant logs at that point is N plus the length of the
    chunk whose write failed, which is more than N. *)
Theorem write_failure_stops_and_kills :
  forall (w : Sys.World) (pre post : list Sys.ReadResult) (r : Sys.ReadResult)
         (e vidURL yt ff ck dbg : string),
    Validator.isYouTubeURL vidURL = true ->
    String.eqb dbg "1" || String.eqb dbg "true" = false ->
    setup_ok w = true ->
    Sys.reads w = pre ++ r :: post ->
    passes w pre 0 = true ->
    nonempty r = true ->
    Sys.write_err w (writes_in pre) = Some e ->
    (relayed pre + Sys.len (Sys.data r) < 2 ^ 63)%Z ->
    MainGo.streamHandler w vidURL
    = (main_setup_trace vidURL ++ pass_trace w pre
         ++ [Sys.Read r; Sys.Write (Sys.data r) false;
             Sys.Kill Sys.Extractor; Sys.Kill Sys.Transcoder; Sys.CancelCtx],
       Sys.Return tt)
    /\ DebugGo.streamHandler yt ff ck w vidURL dbg
       = (debug_setup_trace yt ff ck vidURL ++ pass_trace w pre
            ++ [Sys.Read r; Sys.Write (Sys.data r) false;
                Sys.Log "Client left after %d bytes"
                  [Sys.LInt (relayed pre + Sys.len (Sys.data r))];
                Sys.Kill Sys.Extractor; Sys.Kill Sys.Transcoder],
          Sys.Return tt)
    /\ Sys.len (Sys.body (Sys.respond (Sys.trace (MainGo.streamHandler w vidURL))))
       = relayed pre
    /\ (relayed pre < relayed pre + Sys.len (Sys.data r))%Z.
Proof.
  intros w pre post r e vidURL yt ff ck dbg Hu Hd Hs Hr Hp Hn Hw Hb.
  assert (Hmain : MainGo.relay w (Sys.reads w) 0
                  = (pass_trace w pre
                       ++ [Sys.Read r; Sys.Write (Sys.data r) false;
                           Sys.Kill Sys.Extractor; Sys.Kill Sys.Transcoder],
                     Sys.Return tt)).
  { rewrite Hr, (main_relay_passes w pre (r :: post) 0 Hp).
    rewrite main_relay_cons, Hn. cbn [Nat.add]. rewrite Hw. reflexivity. }
  assert (Hdebug : DebugGo.relay w (Sys.reads w) 0 0
                   = (pass_trace w pre
                        ++ [Sys.Read r; Sys.Write (Sys.data r) false;
                            Sys.Log "Client left after %d bytes"
                              [Sys.LInt (relayed pre + Sys.len (Sys.data r))];
                            Sys.Kill Sys.Extractor; Sys.Kill Sys.Transcoder],
                      Sys.Return tt)).
  { rewrite Hr, (debug_relay_passes w pre (r :: post) 0 0 Hp).
    rewrite debug_relay_cons, Hn. cbn [Nat.add]. rewrite Hw. cbv zeta.
    pose proof (relayed_nonneg pre) as H0.
    assert (Hl : (0 <= Sys.len (Sys.data r))%Z) by (unfold Sys.len; lia).
    rewrite total_after_relayed by lia.
    unfold Sys.int_add. rewrite wrap_int_small by lia.
    reflexivity. }
  assert (Hmain' : MainGo.streamHandler w vidURL
                   = (main_setup_trace vidURL ++ pass_trace w pre
                        ++ [Sys.Read r; Sys.Write (Sys.data r) false;
                            Sys.Kill Sys.Extractor; Sys.Kill Sys.Transcoder;
                            Sys.CancelCtx],
                      Sys.Return tt)).
  { destruct (main_streaming w vidURL Hu Hs) as [Ht Hf].
    rewrite Hmain in Ht, Hf. cbn [Sys.trace Sys.flow fst snd main_after_loop] in Ht, Hf.
    destruct (MainGo.streamHandler w vidURL) as [t f].
    cbn [Sys.trace Sys.flow fst snd] in Ht, Hf. subst t f.
    rewrite <- !app_assoc. reflexivity. }
  split; [exact Hmain'|]. split; [|split].
  - rewrite (debug_streaming_return yt ff ck w vidURL dbg Hu Hd Hs);
      rewrite Hdebug; reflexivity.
  - rewrite Hmain'. cbn [Sys.trace fst].
    rewrite respond_app, fold_left_app.
    remember (fold_left Sys.resp_step (pass_trace w pre)
                (Sys.respond (main_setup_trace vidURL))) as mid eqn:Emid.
    cbn [fold_left Sys.resp_step Sys.body]. subst mid.
    rewrite pass_trace_body, <- relayed_flat_map. reflexivity.
  - assert (Hl : (0 < Sys.len (Sys.data r))%Z).
    { unfold nonempty in Hn. apply Nat.ltb_lt in Hn. unfold Sys.len. lia. }
    lia.
Qed.

Lemma write_failure_stops_and_kills_witness :
  (0 < relayed [Samples.chunk [Byte.x01; Byte.x02]])%Z
  /\ Sys.flow (MainGo.streamHandler
                 (Samples.client_leaves_at 1
                    [Samples.chunk [Byte.x01; Byte.x02]; Samples.chunk [Byte.x03];
                     Samples.last_chunk [] Sys.EOF])
                 Samples.good_url) = Sys.Return tt
  /\ In (Sys.Log "Client left after %d bytes" [Sys.LInt 3])
        (Sys.trace (DebugGo.streamHandler "yt-dlp" "ffmpeg" ""
                      (Samples.client_leaves_at 1
                         [Samples.chunk [Byte.x01; Byte.x02]; Samples.chunk [Byte.x03];
                          Samples.last_chunk [] Sys.EOF])
                      Samples.good_url "")).
Proof.
  pose proof (write_failure_stops_and_kills
                (Samples.client_leaves_at 1
                   [Samples.chunk [Byte.x01; Byte.x02]; Samples.chunk [Byte.x03];
                    Samples.last_chunk [] Sys.EOF])
                [Samples.chunk [Byte.x01; Byte.x02]]
                [Samples.last_chunk [] Sys.EOF]
                (Samples.chunk [Byte.x03])
                "broken pipe" Samples.good_url "yt-dlp" "ffmpeg" "" ""
                eq_refl eq_refl eq_refl eq_refl eq_refl eq_refl eq_refl eq_refl)
    as (Hm & Hd & _ & _).
  split; [exact eq_refl|]. split.
  - rewrite Hm. reflexivity.
  - rewrite Hd. cbn. tauto.
Defined.

(** ** The end of the stream *)
Section EndOfStream.
Import Sys Validator.

Lemma streamer_streaming (c : Context) (w : World) (ytURL : string) :
  isYouTubeURL ytURL = true ->
  setup_ok w = true ->
  StreamerGo.StreamFromURL c w ytURL
  = match StreamerGo.relay w (reads w) 0 with
    | (t, Next _) =>
        (streamer_setup_trace c ytURL ++ t ++ [Wait Transcoder; Wait Extractor],
         Return None)
    | (t, Return err) => (streamer_setup_trace c ytURL ++ t, Return err)
    | (t, Blocked) => (streamer_setup_trace c ytURL ++ t, Blocked)
    end.
Proof.
  intros Hu Hs. apply setup_ok_fields in Hs.
  destruct Hs as (H1 & H2 & H3 & H4).
  unfold StreamerGo.StreamFromURL.
  rewrite streamer_validator_same, Hu. cbn [negb].
  unfold cmd_StdoutPipe, cmd_Start, pipe_result, start_result.
  rewrite H1, H2, H3, H4.
  destruct (StreamerGo.relay w (reads w) 0) as [t [[]|err|]]; cbn;
    rewrite ?app_nil_r, <- ?app_assoc; reflexivity.
Qed.

Lemma main_relay_last (w : World) (pre post : list ReadResult)
      (r : ReadResult) (e : ReadErr) (k : nat) :
  passes w pre k = true ->
  (nonempty r = true -> write_err w (k + writes_in pre) = None) ->
  rerr r = Some e ->
  MainGo.relay w (pre ++ r :: post) k
  = (pass_trace w pre ++ chunk_events w r, Next tt).
Proof.
  intros Hp Hw He. rewrite (main_relay_passes w pre (r :: post) k Hp).
  rewrite main_relay_cons, He. unfold chunk_events.
  destruct (nonempty r); [rewrite (Hw eq_refl)|]; reflexivity.
Qed.

Lemma streamer_relay_last (w : World) (pre post : list ReadResult)
      (r : ReadResult) (e : ReadErr) (k : nat) :
  passes w pre k = true ->
  (nonempty r = true -> write_err w (k + writes_in pre) = None) ->
  rerr r = Some e ->
  StreamerGo.relay w (pre ++ r :: post) k
  = (pass_trace w pre ++ chunk_events w r,
     match e with
     | EOF => Next tt
     | ReadFailure m => Return (Some ("ffmpeg read: " +:+ m))
     end).
Proof.
  intros Hp Hw He. rewrite (streamer_relay_passes w pre (r :: post) k Hp).
  rewrite streamer_relay_cons, He. unfold chunk_events.
  destruct (nonempty r); [rewrite (Hw eq_refl)|]; destruct e; reflexivity.
Qed.

End EndOfStream.

(** C5, as the code has it.  Let the loop reach a read [r] that returns an
    error [e], all earlier chunks and the chunk of [r] having been taken by the
    client.  [StreamFromURL] tells the two cases apart: after end-of-stream it
    waits for both processes and returns nil; after any other error it
    returns the error "ffmpeg read: ..." without waiting.  The handler of
    main.go does the same whatever [e] is: it leaves the loop, waits for both
    processes and ends normally. *)
Theorem read_error_handling_in_the_relay_loops :
  forall (c : Sys.Context) (w : Sys.World) (url : string)
         (pre post : list Sys.ReadResult) (r : Sys.ReadResult) (e : Sys.ReadErr),
    Validator.isYouTubeURL url = true ->
    setup_ok w = true ->
    Sys.reads w = pre ++ r :: post ->
    passes w pre 0 = true ->
    (nonempty r = true -> Sys.write_err w (writes_in pre) = None) ->
    Sys.rerr r = Some e ->
    StreamerGo.StreamFromURL c w url
    = (streamer_setup_trace c url ++ pass_trace w pre ++ chunk_events w r
         ++ match e with
            | Sys.EOF => [Sys.Wait Sys.Transcoder; Sys.Wait Sys.Extractor]
            | Sys.ReadFailure _ => []
            end,
       Sys.Return match e with
                  | Sys.EOF => None
                  | Sys.ReadFailure m => Some ("ffmpeg read: " +:+ m)
                  end)
    /\ MainGo.streamHandler w url
       = (main_setup_trace url ++ pass_trace w pre ++ chunk_events w r
            ++ [Sys.Wait Sys.Transcoder; Sys.Wait Sys.Extractor; Sys.CancelCtx],
          Sys.Next tt).
Proof.
  intros c w url pre post r e Hu Hs Hr Hp Hw He. split.
  - rewrite (streamer_streaming c w url Hu Hs), Hr.
    rewrite (streamer_relay_last w pre post r e 0 Hp Hw He).
    destruct e; rewrite <- ?app_assoc, ?app_nil_r; reflexivity.
  - destruct (main_streaming w url Hu Hs) as [Ht Hf].
    rewrite Hr, (main_relay_last w pre post r e 0 Hp Hw He) in Ht, Hf.
    cbn [Sys.trace Sys.flow fst snd main_after_loop] in Ht, Hf.
    destruct (MainGo.streamHandler w url) as [t f].
    cbn [Sys.trace Sys.flow fst snd] in Ht, Hf. subst t f.
    rewrite <- !app_assoc. reflexivity.
Qed.

Lemma read_error_handling_in_the_relay_loops_witness :
  Sys.flow (StreamerGo.StreamFromURL Sys.RequestContext
              (Samples.healthy
                 [Samples.chunk [Byte.x01];
                  Samples.last_chunk [] (Sys.ReadFailure "unexpected EOF")])
              Samples.good_url)
  = Sys.Return (Some "ffmpeg read: unexpected EOF")
  /\ Sys.flow (MainGo.streamHandler
                 (Samples.healthy
                    [Samples.chunk [Byte.x01];
                     Samples.last_chunk [] (Sys.ReadFailure "unexpected EOF")])
                 Samples.good_url)
     = Sys.Next tt.
Proof.
  pose proof (read_error_handling_in_the_relay_loops
                Sys.RequestContext
                (Samples.healthy
                   [Samples.chunk [Byte.x01];
                    Samples.last_chunk [] (Sys.ReadFailure "unexpected EOF")])
                Samples.good_url
                [Samples.chunk [Byte.x01]] []
                (Samples.last_chunk [] (Sys.ReadFailure "unexpected EOF"))
                (Sys.ReadFailure "unexpected EOF")
                eq_refl eq_refl eq_refl eq_refl (fun _ => eq_refl) eq_refl)
    as [Hst Hmain].
  split.
  - rewrite Hst. reflexivity.
  - rewrite Hmain. reflexivity.
Defined.

(** C5 as stated fails on main.go: a run whose last read fails with an error
    other than end-of-stream and the same run ending in a clean end-of-stream
    make the handler do exactly the same things, end the same way and leave
    the same response. *)
Lemma read_error_not_distinguished_counterexample :
  let run e :=
    MainGo.streamHandler
      (Samples.healthy [Samples.chunk [Byte.x01]; Samples.last_chunk [] e])
      Samples.good_url in
  outputs (Sys.trace (run (Sys.ReadFailure "unexpected EOF")))
  = outputs (Sys.trace (run Sys.EOF))
  /\ Sys.flow (run (Sys.ReadFailure "unexpected EOF")) = Sys.flow (run Sys.EOF)
  /\ Sys.respond (Sys.trace (run (Sys.ReadFailure "unexpected EOF")))
     = Sys.respond (Sys.trace (run Sys.EOF)).
Proof. cbv zeta. split; [|split]; vm_compute; reflexivity. Qed.

(** C9, as the code has it.  Let the loop reach a read [r] that returns both
    a non-empty chunk and an error.  The chunk is handed to the outbound write
    before the error is looked at.  If the write succeeds, the flush follows
    (when the writer can flush) and only then the loop ends.  If the write
    fails, the loop ends on the spot, without a flush: main.go kills both
    processes and returns, [StreamFromURL] returns "client disconnected". *)
Theorem final_chunk_is_written_before_the_loop_exits :
  forall (w : Sys.World) (pre post : list Sys.ReadResult) (r : Sys.ReadResult)
         (e : Sys.ReadErr) (k : nat),
    passes w pre k = true ->
    nonempty r = true ->
    Sys.rerr r = Some e ->
    (Sys.write_err w (k + writes_in pre) = None ->
     MainGo.relay w (pre ++ r :: post) k
     = (pass_trace w pre
          ++ Sys.Read r :: Sys.Write (Sys.data r) true
          :: (if Sys.flusher w then [Sys.Flush] else []),
        Sys.Next tt)
     /\ Sys.trace (StreamerGo.relay w (pre ++ r :: post) k)
        = pass_trace w pre
            ++ Sys.Read r :: Sys.Write (Sys.data r) true
            :: (if Sys.flusher w then [Sys.Flush] else []))
    /\ (forall we : string,
           Sys.write_err w (k + writes_in pre) = Some we ->
           MainGo.relay w (pre ++ r :: post) k
           = (pass_trace w pre
                ++ [Sys.Read r; Sys.Write (Sys.data r) false;
                    Sys.Kill Sys.Extractor; Sys.Kill Sys.Transcoder],
              Sys.Return tt)
           /\ StreamerGo.relay w (pre ++ r :: post) k
              = (pass_trace w pre ++ [Sys.Read r; Sys.Write (Sys.data r) false],
                 Sys.Return (Some "client disconnected"))).
Proof.
  intros w pre post r e k Hp Hn He. split.
  - intros Hw. split.
    + rewrite (main_relay_last w pre post r e k Hp (fun _ => Hw) He).
      unfold chunk_events, flush_events. rewrite Hn. reflexivity.
    + rewrite (streamer_relay_last w pre post r e k Hp (fun _ => Hw) He).
      unfold chunk_events, flush_events. rewrite Hn. reflexivity.
  - intros we Hw. split.
    + rewrite (main_relay_passes w pre (r :: post) k Hp).
      rewrite main_relay_cons, Hn, Hw. reflexivity.
    + rewrite (streamer_relay_passes w pre (r :: post) k Hp).
      rewrite streamer_relay_cons, Hn, Hw. reflexivity.
Qed.

Lemma final_chunk_is_written_before_the_loop_exits_witness :
  MainGo.relay (Samples.healthy [])
    [Samples.chunk [Byte.x01]; Samples.last_chunk [Byte.x02; Byte.x03] Sys.EOF] 0
  = ([Sys.Read (Samples.chunk [Byte.x01]); Sys.Write [Byte.x01] true; Sys.Flush;
      Sys.Read (Samples.last_chunk [Byte.x02; Byte.x03] Sys.EOF);
      Sys.Write [Byte.x02; Byte.x03] true; Sys.Flush],
     Sys.Next tt).
Proof.
  apply (proj1 (proj1 (final_chunk_is_written_before_the_loop_exits
                         (Samples.healthy [])
                         [Samples.chunk [Byte.x01]] []
                         (Samples.last_chunk [Byte.x02; Byte.x03] Sys.EOF)
                         Sys.EOF 0 eq_refl eq_refl eq_refl)
                      eq_refl)).
Defined.

(** C9 as stated fails: the last read returns one byte together with
    end-of-stream, the client is gone, and main.go leaves the loop without a
    flush and without the byte having reached the client. *)
Lemma final_chunk_counterexample :
  let r := Samples.last_chunk [Byte.x01] Sys.EOF in
  let w := Samples.client_leaves_at 0 [r] in
  nonempty r = true
  /\ Sys.rerr r = Some Sys.EOF
  /\ MainGo.relay w (Sys.reads w) 0
     = ([Sys.Read r; Sys.Write [Byte.x01] false;
         Sys.Kill Sys.Extractor; Sys.Kill Sys.Transcoder],
        Sys.Return tt)
  /\ Sys.count is_Flush (Sys.trace (MainGo.relay w (Sys.reads w) 0)) = 0
  /\ Sys.body (Sys.respond (Sys.trace (MainGo.streamHandler w Samples.good_url)))
     = [].
Proof. cbv zeta. do 4 (split; [vm_compute; reflexivity|]). vm_compute; reflexivity. Qed.

(** ** The deadline *)
Section Deadline.
Import Sys Validator.

Lemma main_kill_time (client_gone : option Z) (vidURL : string) :
  exists t, kill_time client_gone MainGo.ffmpegCmd = Some t
            /\ kill_time client_gone (MainGo.ytdlpCmd vidURL) = Some t
            /\ (t <= 45000)%Z.
Proof.
  unfold kill_time. cbn. destruct client_gone as [g|]; eexists;
    (split; [reflexivity|]); (split; [reflexivity|]); lia.
Qed.

Lemma observe_before_kill (kill : Z) (tl : Timeline) (r : ReadResult) :
  In r (observe (Some kill) tl) ->
  r = end_of_stream \/ exists t, In (t, r) tl /\ (t < kill)%Z.
Proof.
  induction tl as [|[t x] tl IH]; cbn [observe]; [intros []|].
  destruct (Z.leb_spec kill t) as [Hle|Hlt]; cbn [In].
  - intros [<-|[]]. left. reflexivity.
  - intros [<-|Hin].
    + right. exists t. split; [left; reflexivity | exact Hlt].
    + destruct (IH Hin) as [->|(t' & Hin' & Hlt')]; [left; reflexivity|].
      right. exists t'. split; [right; exact Hin' | exact Hlt'].
Qed.

(** The loop writes nothing but chunks it has read. *)
Lemma main_relay_writes (w : World) (rs : list ReadResult) (k : nat)
      (c : list Byte.byte) (ok : bool) :
  In (Write c ok) (trace (MainGo.relay w rs k)) ->
  exists r, In r rs /\ data r = c /\ nonempty r = true.
Proof.
  revert k. induction rs as [|r rs IH]; intros k; [intros []|].
  rewrite main_relay_cons. unfold flush_events.
  destruct (nonempty r) eqn:En.
  - assert (Hhere : forall ok', Write (data r) ok' = Write c ok ->
                                exists r0, In r0 (r :: rs) /\ data r0 = c
                                           /\ nonempty r0 = true).
    { intros ok' Heq. injection Heq as Hd _. exists r.
      split; [left; reflexivity|]. split; assumption. }
    destruct (write_err w k); [|destruct (rerr r)];
      cbn [trace fst In]; rewrite ?in_app_iff;
      destruct (flusher w); cbn [In];
      intros H; repeat (destruct H as [H|H]);
      try discriminate; try contradiction; eauto;
      destruct (IH _ H) as (r0 & Hin & Hd & Hn);
      exists r0; (split; [right; exact Hin|]); split; assumption.
  - destruct (rerr r); cbn [trace fst In]; intros [H|H];
      try discriminate; try contradiction.
    destruct (IH _ H) as (r0 & Hin & Hd & Hn).
    exists r0. split; [right; exact Hin|]. split; assumption.
Qed.

(** The handler writes chunks only in its loop. *)
Lemma main_writes_from_relay (w : World) (vidURL : string)
      (c : list Byte.byte) (ok : bool) :
  In (Write c ok) (trace (MainGo.streamHandler w vidURL)) ->
  In (Write c ok) (trace (MainGo.relay w (reads w) 0)).
Proof.
  unfold MainGo.streamHandler.
  destruct (String.eqb vidURL "");
    [cbn; intros [H|[]]; discriminate|].
  destruct (isYouTubeURL vidURL);
    [|cbn; intros [H|[]]; discriminate].
  cbn [negb].
  unfold cmd_StdoutPipe, cmd_Start, pipe_result, start_result.
  destruct (ytdlp_StdoutPipe w);
    [cbn; intros H; repeat (destruct H as [H|H]); try discriminate; contradiction|].
  destruct (ytdlp_Start w);
    [cbn; intros H; repeat (destruct H as [H|H]); try discriminate; contradiction|].
  destruct (ffmpeg_StdoutPipe w);
    [cbn; intros H; repeat (destruct H as [H|H]); try discriminate; contradiction|].
  destruct (ffmpeg_Start w);
    [cbn; intros H; repeat (destruct H as [H|H]); try discriminate; contradiction|].
  destruct (MainGo.relay w (reads w) 0) as [t [[]|[]|]]; cbn;
    intros H; repeat (destruct H as [H|H]; [discriminate|]);
    rewrite ?in_app_iff in H; cbn in H;
    repeat (destruct H as [H|H]); try discriminate; try contradiction;
    assumption.
Qed.

End Deadline.

(** C3, as the code has it.  In main.go and main_simple.go both commands are
    bound to the context with the 45 s timeout, so both processes are killed
    45 s after the handler built the context (or earlier, if the client goes
    away), whether or not streaming has started: no chunk the transcoder
    would deliver at 45 s or later is ever written to the client.  A
    transcoder that has a byte every second for 60 s to give, with the client
    connected throughout, gets 44 of its 60 bytes relayed. *)
Theorem deadline_ends_a_stream_in_progress :
  (forall (client_gone : option Z) (vidURL ytDlpPath ffmpegPath : string),
      exists t,
        kill_time client_gone MainGo.ffmpegCmd = Some t
        /\ kill_time client_gone (MainGo.ytdlpCmd vidURL) = Some t
        /\ kill_time client_gone (MainSimpleGo.ffmpegCmd ffmpegPath) = Some t
        /\ kill_time client_gone (MainSimpleGo.ytdlpCmd ytDlpPath vidURL) = Some t
        /\ (t <= 45000)%Z)
  /\ (forall (client_gone : option Z) (tl : Sys.Timeline) (w : Sys.World)
             (vidURL : string) (c : list Byte.byte) (ok : bool),
         In (Sys.Write c ok) (Sys.trace (main_serve client_gone tl w vidURL)) ->
         exists t r, In (t, r) tl /\ Sys.data r = c /\ (t < 45000)%Z)
  /\ (let run := main_serve None (one_per_second 60) (Samples.healthy [])
                   Samples.good_url in
      Sys.count is_good_Write (Sys.trace run) = 44
      /\ Sys.flow run = Sys.Next tt
      /\ length (List.filter (fun x => nonempty (snd x)) (one_per_second 60)) = 60).
Proof.
  split; [|split].
  - intros client_gone vidURL yt ff.
    destruct (main_kill_time client_gone vidURL) as (t & H1 & H2 & H3).
    exists t. repeat split; assumption.
  - intros client_gone tl w vidURL c ok Hin. unfold main_serve in Hin.
    apply main_writes_from_relay in Hin.
    apply main_relay_writes in Hin. destruct Hin as (r & Hr & Hd & Hn).
    cbn [Sys.reads Sys.with_reads] in Hr.
    destruct (main_kill_time client_gone vidURL) as (k & Hk & _ & Hle).
    rewrite Hk in Hr. apply observe_before_kill in Hr.
    destruct Hr as [->|(t & Hin & Hlt)]; [discriminate|].
    exists t, r. split; [exact Hin|]. split; [exact Hd|]. lia.
  - cbv zeta. split; [vm_compute; reflexivity|].
    split; vm_compute; reflexivity.
Qed.

Lemma deadline_ends_a_stream_in_progress_witness :
  In (Sys.Write [Byte.x01] true)
     (Sys.trace (main_serve None
                   [(1000%Z, Samples.chunk [Byte.x01]);
                    (50000%Z, Samples.chunk [Byte.x02]);
                    (51000%Z, end_of_stream)]
                   (Samples.healthy []) Samples.good_url))
  /\ exists t r,
       In (t, r) [(1000%Z, Samples.chunk [Byte.x01]);
                  (50000%Z, Samples.chunk [Byte.x02]);
                  (51000%Z, end_of_stream)]
       /\ Sys.data r = [Byte.x01] /\ (t < 45000)%Z.
Proof.
  assert (Hin : In (Sys.Write [Byte.x01] true)
                   (Sys.trace (main_serve None
                      [(1000%Z, Samples.chunk [Byte.x01]);
                       (50000%Z, Samples.chunk [Byte.x02]);
                       (51000%Z, end_of_stream)]
                      (Samples.healthy []) Samples.good_url))).
  { vm_compute. tauto. }
  split; [exact Hin|].
  exact (proj1 (proj2 deadline_ends_a_stream_in_progress) _ _ _ _ _ _ Hin).
Defined.

(** ** The parties beside the loop *)
Section Watcher.
Import Sys Validator.

Lemma count_app (f : Event -> bool) (t1 t2 : list Event) :
  count f (t1 ++ t2) = count f t1 + count f t2.
Proof. unfold count. rewrite List.filter_app, length_app. reflexivity. Qed.

Lemma count_cons (f : Event -> bool) (e : Event) (t : list Event) :
  count f (e :: t) = (if f e then 1 else 0) + count f t.
Proof. unfold count. cbn [List.filter]. destruct (f e); reflexivity. Qed.

(** The loop of main.go kills each process once if it takes the
    write-failure path, and not at all otherwise. *)
Lemma main_relay_kills (w : World) (rs : list ReadResult) (k : nat) (p : Proc) :
  count (is_Kill p) (trace (MainGo.relay w rs k))
  = match flow (MainGo.relay w rs k) with Return _ => 1 | _ => 0 end.
Proof.
  revert k. induction rs as [|r rs IH]; intros k; [reflexivity|].
  rewrite main_relay_cons. unfold flush_events.
  destruct (nonempty r), (write_err w k), (rerr r), (flusher w), p;
    cbn [trace flow fst snd]; rewrite ?count_cons, ?count_app, ?IH;
    cbn [is_Kill Proc_eqb count List.filter length Nat.add]; reflexivity.
Qed.

Lemma main_handler_kills (w : World) (vidURL : string) (p : Proc) :
  isYouTubeURL vidURL = true ->
  setup_ok w = true ->
  count (is_Kill p) (trace (MainGo.streamHandler w vidURL))
  = if write_failed w then 1 else 0.
Proof.
  intros Hu Hs. destruct (main_streaming w vidURL Hu Hs) as [Ht _].
  rewrite Ht, !count_app, main_relay_kills. unfold write_failed.
  destruct (flow (MainGo.relay w (reads w) 0)), p; reflexivity.
Qed.

(** *** Requests as a whole *)

Lemma tally_app (f : Act -> bool) (g1 g2 : list Act) :
  tally f (g1 ++ g2) = tally f g1 + tally f g2.
Proof. unfold tally. rewrite List.filter_app, length_app. reflexivity. Qed.

Lemma tally_cons (f : Act -> bool) (a : Act) (g : list Act) :
  tally f (a :: g) = (if f a then 1 else 0) + tally f g.
Proof. unfold tally. cbn [List.filter]. destruct (f a); reflexivity. Qed.

Lemma tally_In (f : Act -> bool) (a : Act) (g : list Act) :
  In a g -> f a = true -> 1 <= tally f g.
Proof.
  induction g as [|b g IH]; [intros []|].
  intros [->|Hin] Hf; rewrite tally_cons.
  - rewrite Hf. lia.
  - specialize (IH Hin Hf). lia.
Qed.

Lemma tally_calls (p : Proc) (g : list Act) :
  tally (kill_by_handler p) g = count (is_Kill p) (calls g).
Proof.
  induction g as [|a g IH]; [reflexivity|].
  rewrite tally_cons, IH. unfold calls. cbn [flat_map]. fold (calls g).
  destruct a; cbn [kill_by_handler app]; rewrite ?count_cons; reflexivity.
Qed.

Lemma attempts_by_party (p : Proc) (g : list Act) :
  attempts p g
  = tally (kill_by_handler p) g + tally (kill_by_goroutine p) g
    + tally (kill_by_exec p) g.
Proof.
  unfold attempts. induction g as [|a g IH]; [reflexivity|].
  rewrite !tally_cons, IH. unfold is_attempt.
  destruct a; cbn [kill_by_handler kill_by_goroutine kill_by_exec orb];
    rewrite ?orb_false_r;
    try match goal with |- context [is_Kill ?p ?e] => destruct (is_Kill p e) end;
    try match goal with |- context [Proc_eqb ?p ?q] => destruct (Proc_eqb p q) end;
    lia.
Qed.

Lemma count_none (q f : Event -> bool) (t : list Event) :
  (forall e, q e = true -> f e = false) ->
  forallb q t = true -> count f t = 0.
Proof.
  intros Hqf. induction t as [|e t IH]; [reflexivity|].
  cbn [forallb]. intros H. apply andb_prop in H. destruct H as [He Ht].
  rewrite count_cons, (Hqf e He), (IH Ht). reflexivity.
Qed.

Lemma runs_app (s s1 s2 : list Event * Control) (g1 g2 : list Act) :
  runs s g1 s1 -> runs s1 g2 s2 -> runs s (g1 ++ g2) s2.
Proof.
  induction 1 as [s|s s' s1 a g Hstep _ IH]; intros H2; [exact H2|].
  cbn [app]. apply (runs_cons _ _ _ _ _ Hstep). apply IH, H2.
Qed.

(** The handler on its own. *)
Lemma runs_handler (t rest : list Event) (k : Control) :
  runs (t ++ rest, k) (map Does t) (rest, after_calls t k).
Proof.
  revert k. induction t as [|e t IH]; intros k; [apply runs_nil|].
  cbn [app map]. apply (runs_cons _ (t ++ rest, after_call e k)).
  - apply step_handler.
  - apply IH.
Qed.

Lemma after_calls_own_business (t : list Event) (k : Control) :
  forallb own_business t = true -> after_calls t k = k.
Proof.
  revert k. induction t as [|e t IH]; intros k; [reflexivity|].
  cbn [forallb]. intros H. apply andb_prop in H. destruct H as [He Ht].
  unfold after_calls. cbn [fold_left]. fold (after_calls t (after_call e k)).
  rewrite (IH _ Ht). destruct e; try discriminate He; reflexivity.
Qed.

Lemma after_calls_app (t1 t2 : list Event) (k : Control) :
  after_calls (t1 ++ t2) k = after_calls t2 (after_calls t1 k).
Proof. unfold after_calls. apply fold_left_app. Qed.

(** *** What every execution keeps *)

(** The handler's calls come in the handler's order. *)
Lemma runs_calls (s s' : list Event * Control) (g : list Act) :
  runs s g s' -> calls g ++ fst s' = fst s.
Proof.
  induction 1 as [s|s s1 s2 a g Hstep _ IH]; [reflexivity|].
  unfold calls. cbn [flat_map]. fold (calls g).
  destruct Hstep; cbn [fst app] in *; rewrite ?IH; try exact IH; reflexivity.
Qed.

(** The kills the goroutine of main.go has still to issue. *)
Lemma runs_goroutine (p : Proc) (s s' : list Event * Control) (g : list Act) :
  runs s g s' ->
  tally (kill_by_goroutine p) g
  + (count (is_Kill p) (goroutine (snd s')) + count is_GoWatcher (fst s'))
  = count (is_Kill p) (goroutine (snd s)) + count is_GoWatcher (fst s).
Proof.
  induction 1 as [s|s s1 s2 a g Hstep _ IH]; [reflexivity|].
  rewrite tally_cons, <- Nat.add_assoc, IH. clear IH.
  destruct Hstep as [e todo k|todo k|todo k|k|todo k e rest Hd Hg|todo k q Hd Hw];
    cbn [kill_by_goroutine fst snd goroutine set_goroutine set_watched
         cancel_request cancel_ctx]; try reflexivity.
  - rewrite count_cons.
    destruct e as [| | |q c []| | | | | | | | |];
      cbn [after_call is_GoWatcher goroutine set_goroutine set_watched cancel_ctx];
      try reflexivity.
    + destruct (has_context c); reflexivity.
    + rewrite count_app. destruct p; cbn; lia.
  - rewrite Hg, count_cons. lia.
Qed.

Ltac flags :=
  repeat match goal with
         | |- context [watched ?k ?x] => destruct (watched k x)
         | |- context [existsb ?f ?t] => destruct (existsb f t)
         end.

(** os/exec kills a process at most once for each time it is started. *)
Lemma step_exec_upper (p : Proc) (s s1 : list Event * Control) (a : Act) :
  step s a s1 ->
  (if kill_by_exec p a then 1 else 0)
  + ((if watched (snd s1) p then 1 else 0) + count (arms p) (fst s1))
  <= (if watched (snd s) p then 1 else 0) + count (arms p) (fst s).
Proof.
  intros Hstep.
  destruct Hstep as [e todo k|todo k|todo k|k|todo k e rest Hd Hg|todo k q Hd Hw];
    cbn [kill_by_exec fst snd watched set_goroutine set_watched
         cancel_request cancel_ctx]; try lia.
  - rewrite count_cons.
    destruct e as [| | |q c []| |q| | | | | | |];
      cbn [after_call arms watched set_goroutine set_watched cancel_ctx];
      try lia.
    + destruct (has_context c); cbn [watched set_watched];
        rewrite ?andb_false_r, ?andb_true_r; [|lia].
      destruct p, q; cbn [Proc_eqb]; destruct (watched k _); lia.
    + destruct p, q; cbn [Proc_eqb]; destruct (watched k _); lia.
  - destruct p, q; cbn [Proc_eqb]; rewrite ?Hw; destruct (watched k _); lia.
Qed.

Lemma runs_exec_upper (p : Proc) (s s' : list Event * Control) (g : list Act) :
  runs s g s' ->
  tally (kill_by_exec p) g
  + ((if watched (snd s') p then 1 else 0) + count (arms p) (fst s'))
  <= (if watched (snd s) p then 1 else 0) + count (arms p) (fst s).
Proof.
  induction 1 as [s|s s1 s2 a g Hstep _ IH]; [cbn [tally List.filter length]; lia|].
  pose proof (step_exec_upper p _ _ _ Hstep). rewrite tally_cons. lia.
Qed.

(** A process that was started is killed by os/exec or waited for. *)
Lemma step_exec_lower (p : Proc) (s s1 : list Event * Control) (a : Act) :
  step s a s1 ->
  (if watched (snd s) p || existsb (arms p) (fst s) then 1 else 0)
  <= (if kill_by_exec p a then 1 else 0)
     + count (waits_for p) (calls [a])
     + (if watched (snd s1) p || existsb (arms p) (fst s1) then 1 else 0).
Proof.
  intros Hstep.
  destruct Hstep as [e todo k|todo k|todo k|k|todo k e rest Hd Hg|todo k q Hd Hw];
    cbn [kill_by_exec fst snd watched set_goroutine set_watched
         cancel_request cancel_ctx calls flat_map app count List.filter length];
    try lia.
  - cbn [existsb].
    destruct e as [| | |q c []| |q| | | | | | |];
      cbn [after_call arms waits_for watched set_goroutine set_watched cancel_ctx
           orb count List.filter length];
      try lia.
    + destruct (has_context c); cbn [watched set_watched];
        rewrite ?andb_false_r, ?andb_true_r; cbn [orb]; [|lia].
      destruct p, q; cbn [Proc_eqb orb]; flags; cbn; lia.
    + destruct p, q; cbn [Proc_eqb orb]; flags; cbn; lia.
  - destruct p, q; cbn [Proc_eqb]; rewrite ?Hw; flags; cbn; lia.
Qed.

Lemma calls_cons (a : Act) (g : list Act) : calls (a :: g) = calls [a] ++ calls g.
Proof. unfold calls. cbn [flat_map]. rewrite app_nil_r. reflexivity. Qed.

Lemma runs_exec_lower (p : Proc) (s s' : list Event * Control) (g : list Act) :
  runs s g s' ->
  (if watched (snd s) p || existsb (arms p) (fst s) then 1 else 0)
  <= tally (kill_by_exec p) g + count (waits_for p) (calls g)
     + (if watched (snd s') p || existsb (arms p) (fst s') then 1 else 0).
Proof.
  induction 1 as [s|s s1 s2 a g Hstep _ IH]; [lia|].
  pose proof (step_exec_lower p _ _ _ Hstep).
  rewrite tally_cons, calls_cons, count_app. lia.
Qed.

(** *** The request of main.go *)

Lemma main_relay_own_business (w : World) (rs : list ReadResult) (k : nat) :
  forallb own_business (trace (MainGo.relay w rs k)) = true.
Proof.
  revert k. induction rs as [|r rs IH]; intros k; [reflexivity|].
  rewrite main_relay_cons. unfold flush_events.
  destruct (nonempty r), (write_err w k), (rerr r), (flusher w);
    cbn [trace fst forallb own_business andb app]; auto.
Qed.

Lemma own_business_counts (t : list Event) (p : Proc) :
  forallb own_business t = true ->
  count is_GoWatcher t = 0 /\ count (arms p) t = 0
  /\ count (waits_for p) t = 0 /\ existsb (arms p) t = false.
Proof.
  intros H. repeat split.
  - apply (count_none own_business); [|exact H].
    intros []; intros; try discriminate; reflexivity.
  - apply (count_none own_business); [|exact H].
    intros []; intros; try discriminate; reflexivity.
  - apply (count_none own_business); [|exact H].
    intros []; intros; try discriminate; reflexivity.
  - induction t as [|e t IH]; [reflexivity|]. cbn [forallb] in H.
    apply andb_prop in H. destruct H as [He Ht]. cbn [existsb].
    rewrite (IH Ht). destruct e; try discriminate He; reflexivity.
Qed.

(** What the trace of main.go holds for the other parties. *)
Lemma main_trace_counts (w : World) (vidURL : string) (p : Proc) :
  isYouTubeURL vidURL = true ->
  setup_ok w = true ->
  count is_GoWatcher (trace (MainGo.streamHandler w vidURL)) = 1
  /\ count (arms p) (trace (MainGo.streamHandler w vidURL)) = 1
  /\ existsb (arms p) (trace (MainGo.streamHandler w vidURL)) = true
  /\ count (waits_for p) (trace (MainGo.streamHandler w vidURL))
     = match flow (MainGo.relay w (reads w) 0) with Next _ => 1 | _ => 0 end.
Proof.
  intros Hu Hs. destruct (main_streaming w vidURL Hu Hs) as [-> _].
  destruct (own_business_counts _ p (main_relay_own_business w (reads w) 0))
    as (H1 & H2 & H3 & H4).
  rewrite !count_app, H1, H2, H3. rewrite existsb_app.
  repeat split.
  - destruct (flow (MainGo.relay w (reads w) 0)); reflexivity.
  - destruct (flow (MainGo.relay w (reads w) 0)), p; reflexivity.
  - destruct p; reflexivity.
  - destruct (flow (MainGo.relay w (reads w) 0)), p; reflexivity.
Qed.

(** Kill attempts by party in every execution of a request. *)
Lemma main_execution_tallies (w : World) (vidURL : string) (g : list Act)
      (p : Proc) :
  isYouTubeURL vidURL = true ->
  setup_ok w = true ->
  execution (trace (MainGo.streamHandler w vidURL)) g ->
  calls g = trace (MainGo.streamHandler w vidURL)
  /\ tally (kill_by_handler p) g = (if write_failed w then 1 else 0)
  /\ tally (kill_by_goroutine p) g = 1
  /\ tally (kill_by_exec p) g <= 1
  /\ 1 <= tally (kill_by_exec p) g
          + match flow (MainGo.relay w (reads w) 0) with Next _ => 1 | _ => 0 end.
Proof.
  intros Hu Hs ([t' k'] & Hruns & Hfin).
  destruct Hfin as (Ht & _ & Hg & Hw). cbn [fst snd] in Ht, Hg, Hw. subst t'.
  destruct (main_trace_counts w vidURL p Hu Hs) as (C1 & C2 & C3 & C4).
  pose proof (runs_calls _ _ _ Hruns) as Hc. cbn [fst] in Hc.
  rewrite app_nil_r in Hc.
  pose proof (runs_goroutine p _ _ _ Hruns) as HG.
  pose proof (runs_exec_upper p _ _ _ Hruns) as HU.
  pose proof (runs_exec_lower p _ _ _ Hruns) as HL.
  cbn [fst snd begin goroutine watched] in HG, HU, HL.
  rewrite Hg in HG. rewrite Hw in HU, HL. rewrite C1 in HG. rewrite C2 in HU.
  rewrite C3, Hc, C4 in HL.
  cbn [count List.filter length existsb orb] in HG, HU, HL.
  split; [exact Hc|]. split.
  - rewrite tally_calls, Hc. apply main_handler_kills; assumption.
  - repeat split; lia.
Qed.

Ltac act :=
  eapply runs_cons; [econstructor; reflexivity|]; cbn [app].

(** The handler runs undisturbed to its end after the loop ended in a read;
    net/http then cancels the request's context and the goroutine of main.go
    issues its kills. *)
Lemma main_execution_undisturbed (w : World) (vidURL : string) :
  isYouTubeURL vidURL = true ->
  setup_ok w = true ->
  flow (MainGo.relay w (reads w) 0) = Next tt ->
  execution (trace (MainGo.streamHandler w vidURL))
    (map Does (trace (MainGo.streamHandler w vidURL))
       ++ [ServerCancel; Goroutine (Kill Extractor); Goroutine (Kill Transcoder)]).
Proof.
  intros Hu Hs Hf. destruct (main_streaming w vidURL Hu Hs) as [-> _].
  rewrite Hf. eexists. split.
  - eapply runs_app.
    + rewrite <- (app_nil_r (_ ++ _ ++ _)) at 1. apply runs_handler.
    + rewrite !after_calls_app,
        (after_calls_own_business _ _ (main_relay_own_business w (reads w) 0)).
      act. act. act. apply runs_nil.
  - split; [reflexivity|]. split; [reflexivity|]. split; [reflexivity|].
    intros []; reflexivity.
Qed.

(** The context is done at some point of the loop, for one cause or for two:
    os/exec kills both processes, the handler comes to its end, net/http
    cancels the request's context if it is not done yet, and the goroutine of
    main.go issues its kills. *)
Lemma main_execution_triggered (w : World) (vidURL : string)
      (t1 t2 : list Event) (trig : list Act) :
  isYouTubeURL vidURL = true ->
  setup_ok w = true ->
  returned (MainGo.streamHandler w vidURL) = true ->
  trace (MainGo.relay w (reads w) 0) = t1 ++ t2 ->
  trig = [Deadline] \/ trig = [ClientGone] \/ trig = [ClientGone; Deadline] ->
  execution (trace (MainGo.streamHandler w vidURL))
    (map Does (main_setup_trace vidURL ++ t1)
       ++ trig
       ++ [ExecKill Extractor; ExecKill Transcoder]
       ++ map Does (t2 ++ main_after_loop (flow (MainGo.relay w (reads w) 0)))
       ++ [ServerCancel; Goroutine (Kill Extractor); Goroutine (Kill Transcoder)]).
Proof.
  intros Hu Hs Hr Hsplit Htrig. unfold returned in Hr.
  destruct (main_streaming w vidURL Hu Hs) as [Ht Hf]. rewrite Hf in Hr.
  rewrite Ht, Hsplit. clear Ht Hf.
  pose proof (main_relay_own_business w (reads w) 0) as Hown.
  rewrite Hsplit, forallb_app in Hown. apply andb_prop in Hown.
  destruct Hown as [Hown1 Hown2].
  replace (main_setup_trace vidURL ++ (t1 ++ t2)
             ++ main_after_loop (flow (MainGo.relay w (reads w) 0)))
    with ((main_setup_trace vidURL ++ t1)
            ++ (t2 ++ main_after_loop (flow (MainGo.relay w (reads w) 0))))
    by (rewrite <- !app_assoc; reflexivity).
  destruct (flow (MainGo.relay w (reads w) 0)) as [[]|[]|]; [| |discriminate];
    (eexists; split;
     [ eapply runs_app; [apply runs_handler|];
       rewrite after_calls_app, (after_calls_own_business _ _ Hown1);
       destruct Htrig as [->|[->| ->]]; cbn [app];
       repeat act;
       (eapply runs_app;
        [rewrite <- (app_nil_r (_ ++ _)) at 1; apply runs_handler|]);
       rewrite after_calls_app, (after_calls_own_business _ _ Hown2);
       act; act; act; apply runs_nil
     | destruct Htrig as [->|[->| ->]];
       (split; [reflexivity|]; split; [reflexivity|]; split; [reflexivity|];
        intros []; reflexivity) ]).
Qed.

(** Attempts in every execution, from the tallies by party. *)
Lemma main_execution_attempts (w : World) (vidURL : string) (g : list Act)
      (p : Proc) :
  isYouTubeURL vidURL = true ->
  setup_ok w = true ->
  returned (MainGo.streamHandler w vidURL) = true ->
  execution (trace (MainGo.streamHandler w vidURL)) g ->
  tally (kill_by_handler p) g = (if write_failed w then 1 else 0)
  /\ tally (kill_by_goroutine p) g = 1
  /\ tally (kill_by_exec p) g <= 1
  /\ (write_failed w = true -> tally (kill_by_exec p) g = 1)
  /\ attempts p g
     = (if write_failed w then 1 else 0) + 1 + tally (kill_by_exec p) g.
Proof.
  intros Hu Hs Hr Hex.
  destruct (main_execution_tallies w vidURL g p Hu Hs Hex)
    as (_ & T1 & T2 & T3 & T4).
  rewrite attempts_by_party, T1, T2.
  split; [reflexivity|]. split; [reflexivity|]. split; [exact T3|].
  split; [|reflexivity].
  unfold write_failed. intros Hw.
  destruct (flow (MainGo.relay w (reads w) 0)); try discriminate Hw. lia.
Qed.

Lemma ExecKill_tally (p : Proc) (g : list Act) :
  In (ExecKill p) g -> 1 <= tally (kill_by_exec p) g.
Proof. intros H. apply (tally_In _ _ _ H). destruct p; reflexivity. Qed.

Lemma tally_Does (f : Act -> bool) (t : list Event) :
  (forall e, f (Does e) = false) -> tally f (map Does t) = 0.
Proof.
  intros Hf. induction t as [|e t IH]; [reflexivity|].
  cbn [map]. rewrite tally_cons, Hf, IH. reflexivity.
Qed.

Lemma not_write_failed (w : World) (vidURL : string) :
  isYouTubeURL vidURL = true ->
  setup_ok w = true ->
  returned (MainGo.streamHandler w vidURL) = true ->
  write_failed w = false ->
  flow (MainGo.relay w (reads w) 0) = Next tt.
Proof.
  intros Hu Hs Hr Hw. unfold returned in Hr. unfold write_failed in Hw.
  rewrite (proj2 (main_streaming w vidURL Hu Hs)) in Hr.
  destruct (flow (MainGo.relay w (reads w) 0)) as [[]|[]|];
    try discriminate; reflexivity.
Qed.

(** One request in full: the client takes a chunk and goes away, the
    goroutine of main.go and os/exec kill both processes, the loop reads
    what was still in the pipe, fails to write it and kills both again. *)
Lemma client_gone_execution :
  execution
    (trace (MainGo.streamHandler
              (Samples.client_leaves_at 1
                 [Samples.chunk [Byte.x01]; Samples.chunk [Byte.x02]])
              Samples.good_url))
    (map Does (main_setup_trace Samples.good_url)
       ++ [Does (Read (Samples.chunk [Byte.x01]));
           Does (Write [Byte.x01] true);
           Does Flush;
           ClientGone;
           Goroutine (Kill Extractor);
           Goroutine (Kill Transcoder);
           ExecKill Extractor;
           ExecKill Transcoder;
           Does (Read (Samples.chunk [Byte.x02]));
           Does (Write [Byte.x02] false);
           Does (Kill Extractor);
           Does (Kill Transcoder);
           Does CancelCtx;
           ServerCancel]).
Proof.
  eexists. split.
  - change (trace
              (MainGo.streamHandler
                 (Samples.client_leaves_at 1
                    [Samples.chunk [Byte.x01]; Samples.chunk [Byte.x02]])
                 Samples.good_url))
      with (main_setup_trace Samples.good_url
              ++ [Read (Samples.chunk [Byte.x01]);
                  Write [Byte.x01] true; Flush;
                  Read (Samples.chunk [Byte.x02]);
                  Write [Byte.x02] false;
                  Kill Extractor; Kill Transcoder;
                  CancelCtx]).
    eapply runs_app; [apply runs_handler|].
    repeat act. apply runs_nil.
  - split; [reflexivity|]. split; [reflexivity|]. split; [reflexivity|].
    intros []; reflexivity.
Qed.

End Watcher.

(** C4, as the code has it.  In main.go forced termination is not guarded by
    anything that makes it happen once.  Three parties issue kills, each
    without looking at the others and each dropping the result: the loop on
    its write-failure path (main.go:101-102), the goroutine of main.go:88-92
    once [r.Context()] is done, and os/exec, for each process, once [ctx] is
    done, unless [Wait] collected the process before.  Each party reacts once
    whatever the causes: the client going away and the deadline running out
    in the same request make no party kill twice.  But the parties add up.
    In every execution of a request whose set-up succeeded and whose handler
    returned, each process gets one kill from the goroutine (at the latest
    after the handler has returned, when net/http cancels the context of the
    request), one from the loop if a write failed, and at most one from
    os/exec: between one and three attempts.  When a write failed they are
    three, since the handler then returns without [Wait] and the deferred
    [cancel] makes os/exec kill.  Otherwise they are one or two: two when
    os/exec killed.  Wherever in the loop the deadline runs out, the client
    goes away, or both, there is the execution in which os/exec kills both
    processes at once, with two attempts on each process, or three if a write
    fails later; and a request that nothing disturbs has the execution with
    the one attempt that comes after the handler has returned. *)
Theorem kill_attempts_per_process :
  forall (w : Sys.World) (vidURL : string),
    Validator.isYouTubeURL vidURL = true ->
    setup_ok w = true ->
    returned (MainGo.streamHandler w vidURL) = true ->
    (forall (g : list Act) (p : Sys.Proc),
        execution (Sys.trace (MainGo.streamHandler w vidURL)) g ->
        tally (kill_by_handler p) g = (if write_failed w then 1 else 0)
        /\ tally (kill_by_goroutine p) g = 1
        /\ tally (kill_by_exec p) g <= 1
        /\ attempts p g
           = tally (kill_by_handler p) g + tally (kill_by_goroutine p) g
             + tally (kill_by_exec p) g
        /\ 1 <= attempts p g <= 3
        /\ (write_failed w = true ->
            tally (kill_by_exec p) g = 1 /\ attempts p g = 3)
        /\ (write_failed w = false ->
            attempts p g <= 2 /\ (In (ExecKill p) g -> attempts p g = 2)))
    /\ (forall (t1 t2 : list Sys.Event) (trig : list Act),
           Sys.trace (MainGo.relay w (Sys.reads w) 0) = t1 ++ t2 ->
           trig = [Deadline] \/ trig = [ClientGone]
           \/ trig = [ClientGone; Deadline] ->
           let g :=
             map Does (main_setup_trace vidURL ++ t1)
               ++ trig
               ++ [ExecKill Sys.Extractor; ExecKill Sys.Transcoder]
               ++ map Does (t2 ++ main_after_loop
                                    (Sys.flow (MainGo.relay w (Sys.reads w) 0)))
               ++ [ServerCancel; Goroutine (Sys.Kill Sys.Extractor);
                   Goroutine (Sys.Kill Sys.Transcoder)] in
           execution (Sys.trace (MainGo.streamHandler w vidURL)) g
           /\ forall p, attempts p g = if write_failed w then 3 else 2)
    /\ (write_failed w = false ->
        let g :=
          map Does (Sys.trace (MainGo.streamHandler w vidURL))
            ++ [ServerCancel; Goroutine (Sys.Kill Sys.Extractor);
                Goroutine (Sys.Kill Sys.Transcoder)] in
        execution (Sys.trace (MainGo.streamHandler w vidURL)) g
        /\ forall p, attempts p g = 1).
Proof.
  intros w vidURL Hu Hs Hr. split; [|split].
  - intros g p Hex.
    destruct (main_execution_attempts w vidURL g p Hu Hs Hr Hex)
      as (T1 & T2 & T3 & T4 & T5).
    split; [exact T1|]. split; [exact T2|]. split; [exact T3|].
    split; [rewrite T5, T1, T2; reflexivity|].
    split; [rewrite T5; destruct (write_failed w); lia|].
    split.
    + intros Hw. specialize (T4 Hw). rewrite T5, Hw, T4. split; reflexivity.
    + intros Hw. rewrite T5, Hw. split; [lia|].
      intros Hin. pose proof (ExecKill_tally p g Hin). lia.
  - intros t1 t2 trig Hsplit Htrig. cbv zeta.
    pose proof (main_execution_triggered w vidURL t1 t2 trig Hu Hs Hr Hsplit Htrig)
      as Hex.
    split; [exact Hex|]. intros p.
    destruct (main_execution_attempts w vidURL _ p Hu Hs Hr Hex)
      as (_ & _ & T3 & _ & T5).
    rewrite T5.
    match type of Hex with
    | execution _ ?g =>
        assert (Hin : In (ExecKill p) g)
          by (apply in_or_app; right; apply in_or_app; right;
              destruct p; [left|right; left]; reflexivity);
        pose proof (ExecKill_tally p g Hin)
    end.
    destruct (write_failed w); lia.
  - intros Hw. cbv zeta.
    pose proof (not_write_failed w vidURL Hu Hs Hr Hw) as Hf.
    pose proof (main_execution_undisturbed w vidURL Hu Hs Hf) as Hex.
    split; [exact Hex|]. intros p.
    destruct (main_execution_attempts w vidURL _ p Hu Hs Hr Hex)
      as (_ & _ & _ & _ & T5).
    rewrite T5, Hw, tally_app, tally_Does by reflexivity.
    destruct p; reflexivity.
Qed.

Lemma kill_attempts_per_process_witness :
  exists t1 : list Sys.Event,
    let main := Sys.trace (main_serve None (one_per_second 60)
                             (Samples.healthy []) Samples.good_url) in
    let g :=
      map Does (main_setup_trace Samples.good_url ++ t1)
        ++ [Deadline; ExecKill Sys.Extractor; ExecKill Sys.Transcoder]
        ++ map Does [Sys.Read end_of_stream; Sys.Wait Sys.Transcoder;
                     Sys.Wait Sys.Extractor; Sys.CancelCtx]
        ++ [ServerCancel; Goroutine (Sys.Kill Sys.Extractor);
            Goroutine (Sys.Kill Sys.Transcoder)] in
    Sys.count is_good_Write t1 = 44
    /\ execution main g
    /\ forall p, attempts p g = 2.
Proof.
  exists (firstn 132
            (Sys.trace
               (MainGo.relay
                  (Sys.with_reads (Samples.healthy [])
                     (Sys.observe (kill_time None MainGo.ffmpegCmd)
                        (one_per_second 60)))
                  (Sys.observe (kill_time None MainGo.ffmpegCmd)
                     (one_per_second 60)) 0))).
  cbv zeta. split; [vm_compute; reflexivity|].
  refine (proj1 (proj2
            (kill_attempts_per_process
               (Sys.with_reads (Samples.healthy [])
                  (Sys.observe (kill_time None MainGo.ffmpegCmd)
                     (one_per_second 60)))
               Samples.good_url _ _ _)) _ [Sys.Read end_of_stream] [Deadline] _ _).
  - vm_compute; reflexivity.
  - vm_compute; reflexivity.
  - vm_compute; reflexivity.
  - vm_compute; reflexivity.
  - left. reflexivity.
Defined.

(** C4 as stated fails: the client takes one chunk and goes away, and the
    next write fails.  In the execution given, the goroutine of main.go and
    os/exec kill both processes when the client has gone, and the loop kills
    them again when its write fails; and in every execution of this request
    each process is killed three times, once by each party. *)
Lemma double_kill_counterexample :
  let w := Samples.client_leaves_at 1
             [Samples.chunk [Byte.x01]; Samples.chunk [Byte.x02]] in
  let main := Sys.trace (MainGo.streamHandler w Samples.good_url) in
  execution main
    (map Does (main_setup_trace Samples.good_url)
       ++ [Does (Sys.Read (Samples.chunk [Byte.x01]));
           Does (Sys.Write [Byte.x01] true);
           Does Sys.Flush;
           ClientGone;
           Goroutine (Sys.Kill Sys.Extractor);
           Goroutine (Sys.Kill Sys.Transcoder);
           ExecKill Sys.Extractor;
           ExecKill Sys.Transcoder;
           Does (Sys.Read (Samples.chunk [Byte.x02]));
           Does (Sys.Write [Byte.x02] false);
           Does (Sys.Kill Sys.Extractor);
           Does (Sys.Kill Sys.Transcoder);
           Does Sys.CancelCtx;
           ServerCancel])
  /\ (forall g, execution main g ->
                attempts Sys.Extractor g = 3 /\ attempts Sys.Transcoder g = 3
                /\ tally (kill_by_handler Sys.Transcoder) g = 1
                /\ tally (kill_by_goroutine Sys.Transcoder) g = 1
                /\ tally (kill_by_exec Sys.Transcoder) g = 1).
Proof.
  cbv zeta.
  assert (Hu : Validator.isYouTubeURL Samples.good_url = true) by reflexivity.
  assert (Hs : setup_ok
                 (Samples.client_leaves_at 1
                    [Samples.chunk [Byte.x01]; Samples.chunk [Byte.x02]])
               = true) by reflexivity.
  assert (Hr : returned
                 (MainGo.streamHandler
                    (Samples.client_leaves_at 1
                       [Samples.chunk [Byte.x01]; Samples.chunk [Byte.x02]])
                    Samples.good_url) = true) by reflexivity.
  split; [exact client_gone_execution|].
  intros g Hex.
  destruct (main_execution_attempts _ _ g Sys.Extractor Hu Hs Hr Hex)
    as (_ & _ & _ & E4 & E5).
  destruct (main_execution_attempts _ _ g Sys.Transcoder Hu Hs Hr Hex)
    as (T1 & T2 & _ & T4 & T5).
  rewrite E5, T5, (E4 eq_refl), (T4 eq_refl).
  repeat split; assumption.
Qed.


(** * Further properties of the code *)

(** ** Configuration *)
Section ConfigFacts.
Import Sys Environ.

Lemma simple_getEnv_unfold (env : Env) (key fallback : string) :
  MainSimpleGo.getEnv env key fallback
  = match env !! key with
    | Some v => if String.eqb v "" then fallback else v
    | None => fallback
    end.
Proof.
  unfold MainSimpleGo.getEnv, Getenv.
  destruct (env !! key) as [v|]; [|reflexivity].
  destruct (String.eqb v ""); reflexivity.
Qed.

Lemma getEnv_variants_agree (env : Env) (key fallback : string) :
  Main2Go.getEnv env key fallback = MainSimpleGo.getEnv env key fallback
  /\ DebugGo.getEnv env key fallback = MainSimpleGo.getEnv env key fallback.
Proof. split; reflexivity. Qed.

Lemma Atoi_nonempty (s : string) : isErr (Atoi s) = false -> s <> "".
Proof. intros H ->. discriminate. Qed.

(** What every [getConfig] does with the port it read. *)
Lemma checked_port (port : string) :
  isErr (Atoi (if isErr (Atoi port) then "8080" else port)) = false.
Proof. destruct (isErr (Atoi port)) eqn:E; [reflexivity | exact E]. Qed.

End ConfigFacts.

(** X1.  [getEnv] of main_simple.go, main2.go and the debug variant treats a
    variable set to the empty string like one that is not set: both give the
    fallback.  A non-empty value is returned as it is, other variables do not
    matter, and with a non-empty fallback the result is never empty. *)
Theorem getEnv_empty_value_is_unset :
  forall (env : Environ.Env) (key key' fallback v : string),
    MainSimpleGo.getEnv (<[key := ""]> env) key fallback = fallback
    /\ MainSimpleGo.getEnv (delete key env) key fallback = fallback
    /\ (v <> "" -> MainSimpleGo.getEnv (<[key := v]> env) key fallback = v)
    /\ (key' <> key ->
        MainSimpleGo.getEnv (<[key' := v]> env) key fallback
        = MainSimpleGo.getEnv env key fallback)
    /\ (fallback <> "" -> MainSimpleGo.getEnv env key fallback <> "")
    /\ Main2Go.getEnv env key fallback = MainSimpleGo.getEnv env key fallback
    /\ DebugGo.getEnv env key fallback = MainSimpleGo.getEnv env key fallback.
Proof.
  intros env key key' fallback v.
  split; [rewrite simple_getEnv_unfold, lookup_insert_eq; reflexivity|].
  split; [rewrite simple_getEnv_unfold, lookup_delete_eq; reflexivity|].
  split; [|split; [|split]].
  - intros Hv. rewrite simple_getEnv_unfold, lookup_insert_eq.
    destruct (String.eqb_spec v ""); [contradiction | reflexivity].
  - intros Hne. rewrite !simple_getEnv_unfold, lookup_insert_ne by exact Hne.
    reflexivity.
  - intros Hf. rewrite simple_getEnv_unfold.
    destruct (env !! key) as [x|]; [|exact Hf].
    destruct (String.eqb_spec x ""); assumption.
  - apply getEnv_variants_agree.
Qed.

Lemma getEnv_empty_value_is_unset_witness :
  MainSimpleGo.getEnv (<["PORT" := "9000"]> ∅) "PORT" "8080" = "9000"
  /\ MainSimpleGo.getEnv (<["HOST" := "0.0.0.0"]> ∅) "PORT" "8080" <> "".
Proof.
  split.
  - apply (proj1 (proj2 (proj2 (getEnv_empty_value_is_unset
                                  ∅ "PORT" "HOST" "8080" "9000")))).
    discriminate.
  - apply (proj1 (proj2 (proj2 (proj2 (proj2 (getEnv_empty_value_is_unset
                                  (<["HOST" := "0.0.0.0"]> ∅)
                                  "PORT" "HOST" "8080" "9000")))))).
    discriminate.
Defined.

(** X2.  The plain variant's [getEnv] asks [os.LookupEnv], the others ask
    [os.Getenv] and test for the empty string: the two give different results
    exactly when the variable is set to the empty string and the fallback is
    not empty.  The plain variant then returns the empty string. *)
Theorem getEnv_variants_differ_on_empty_values :
  forall (env : Environ.Env) (key fallback : string),
    (PlainGo.getEnv env key fallback <> MainSimpleGo.getEnv env key fallback
     <-> env !! key = Some "" /\ fallback <> "")
    /\ (env !! key = Some "" -> PlainGo.getEnv env key fallback = "").
Proof.
  intros env key fallback. rewrite simple_getEnv_unfold.
  unfold PlainGo.getEnv, Environ.LookupEnv.
  destruct (env !! key) as [v|].
  - destruct (String.eqb_spec v "") as [->|Hv].
    + split; [|reflexivity]. split.
      * intros H. split; [reflexivity|]. congruence.
      * intros [_ H]. congruence.
    + split; [|congruence]. split; [congruence|].
      intros [H _]. congruence.
  - split; [|discriminate]. split; [congruence|]. intros [H _]. discriminate.
Qed.

Lemma getEnv_variants_differ_on_empty_values_witness :
  PlainGo.getEnv (<["PORT" := ""]> ∅) "PORT" "8080" = "".
Proof.
  apply (proj2 (getEnv_variants_differ_on_empty_values
                  (<["PORT" := ""]> ∅) "PORT" "8080")).
  apply lookup_insert_eq.
Defined.

(** X3.  Whatever the environment holds, the port that [getConfig] (all three
    variants) and [loadConfig] return is a string [strconv.Atoi] accepts, and
    the tool paths returned are never empty. *)
Theorem configured_port_always_parses :
  forall env : Environ.Env,
    (let '((_, port, ytDlpPath, ffmpegPath), _) := MainSimpleGo.getConfig env in
     Environ.isErr (Environ.Atoi port) = false
     /\ ytDlpPath <> "" /\ ffmpegPath <> "")
    /\ (let '((_, port, ytDlpPath, _), _) := Main2Go.getConfig env in
        Environ.isErr (Environ.Atoi port) = false /\ ytDlpPath <> "")
    /\ (let '((_, port, ytDlpPath, ffmpegPath, _), _) := DebugGo.getConfig env in
        Environ.isErr (Environ.Atoi port) = false
        /\ ytDlpPath <> "" /\ ffmpegPath <> "")
    /\ (let '((_, port), _) := PlainGo.loadConfig env in
        Environ.isErr (Environ.Atoi port) = false).
Proof.
  intros env.
  assert (Hpath : forall key fb, fb <> "" -> MainSimpleGo.getEnv env key fb <> "").
  { intros key fb Hfb. rewrite simple_getEnv_unfold.
    destruct (env !! key) as [x|]; [|exact Hfb].
    destruct (String.eqb_spec x ""); assumption. }
  split; [|split; [|split]].
  - unfold MainSimpleGo.getConfig.
    destruct (Environ.isErr (Environ.Atoi (MainSimpleGo.getEnv env "PORT" "8080")))
      eqn:E; (split; [assumption || reflexivity|]);
      split; apply Hpath; discriminate.
  - unfold Main2Go.getConfig.
    destruct (Environ.isErr (Environ.Atoi (Main2Go.getEnv env "PORT" "8080")))
      eqn:E; (split; [assumption || reflexivity|]);
      apply (Hpath "YT_DLP_PATH"); discriminate.
  - unfold DebugGo.getConfig.
    destruct (Environ.isErr (Environ.Atoi (DebugGo.getEnv env "PORT" "8080")))
      eqn:E; (split; [assumption || reflexivity|]);
      (split; [apply (Hpath "YT_DLP_PATH") | apply (Hpath "FFMPEG_PATH")]);
      discriminate.
  - unfold PlainGo.loadConfig.
    destruct (Environ.isErr (Environ.Atoi (PlainGo.getEnv env "PORT" "8080")))
      eqn:E; [reflexivity | assumption].
Qed.

(** X4.  [getConfig] checks that the port is an integer and nothing more: a
    PORT value that [strconv.Atoi] accepts is returned unchanged and nothing
    is logged, whatever the number is (negative, or above 65535); a non-empty
    PORT value that [strconv.Atoi] rejects is replaced by 8080, and the
    rejected value is logged. *)
Theorem port_is_checked_for_syntax_only :
  forall (env : Environ.Env) (p : string),
    env !! "PORT" = Some p ->
    (forall n : Z,
        Environ.Atoi p = Ok n ->
        snd (fst (fst (fst (MainSimpleGo.getConfig env)))) = p
        /\ snd (MainSimpleGo.getConfig env) = [])
    /\ (p <> "" ->
        Environ.isErr (Environ.Atoi p) = true ->
        snd (fst (fst (fst (MainSimpleGo.getConfig env)))) = "8080"
        /\ snd (MainSimpleGo.getConfig env)
           = [Sys.Log "⚠️ Invalid PORT='%s', using 8080" [Sys.LStr p]]).
Proof.
  intros env p Hp.
  assert (Hport : p <> "" -> MainSimpleGo.getEnv env "PORT" "8080" = p).
  { intros Hne. rewrite simple_getEnv_unfold, Hp.
    destruct (String.eqb_spec p ""); [contradiction | reflexivity]. }
  split.
  - intros n Hn.
    assert (Hok : Environ.isErr (Environ.Atoi p) = false) by (rewrite Hn; reflexivity).
    unfold MainSimpleGo.getConfig.
    rewrite (Hport (Atoi_nonempty p Hok)), Hok. split; reflexivity.
  - intros Hne Herr. unfold MainSimpleGo.getConfig.
    rewrite (Hport Hne), Herr. split; reflexivity.
Qed.

Lemma port_is_checked_for_syntax_only_witness :
  snd (fst (fst (fst (MainSimpleGo.getConfig (<["PORT" := "-1"]> ∅))))) = "-1"
  /\ snd (fst (fst (fst (MainSimpleGo.getConfig (<["PORT" := "80a"]> ∅)))))
     = "8080".
Proof.
  split.
  - apply (proj1 (port_is_checked_for_syntax_only
                    (<["PORT" := "-1"]> ∅) "-1" (lookup_insert_eq _ _ _))
             (-1)%Z).
    vm_compute. reflexivity.
  - apply (proj2 (port_is_checked_for_syntax_only
                    (<["PORT" := "80a"]> ∅) "80a" (lookup_insert_eq _ _ _))).
    + discriminate.
    + vm_compute. reflexivity.
Defined.


(** ** The life of the two processes *)
Section ProcessFacts.
Import Sys Validator.

Lemma running_app (t1 t2 : list Event) (p : Proc) :
  running (t1 ++ t2) p = fold_left (alive_step p) t2 (running t1 p).
Proof. unfold running. apply fold_left_app. Qed.

(** The loop of main.go leaves a process as it found it, unless it takes the
    write-failure path, which ends with both processes killed. *)
Lemma main_relay_alive (w : World) (rs : list ReadResult) (k : nat)
      (p : Proc) (b : bool) :
  fold_left (alive_step p) (trace (MainGo.relay w rs k)) b
  = match flow (MainGo.relay w rs k) with
    | Return _ => false
    | _ => b
    end.
Proof.
  revert k. induction rs as [|r rs IH]; intros k; [reflexivity|].
  rewrite main_relay_cons. unfold flush_events.
  destruct (nonempty r), (write_err w k), (rerr r), (flusher w), p;
    cbn [trace flow fst snd fold_left alive_step Proc_eqb app];
    rewrite ?IH; reflexivity.
Qed.

Lemma debug_relay_alive (w : World) (rs : list ReadResult) (k : nat)
      (total : Z) (p : Proc) (b : bool) :
  fold_left (alive_step p) (trace (DebugGo.relay w rs k total)) b
  = match flow (DebugGo.relay w rs k total) with
    | Return _ => false
    | _ => b
    end.
Proof.
  revert k total. induction rs as [|r rs IH]; intros k total; [reflexivity|].
  rewrite debug_relay_cons. unfold flush_events, read_error_log.
  destruct (nonempty r), (write_err w k), (rerr r) as [[|m]|], (flusher w), p;
    cbn [trace flow fst snd fold_left alive_step Proc_eqb app DebugGo.is_EOF];
    rewrite ?IH; reflexivity.
Qed.

Lemma pass_trace_alive (w : World) (pre : list ReadResult) (p : Proc) (b : bool) :
  fold_left (alive_step p) (pass_trace w pre) b = b.
Proof.
  revert b. induction pre as [|r pre IH]; intros b; [reflexivity|].
  cbn [pass_trace]. rewrite fold_left_app, IH. unfold flush_events.
  destruct (nonempty r), (flusher w); reflexivity.
Qed.

(** The debug variant around its loop, when set-up succeeds. *)
Lemma debug_streaming (yt ff ck : string) (w : World) (vidURL dbg : string) :
  isYouTubeURL vidURL = true ->
  String.eqb dbg "1" || String.eqb dbg "true" = false ->
  setup_ok w = true ->
  DebugGo.streamHandler yt ff ck w vidURL dbg
  = match DebugGo.relay w (reads w) 0 0 with
    | (t, Next total) =>
        (debug_setup_trace yt ff ck vidURL ++ t ++ debug_after_loop w vidURL total,
         Next tt)
    | (t, Return _) => (debug_setup_trace yt ff ck vidURL ++ t, Return tt)
    | (t, Blocked) => (debug_setup_trace yt ff ck vidURL ++ t, Blocked)
    end.
Proof.
  intros Hu Hd Hs. apply setup_ok_fields in Hs.
  destruct Hs as (H1 & H2 & H3 & H4).
  unfold DebugGo.streamHandler.
  rewrite (accepted_nonempty _ Hu), Hu, Hd. cbn [negb].
  unfold cmd_StdoutPipe, cmd_Start, pipe_result, start_result.
  rewrite H1, H2, H3, H4.
  destruct (DebugGo.relay w (reads w) 0 0) as [t [total|[]|]];
    [|reflexivity|reflexivity].
  unfold debug_after_loop.
  cbv beta iota zeta delta [mbind Run_bind bind when log_Printf cmd_Wait
                            header_Set emit ret fst snd isNil negb].
  destruct (0 <? String.length (ytdlp_stderr w))%nat,
    (0 <? String.length (ffmpeg_stderr w))%nat, (total =? 0)%Z;
    reflexivity.
Qed.

Lemma debug_after_loop_alive (w : World) (vidURL : string) (total : Z)
      (p : Proc) (b : bool) :
  fold_left (alive_step p) (debug_after_loop w vidURL total) b = false.
Proof.
  unfold debug_after_loop.
  destruct (0 <? String.length (ytdlp_stderr w))%nat,
    (0 <? String.length (ffmpeg_stderr w))%nat, (total =? 0)%Z, p, b;
    reflexivity.
Qed.

(** The debug variant when set-up fails: it never gets to its loop, and
    nothing it started is left running. *)
Lemma debug_setup_failure_alive (yt ff ck : string) (w : World)
      (vidURL dbg : string) (p : Proc) :
  isYouTubeURL vidURL = true ->
  String.eqb dbg "1" || String.eqb dbg "true" = false ->
  setup_ok w = false ->
  running (trace (DebugGo.streamHandler yt ff ck w vidURL dbg)) p = false.
Proof.
  intros Hu Hd Hs. unfold DebugGo.streamHandler.
  rewrite (accepted_nonempty _ Hu), Hu, Hd. cbn [negb].
  unfold setup_ok in Hs.
  unfold cmd_StdoutPipe, cmd_Start, pipe_result, start_result.
  destruct (ytdlp_StdoutPipe w); [destruct p; reflexivity|].
  destruct (ffmpeg_StdoutPipe w); [destruct p; reflexivity|].
  destruct (ytdlp_Start w); [destruct p; reflexivity|].
  destruct (ffmpeg_Start w); [destruct p; reflexivity|].
  discriminate.
Qed.

End ProcessFacts.

(** X5.  Whenever the handler of main.go returns, on whichever path (bad URL,
    a pipe or a start that fails, the client gone, the stream at its end),
    neither child process is left running: each one was never started, or
    was killed, or was waited for. *)
Theorem main_handler_leaves_no_process :
  forall (w : Sys.World) (vidURL : string) (p : Sys.Proc),
    returned (MainGo.streamHandler w vidURL) = true ->
    Sys.running (Sys.trace (MainGo.streamHandler w vidURL)) p = false.
Proof.
  intros w vidURL p. unfold returned, MainGo.streamHandler.
  destruct (String.eqb vidURL ""); [reflexivity|].
  destruct (Validator.isYouTubeURL vidURL); [|reflexivity].
  cbn [negb].
  unfold Sys.cmd_StdoutPipe, Sys.cmd_Start, Sys.pipe_result, Sys.start_result.
  destruct (Sys.ytdlp_StdoutPipe w); [destruct p; reflexivity|].
  destruct (Sys.ytdlp_Start w); [destruct p; reflexivity|].
  destruct (Sys.ffmpeg_StdoutPipe w); [destruct p; reflexivity|].
  destruct (Sys.ffmpeg_Start w); [destruct p; reflexivity|].
  pose proof (main_relay_alive w (Sys.reads w) 0 p) as Hal.
  destruct (MainGo.relay w (Sys.reads w) 0) as [t [[]|[]|]];
    cbn [Sys.trace Sys.flow fst snd] in Hal; cbn; intros Hret;
    try discriminate; unfold Sys.running;
    rewrite ?fold_left_app; cbn [fold_left Sys.alive_step];
    destruct p; cbn [Sys.Proc_eqb]; rewrite ?fold_left_app, ?Hal; reflexivity.
Qed.

Lemma main_handler_leaves_no_process_witness :
  Sys.running
    (Sys.trace (MainGo.streamHandler
                  (Samples.client_leaves_at 0 [Samples.chunk [Byte.x01]])
                  Samples.good_url))
    Sys.Transcoder = false.
Proof.
  apply (main_handler_leaves_no_process
           (Samples.client_leaves_at 0 [Samples.chunk [Byte.x01]])
           Samples.good_url Sys.Transcoder).
  vm_compute. reflexivity.
Defined.

(** X6.  The same holds for the debug variant, on every path, the
    format-listing branch included. *)
Theorem debug_handler_leaves_no_process :
  forall (yt ff ck : string) (w : Sys.World) (vidURL dbg : string) (p : Sys.Proc),
    returned (DebugGo.streamHandler yt ff ck w vidURL dbg) = true ->
    Sys.running (Sys.trace (DebugGo.streamHandler yt ff ck w vidURL dbg)) p = false.
Proof.
  intros yt ff ck w vidURL dbg p.
  destruct (String.eqb vidURL "") eqn:E0.
  { unfold DebugGo.streamHandler. rewrite E0. reflexivity. }
  destruct (Validator.isYouTubeURL vidURL) eqn:Eu.
  2: { unfold DebugGo.streamHandler. rewrite E0, Eu. reflexivity. }
  destruct (String.eqb dbg "1" || String.eqb dbg "true") eqn:Ed.
  { unfold DebugGo.streamHandler, DebugGo.listFormats. rewrite E0, Eu, Ed.
    destruct (Sys.formats_output w); reflexivity. }
  destruct (setup_ok w) eqn:Es.
  2: { intros _. apply debug_setup_failure_alive; assumption. }
  rewrite (debug_streaming yt ff ck w vidURL dbg Eu Ed Es).
  pose proof (debug_relay_alive w (Sys.reads w) 0 0 p) as Hal.
  unfold returned.
  destruct (DebugGo.relay w (Sys.reads w) 0 0) as [t [total|[]|]];
    cbn [Sys.trace Sys.flow fst snd] in *; [| |discriminate]; intros _.
  - rewrite running_app, fold_left_app. apply debug_after_loop_alive.
  - rewrite running_app. apply Hal.
Qed.

Lemma debug_handler_leaves_no_process_witness :
  Sys.running
    (Sys.trace (DebugGo.streamHandler "yt-dlp" "ffmpeg" ""
                  (Samples.healthy [Samples.last_chunk [Byte.x01] Sys.EOF])
                  Samples.good_url ""))
    Sys.Extractor = false.
Proof.
  apply (debug_handler_leaves_no_process "yt-dlp" "ffmpeg" ""
           (Samples.healthy [Samples.last_chunk [Byte.x01] Sys.EOF])
           Samples.good_url "" Sys.Extractor).
  vm_compute. reflexivity.
Defined.

(** X7.  [StreamFromURL] does not clean up after itself when the stream
    breaks: if a write to the client fails, or a read fails with an error
    other than end-of-stream, it returns an error while both processes are
    still running (it has neither killed nor waited for them); they are left
    to the goroutine that waits for the context. *)
Theorem streamer_returns_with_processes_running :
  forall (c : Sys.Context) (w : Sys.World) (url : string)
         (pre post : list Sys.ReadResult) (r : Sys.ReadResult),
    Validator.isYouTubeURL url = true ->
    setup_ok w = true ->
    Sys.reads w = pre ++ r :: post ->
    passes w pre 0 = true ->
    (nonempty r = true /\ Sys.write_err w (writes_in pre) <> None)
    \/ ((nonempty r = true -> Sys.write_err w (writes_in pre) = None)
        /\ exists m, Sys.rerr r = Some (Sys.ReadFailure m)) ->
    (exists err, Sys.flow (StreamerGo.StreamFromURL c w url)
                 = Sys.Return (Some err))
    /\ Sys.running (Sys.trace (StreamerGo.StreamFromURL c w url)) Sys.Extractor
       = true
    /\ Sys.running (Sys.trace (StreamerGo.StreamFromURL c w url)) Sys.Transcoder
       = true.
Proof.
  intros c w url pre post r Hu Hs Hr Hp Hcase.
  rewrite (streamer_streaming c w url Hu Hs), Hr.
  destruct Hcase as [[Hn Hw]|[Hw (m & He)]].
  - rewrite (streamer_relay_passes w pre (r :: post) 0 Hp).
    rewrite streamer_relay_cons, Hn. cbn [Nat.add].
    destruct (Sys.write_err w (writes_in pre)); [|congruence].
    cbn [Sys.trace Sys.flow fst snd].
    split; [eexists; reflexivity|].
    rewrite !running_app, !fold_left_app, !pass_trace_alive. split; reflexivity.
  - rewrite (streamer_relay_last w pre post r _ 0 Hp Hw He).
    cbn [Sys.trace Sys.flow fst snd].
    split; [eexists; reflexivity|].
    rewrite !running_app, !fold_left_app, !pass_trace_alive.
    unfold chunk_events, flush_events.
    destruct (nonempty r), (Sys.flusher w); split; reflexivity.
Qed.

Lemma streamer_returns_with_processes_running_witness :
  Sys.running
    (Sys.trace (StreamerGo.StreamFromURL Sys.Background
                  (Samples.client_leaves_at 0 [Samples.chunk [Byte.x01]])
                  Samples.good_url))
    Sys.Transcoder = true.
Proof.
  apply (streamer_returns_with_processes_running Sys.Background
           (Samples.client_leaves_at 0 [Samples.chunk [Byte.x01]])
           Samples.good_url [] [] (Samples.chunk [Byte.x01])
           eq_refl eq_refl eq_refl eq_refl).
  left. split; [reflexivity | discriminate].
Defined.

(** ** What reaches the client *)
Section BodyFacts.
Import Sys Validator.

Lemma data_of_empty (r : ReadResult) : nonempty r = false -> data r = [].
Proof. unfold nonempty. destruct (data r); [reflexivity|discriminate]. Qed.

(** One chunk taken by the client: the body grows by exactly that chunk. *)
Lemma chunk_step (w : World) (r : ReadResult) (rest : list Event) (r0 : Response) :
  exists r1,
    fold_left resp_step
      (Read r :: Write (data r) true :: flush_events w ++ rest) r0
    = fold_left resp_step rest r1
    /\ body r1 = body r0 ++ data r.
Proof.
  unfold flush_events. destruct (flusher w); cbn [app fold_left];
    eexists; (split; [reflexivity|]); reflexivity.
Qed.

(** The loop of main.go appends whole chunks to the body, in the order of the
    reads, without a gap. *)
Lemma main_relay_body (w : World) (rs : list ReadResult) (k : nat) (r0 : Response) :
  exists n,
    body (fold_left resp_step (trace (MainGo.relay w rs k)) r0)
    = body r0 ++ flat_map data (firstn n rs).
Proof.
  revert k r0. induction rs as [|r rs IH]; intros k r0.
  - exists 0. cbn. rewrite app_nil_r. reflexivity.
  - rewrite main_relay_cons.
    destruct (nonempty r) eqn:En.
    + destruct (write_err w k).
      * exists 0. cbn. rewrite app_nil_r. reflexivity.
      * destruct (rerr r); cbn [trace fst].
        -- exists 1.
           destruct (chunk_step w r [] r0) as (mid & Hf & Hb).
           rewrite app_nil_r in Hf. rewrite Hf. cbn. rewrite app_nil_r. exact Hb.
        -- destruct (chunk_step w r (trace (MainGo.relay w rs (S k))) r0)
             as (mid & Hf & Hb).
           rewrite Hf. destruct (IH (S k) mid) as [n Hn].
           exists (S n). rewrite Hn, Hb. cbn [firstn flat_map].
           rewrite <- app_assoc. reflexivity.
    + pose proof (data_of_empty r En) as Hd.
      destruct (rerr r); cbn [trace fst].
      * exists 0. cbn. rewrite app_nil_r. reflexivity.
      * cbn [fold_left].
        destruct (IH k (resp_step r0 (Read r))) as [n Hn].
        exists (S n). rewrite Hn. cbn [firstn flat_map]. rewrite Hd. reflexivity.
Qed.

(** With a client that takes every write, nothing is left out up to the
    first read that carries an error. *)
Lemma main_relay_body_complete (w : World) (rs : list ReadResult) (k : nat)
      (r0 : Response) :
  client_stays w ->
  body (fold_left resp_step (trace (MainGo.relay w rs k)) r0)
  = body r0 ++ flat_map data (until_error rs).
Proof.
  intros Hc. revert k r0. induction rs as [|r rs IH]; intros k r0.
  - cbn. rewrite app_nil_r. reflexivity.
  - rewrite main_relay_cons, (Hc k). cbn [until_error].
    destruct (nonempty r) eqn:En.
    + destruct (rerr r); cbn [trace fst].
      * destruct (chunk_step w r [] r0) as (mid & Hf & Hb).
        rewrite app_nil_r in Hf. rewrite Hf. cbn. rewrite app_nil_r. exact Hb.
      * destruct (chunk_step w r (trace (MainGo.relay w rs (S k))) r0)
          as (mid & Hf & Hb).
        rewrite Hf, IH, Hb. cbn [flat_map]. rewrite <- app_assoc. reflexivity.
    + pose proof (data_of_empty r En) as Hd.
      destruct (rerr r); cbn [trace fst].
      * cbn. rewrite Hd, app_nil_r. reflexivity.
      * cbn [fold_left flat_map]. rewrite IH, Hd. reflexivity.
Qed.

Lemma main_after_loop_body (f : Flow unit unit) (r0 : Response) :
  body (fold_left resp_step (main_after_loop f) r0) = body r0.
Proof. destruct f; reflexivity. Qed.

(** With a writer that can flush, the loop flushes after every successful
    write. *)
Lemma main_relay_flush (w : World) (rs : list ReadResult) (k : nat)
      (u : list Event) :
  flusher w = true ->
  flush_follows_write (trace (MainGo.relay w rs k) ++ u) = flush_follows_write u.
Proof.
  intros Hf. revert k. induction rs as [|r rs IH]; intros k; [reflexivity|].
  rewrite main_relay_cons. unfold flush_events. rewrite Hf.
  destruct (nonempty r), (write_err w k), (rerr r);
    cbn [trace fst app flush_follows_write]; rewrite ?IH; reflexivity.
Qed.

End BodyFacts.

(** X8.  Once set-up has succeeded, what the client has received from
    main.go is, at every moment, the chunks of the first n reads of the
    transcoder's output, whole and in order, for some n: never a chunk out of
    order, twice, or in part.  If the client takes every write, it is all the
    chunks up to and including the first read that carries an error. *)
Theorem relay_preserves_the_stream :
  forall (w : Sys.World) (vidURL : string),
    Validator.isYouTubeURL vidURL = true ->
    setup_ok w = true ->
    (exists n,
        Sys.body (Sys.respond (Sys.trace (MainGo.streamHandler w vidURL)))
        = flat_map Sys.data (firstn n (Sys.reads w)))
    /\ (client_stays w ->
        Sys.body (Sys.respond (Sys.trace (MainGo.streamHandler w vidURL)))
        = flat_map Sys.data (until_error (Sys.reads w))).
Proof.
  intros w vidURL Hu Hs.
  destruct (main_streaming w vidURL Hu Hs) as [Ht _]. rewrite Ht.
  rewrite !respond_app, !fold_left_app, !main_after_loop_body.
  split.
  - destruct (main_relay_body w (Sys.reads w) 0
                (Sys.respond (main_setup_trace vidURL))) as [n Hn].
    exists n. rewrite Hn. reflexivity.
  - intros Hc.
    rewrite (main_relay_body_complete w (Sys.reads w) 0 _ Hc). reflexivity.
Qed.

Lemma relay_preserves_the_stream_witness :
  Sys.body (Sys.respond (Sys.trace
     (MainGo.streamHandler
        (Samples.healthy [Samples.chunk [Byte.x01; Byte.x02];
                          Samples.last_chunk [Byte.x03] Sys.EOF;
                          Samples.chunk [Byte.x04]])
        Samples.good_url)))
  = flat_map Sys.data
      (until_error [Samples.chunk [Byte.x01; Byte.x02];
                    Samples.last_chunk [Byte.x03] Sys.EOF;
                    Samples.chunk [Byte.x04]]).
Proof.
  apply (proj2 (relay_preserves_the_stream
                  (Samples.healthy [Samples.chunk [Byte.x01; Byte.x02];
                                    Samples.last_chunk [Byte.x03] Sys.EOF;
                                    Samples.chunk [Byte.x04]])
                  Samples.good_url eq_refl eq_refl)).
  intros k. reflexivity.
Defined.

(** X9.  When the response writer can flush, main.go flushes directly after
    every successful write: in the handler's trace each write the client took
    is immediately followed by a flush, on every path. *)
Theorem every_write_is_flushed_at_once :
  forall (w : Sys.World) (vidURL : string),
    Sys.flusher w = true ->
    flush_follows_write (Sys.trace (MainGo.streamHandler w vidURL)) = true.
Proof.
  intros w vidURL Hf. unfold MainGo.streamHandler.
  destruct (String.eqb vidURL ""); [reflexivity|].
  destruct (Validator.isYouTubeURL vidURL); [|reflexivity].
  cbn [negb].
  unfold Sys.cmd_StdoutPipe, Sys.cmd_Start, Sys.pipe_result, Sys.start_result.
  destruct (Sys.ytdlp_StdoutPipe w); [reflexivity|].
  destruct (Sys.ytdlp_Start w); [reflexivity|].
  destruct (Sys.ffmpeg_StdoutPipe w); [reflexivity|].
  destruct (Sys.ffmpeg_Start w); [reflexivity|].
  pose proof (main_relay_flush w (Sys.reads w) 0) as Hfl.
  destruct (MainGo.relay w (Sys.reads w) 0) as [t [[]|[]|]];
    cbn [Sys.trace fst] in Hfl; cbn.
  - rewrite <- app_assoc, Hfl by exact Hf. reflexivity.
  - rewrite Hfl by exact Hf. reflexivity.
  - rewrite <- (app_nil_r t), Hfl by exact Hf. reflexivity.
Qed.

Lemma every_write_is_flushed_at_once_witness :
  flush_follows_write
    (Sys.trace (MainGo.streamHandler
                  (Samples.healthy [Samples.chunk [Byte.x01];
                                    Samples.last_chunk [Byte.x02] Sys.EOF])
                  Samples.good_url)) = true.
Proof.
  apply (every_write_is_flushed_at_once
           (Samples.healthy [Samples.chunk [Byte.x01];
                             Samples.last_chunk [Byte.x02] Sys.EOF])
           Samples.good_url eq_refl).
Defined.

(** ** The end of a stream in the debug variant *)
Section CompletionFacts.
Import Sys Validator.

Lemma pass_trace_app (w : World) (l1 l2 : list ReadResult) :
  pass_trace w (l1 ++ l2) = pass_trace w l1 ++ pass_trace w l2.
Proof.
  induction l1 as [|r l1 IH]; [reflexivity|].
  cbn [app pass_trace]. rewrite IH, <- app_assoc. reflexivity.
Qed.

Lemma pass_trace_last (w : World) (r : ReadResult) :
  pass_trace w [r] = chunk_events w r.
Proof. cbn [pass_trace]. apply app_nil_r. Qed.

Lemma total_after_app (total : Z) (l1 l2 : list ReadResult) :
  total_after total (l1 ++ l2) = total_after (total_after total l1) l2.
Proof.
  revert total. induction l1 as [|r l1 IH]; intros total; [reflexivity|].
  cbn [app total_after]. apply IH.
Qed.

Lemma relayed_app (l1 l2 : list ReadResult) :
  relayed (l1 ++ l2) = (relayed l1 + relayed l2)%Z.
Proof. induction l1 as [|r l1 IH]; cbn [app relayed]; lia. Qed.

Lemma body_no_body (t : list Event) (r0 : Response) :
  forallb no_body t = true -> body (fold_left resp_step t r0) = body r0.
Proof.
  revert r0. induction t as [|e t IH]; intros r0 H; [reflexivity|].
  cbn [forallb] in H. apply andb_prop in H. destruct H as [He Ht].
  cbn [fold_left]. rewrite (IH _ Ht).
  destruct e; try discriminate; try reflexivity.
  cbn [resp_step]. destruct (status r0); reflexivity.
Qed.

Lemma count_pass_trace (f : Event -> bool) (w : World) (pre : list ReadResult) :
  (forall r, f (Read r) = false) ->
  (forall d b, f (Write d b) = false) ->
  f Flush = false ->
  count f (pass_trace w pre) = 0.
Proof.
  intros HR HW HF. induction pre as [|r pre IH]; [reflexivity|].
  cbn [pass_trace]. rewrite count_app, IH, count_cons, HR. unfold flush_events.
  destruct (nonempty r); [|reflexivity].
  rewrite count_cons, HW. destruct (flusher w); [|reflexivity].
  rewrite count_cons, HF. reflexivity.
Qed.

(** The loop of the debug variant at the read that ends the stream. *)
Lemma debug_relay_last (w : World) (pre post : list ReadResult)
      (r : ReadResult) (e : ReadErr) (k : nat) (total : Z) :
  passes w pre k = true ->
  (nonempty r = true -> write_err w (k + writes_in pre) = None) ->
  rerr r = Some e ->
  DebugGo.relay w (pre ++ r :: post) k total
  = (pass_trace w (pre ++ [r]) ++ read_error_log e,
     Next (total_after total (pre ++ [r]))).
Proof.
  intros Hp Hw He. rewrite (debug_relay_passes w pre (r :: post) k total Hp).
  rewrite debug_relay_cons, He, pass_trace_app, pass_trace_last, total_after_app.
  unfold chunk_events. cbn [total_after].
  destruct (nonempty r); [rewrite (Hw eq_refl)|];
    cbn [trace flow fst snd]; rewrite <- ?app_assoc; reflexivity.
Qed.

Lemma debug_after_loop_no_body (w : World) (vidURL : string) (total : Z) :
  forallb no_body (debug_after_loop w vidURL total) = true.
Proof.
  unfold debug_after_loop.
  destruct (0 <? String.length (ytdlp_stderr w))%nat,
    (0 <? String.length (ffmpeg_stderr w))%nat, (total =? 0)%Z; reflexivity.
Qed.

Lemma debug_after_loop_warning (w : World) (vidURL : string) (total : Z) :
  count is_zero_warning (debug_after_loop w vidURL total)
  = if (total =? 0)%Z then 1 else 0.
Proof.
  unfold debug_after_loop.
  destruct (0 <? String.length (ytdlp_stderr w))%nat,
    (0 <? String.length (ffmpeg_stderr w))%nat, (total =? 0)%Z; reflexivity.
Qed.

Lemma read_error_log_facts (e : ReadErr) :
  forallb no_body (read_error_log e) = true
  /\ count is_zero_warning (read_error_log e) = 0.
Proof. destruct e; split; reflexivity. Qed.

End CompletionFacts.

(** X10.  When the stream of the debug variant comes to its end (a read
    returns end-of-stream or fails, every chunk before it having been taken
    by the client), the byte count in the closing log line "Stream done" is
    exactly the number of bytes the client received, and the zero-bytes
    warning is logged exactly when that number is zero. *)
Theorem completed_stream_reports_what_was_sent :
  forall (w : Sys.World) (pre post : list Sys.ReadResult) (r : Sys.ReadResult)
         (e : Sys.ReadErr) (vidURL yt ff ck dbg : string),
    Validator.isYouTubeURL vidURL = true ->
    String.eqb dbg "1" || String.eqb dbg "true" = false ->
    setup_ok w = true ->
    Sys.reads w = pre ++ r :: post ->
    passes w pre 0 = true ->
    (nonempty r = true -> Sys.write_err w (writes_in pre) = None) ->
    Sys.rerr r = Some e ->
    (relayed (pre ++ [r]) < 2 ^ 63)%Z ->
    let t := Sys.trace (DebugGo.streamHandler yt ff ck w vidURL dbg) in
    let sent := Sys.len (Sys.body (Sys.respond t)) in
    sent = relayed (pre ++ [r])
    /\ (exists init,
           t = init ++ [Sys.Log "✅ Stream done: %s (%d bytes)"
                          [Sys.LStr vidURL; Sys.LInt sent]])
    /\ Sys.count is_zero_warning t = (if (sent =? 0)%Z then 1 else 0).
Proof.
  intros w pre post r e vidURL yt ff ck dbg Hu Hd Hs Hr Hp Hw He Hb.
  cbv zeta.
  rewrite (debug_streaming yt ff ck w vidURL dbg Hu Hd Hs), Hr.
  rewrite (debug_relay_last w pre post r e 0 0 Hp Hw He).
  cbn [Sys.trace fst].
  pose proof (relayed_nonneg (pre ++ [r])) as Hnn.
  rewrite (total_after_relayed (pre ++ [r]) 0), Z.add_0_l by lia.
  assert (Hsent : Sys.len (Sys.body (Sys.respond
                     (debug_setup_trace yt ff ck vidURL
                        ++ (pass_trace w (pre ++ [r]) ++ read_error_log e)
                        ++ debug_after_loop w vidURL (relayed (pre ++ [r])))))
                  = relayed (pre ++ [r])).
  { rewrite !respond_app, !fold_left_app.
    rewrite (body_no_body _ _ (debug_after_loop_no_body _ _ _)).
    rewrite (body_no_body _ _ (proj1 (read_error_log_facts e))).
    rewrite pass_trace_body, <- relayed_flat_map. reflexivity. }
  rewrite Hsent. split; [reflexivity|]. split.
  - unfold debug_after_loop. eexists. rewrite !app_assoc. reflexivity.
  - rewrite !count_app, debug_after_loop_warning.
    rewrite (proj2 (read_error_log_facts e)).
    rewrite (count_pass_trace is_zero_warning) by reflexivity.
    reflexivity.
Qed.

Lemma completed_stream_reports_what_was_sent_witness :
  Sys.count is_zero_warning
    (Sys.trace (DebugGo.streamHandler "yt-dlp" "ffmpeg" ""
                  (Samples.healthy [Samples.last_chunk [] Sys.EOF])
                  Samples.good_url "")) = 1.
Proof.
  pose proof (completed_stream_reports_what_was_sent
                (Samples.healthy [Samples.last_chunk [] Sys.EOF])
                [] [] (Samples.last_chunk [] Sys.EOF) Sys.EOF
                Samples.good_url "yt-dlp" "ffmpeg" "" ""
                eq_refl eq_refl eq_refl eq_refl eq_refl (fun _ => eq_refl)
                eq_refl eq_refl) as H.
  cbv zeta in H. destruct H as (Hsent & _ & Hwarn).
  rewrite Hwarn, Hsent. reflexivity.
Defined.

(** ** The convenience handler of the streamer package *)
Section ServeFacts.
Import Sys Validator.

(** [ServeHTTP] around [StreamFromURL], for a request that has a URL. *)
Lemma serve_shape (w : World) (ytURL : string) :
  String.eqb ytURL "" = false ->
  StreamerGo.ServeHTTP w ytURL
  = match StreamerGo.StreamFromURL (WithTimeout RequestContext (45 * 1000)) w ytURL with
    | (t, Return (Some err)) =>
        (Log "Streaming: %s" [LStr ytURL] :: t
           ++ [Log "Stream failed: %v" [LStr err];
               HttpError "Stream error" StatusServiceUnavailable;
               CancelCtx],
         Next tt)
    | (t, Blocked) => (Log "Streaming: %s" [LStr ytURL] :: t, Blocked)
    | (t, _) => (Log "Streaming: %s" [LStr ytURL] :: t ++ [CancelCtx], Next tt)
    end.
Proof.
  intros H. unfold StreamerGo.ServeHTTP. rewrite H.
  destruct (StreamerGo.StreamFromURL _ w ytURL) as [t [[]|[err|]|]];
    cbn; rewrite ?app_nil_r, <- ?app_assoc; reflexivity.
Qed.

Lemma pass_trace_writes (w : World) (pre : list ReadResult) :
  existsb is_Write (pass_trace w pre) = existsb nonempty pre.
Proof.
  induction pre as [|r pre IH]; [reflexivity|].
  cbn [pass_trace existsb]. rewrite existsb_app, IH. unfold flush_events.
  destruct (nonempty r), (flusher w); reflexivity.
Qed.

Lemma pass_trace_quiet (w : World) (pre : list ReadResult) :
  forallb quiet (pass_trace w pre) = true.
Proof.
  induction pre as [|r pre IH]; [reflexivity|].
  cbn [pass_trace]. rewrite forallb_app, IH. unfold flush_events.
  destruct (nonempty r), (flusher w); reflexivity.
Qed.

End ServeFacts.

(** X11.  [ServeHTTP] of the streamer package answers a request without a
    URL with 400, but a URL the validator rejects with 503 "Stream error": the
    rejection comes back from [StreamFromURL] as an ordinary error.  No pipe
    or process is touched in either case: without a URL the handler's whole
    run is the one call of [http.Error], and for a rejected URL it is two log
    lines, [http.Error] and the deferred [cancel]. *)
Theorem serve_rejects_with_503 :
  forall (w : Sys.World) (ytURL : string),
    (ytURL = "" ->
     StreamerGo.ServeHTTP w ytURL
     = ([Sys.HttpError "Missing ?url=YouTube_URL" Sys.StatusBadRequest],
        Sys.Return tt)
     /\ Sys.status (Sys.respond (Sys.trace (StreamerGo.ServeHTTP w ytURL)))
        = Some Sys.StatusBadRequest
     /\ Sys.count Sys.is_process_event (Sys.trace (StreamerGo.ServeHTTP w ytURL))
        = 0
     /\ (forall p : Sys.Proc,
            Sys.running (Sys.trace (StreamerGo.ServeHTTP w ytURL)) p = false))
    /\ (ytURL <> "" ->
        Validator.isYouTubeURL ytURL = false ->
        StreamerGo.ServeHTTP w ytURL
        = ([Sys.Log "Streaming: %s" [Sys.LStr ytURL];
            Sys.Log "Stream failed: %v"
              [Sys.LStr ("invalid YouTube URL: " +:+ ytURL)];
            Sys.HttpError "Stream error" Sys.StatusServiceUnavailable;
            Sys.CancelCtx],
           Sys.Next tt)
        /\ Sys.status (Sys.respond (Sys.trace (StreamerGo.ServeHTTP w ytURL)))
           = Some Sys.StatusServiceUnavailable
        /\ Sys.count Sys.is_process_event (Sys.trace (StreamerGo.ServeHTTP w ytURL))
           = 0).
Proof.
  intros w ytURL. split.
  - intros ->. split; [reflexivity|]. split; [reflexivity|].
    split; [reflexivity|]. intros []; reflexivity.
  - intros Hne Hrej.
    assert (Hshape : StreamerGo.ServeHTTP w ytURL
                     = ([Sys.Log "Streaming: %s" [Sys.LStr ytURL];
                         Sys.Log "Stream failed: %v"
                           [Sys.LStr ("invalid YouTube URL: " +:+ ytURL)];
                         Sys.HttpError "Stream error" Sys.StatusServiceUnavailable;
                         Sys.CancelCtx],
                        Sys.Next tt)).
    { rewrite serve_shape by (apply String.eqb_neq; exact Hne).
      destruct (rejected_streamer (Sys.WithTimeout Sys.RequestContext (45 * 1000))
                  w ytURL Hrej) as [Ht Hf].
      destruct (StreamerGo.StreamFromURL _ w ytURL) as [t f].
      cbn [Sys.trace Sys.flow fst snd] in Ht, Hf. subst t f. reflexivity. }
    rewrite Hshape. repeat split.
Qed.

Lemma serve_rejects_with_503_witness :
  Sys.count Sys.is_process_event
    (Sys.trace (StreamerGo.ServeHTTP (Samples.healthy []) "")) = 0
  /\ Sys.status (Sys.respond (Sys.trace
        (StreamerGo.ServeHTTP (Samples.healthy []) Samples.evil_url)))
     = Some Sys.StatusServiceUnavailable.
Proof.
  split.
  - apply (proj1 (serve_rejects_with_503 (Samples.healthy []) "")).
    reflexivity.
  - apply (proj2 (serve_rejects_with_503 (Samples.healthy []) Samples.evil_url)).
    + discriminate.
    + reflexivity.
Defined.

(** X12.  When a read of the transcoder's output fails (not end-of-stream)
    while the client is still there, [ServeHTTP] calls [http.Error] on a
    response that may already be under way: the client gets every chunk read
    so far followed by the text "Stream error" and a newline; the status is
    the 200 already committed if any chunk went out, and 503 only if none
    did. *)
Theorem serve_appends_error_text_to_a_started_stream :
  forall (w : Sys.World) (url m : string)
         (pre post : list Sys.ReadResult) (r : Sys.ReadResult),
    Validator.isYouTubeURL url = true ->
    setup_ok w = true ->
    Sys.reads w = pre ++ r :: post ->
    passes w pre 0 = true ->
    (nonempty r = true -> Sys.write_err w (writes_in pre) = None) ->
    Sys.rerr r = Some (Sys.ReadFailure m) ->
    let resp := Sys.respond (Sys.trace (StreamerGo.ServeHTTP w url)) in
    Sys.status resp
    = (if existsb nonempty (pre ++ [r])
       then Some Sys.StatusOK else Some Sys.StatusServiceUnavailable)
    /\ Sys.body resp
       = flat_map Sys.data (pre ++ [r])
           ++ list_byte_of_string "Stream error" ++ [Byte.x0a].
Proof.
  intros w url m pre post r Hu Hs Hr Hp Hw He. cbv zeta.
  rewrite serve_shape by (apply accepted_nonempty; exact Hu).
  rewrite (streamer_streaming _ w url Hu Hs), Hr.
  rewrite (streamer_relay_last w pre post r _ 0 Hp Hw He).
  rewrite <- pass_trace_last, <- pass_trace_app.
  cbn [Sys.trace fst].
  change (Sys.Log "Streaming: %s" [Sys.LStr url]
            :: (streamer_setup_trace (Sys.WithTimeout Sys.RequestContext (45 * 1000)) url
                  ++ pass_trace w (pre ++ [r]))
            ++ [Sys.Log "Stream failed: %v" [Sys.LStr ("ffmpeg read: " +:+ m)];
                Sys.HttpError "Stream error" Sys.StatusServiceUnavailable;
                Sys.CancelCtx])
    with ((Sys.Log "Streaming: %s" [Sys.LStr url]
             :: streamer_setup_trace (Sys.WithTimeout Sys.RequestContext (45 * 1000)) url)
            ++ pass_trace w (pre ++ [r])
            ++ [Sys.Log "Stream failed: %v" [Sys.LStr ("ffmpeg read: " +:+ m)];
                Sys.HttpError "Stream error" Sys.StatusServiceUnavailable;
                Sys.CancelCtx]).
  rewrite !respond_app.
  set (r0 := Sys.respond (Sys.Log "Streaming: %s" [Sys.LStr url]
                            :: streamer_setup_trace _ url)).
  destruct (resp_quiet (pass_trace w (pre ++ [r])) r0 (pass_trace_quiet _ _))
    as [_ Hst].
  pose proof (pass_trace_body w (pre ++ [r]) r0) as Hbody.
  rewrite pass_trace_writes in Hst.
  replace (Sys.status r0) with (@None nat) in Hst by reflexivity.
  replace (Sys.body r0) with (@nil Byte.byte) in Hbody by reflexivity.
  cbn [app] in Hbody. rewrite fold_left_app.
  remember (fold_left Sys.resp_step (pass_trace w (pre ++ [r])) r0) as mid
    eqn:Emid in *. clear Emid.
  cbn [fold_left Sys.resp_step].
  destruct (existsb nonempty (pre ++ [r])); rewrite Hst;
    cbn [Sys.status Sys.body]; rewrite Hbody; split; reflexivity.
Qed.

Lemma serve_appends_error_text_to_a_started_stream_witness :
  Sys.status (Sys.respond (Sys.trace
     (StreamerGo.ServeHTTP
        (Samples.healthy
           [Samples.chunk [Byte.x01];
            Samples.last_chunk [] (Sys.ReadFailure "unexpected EOF")])
        Samples.good_url)))
  = Some Sys.StatusOK.
Proof.
  apply (proj1 (serve_appends_error_text_to_a_started_stream
                  (Samples.healthy
                     [Samples.chunk [Byte.x01];
                      Samples.last_chunk [] (Sys.ReadFailure "unexpected EOF")])
                  Samples.good_url "unexpected EOF"
                  [Samples.chunk [Byte.x01]] []
                  (Samples.last_chunk [] (Sys.ReadFailure "unexpected EOF"))
                  eq_refl eq_refl eq_refl eq_refl (fun _ => eq_refl) eq_refl)).
Defined.

(** ** The route around the handler *)
Section RouteFacts.
Import Sys Validator.

Lemma mux_respond_inner (t : list Event) (r0 : Response) :
  fold_left Mux.route_step (map Mux.Inner t) r0 = fold_left resp_step t r0.
Proof.
  revert r0. induction t as [|e t IH]; intros r0; [reflexivity|].
  cbn [map fold_left Mux.route_step]. apply IH.
Qed.

(** An event that keeps its hands off the three headers leaves them as they
    are in the response. *)
Lemma cors_kept (t : list Event) (r0 : Response) (k v : string) :
  In (k, v) cors_headers ->
  forallb keeps_cors t = true ->
  header r0 !! k = Some v ->
  header (fold_left resp_step t r0) !! k = Some v.
Proof.
  intros Hin. revert r0. induction t as [|e t IH]; intros r0 Hq H0; [exact H0|].
  cbn [forallb] in Hq. apply andb_prop in Hq. destruct Hq as [He Hq].
  cbn [fold_left]. apply (IH _ Hq).
  destruct e; cbn [resp_step]; try exact H0; destruct (status r0);
    cbn [header]; try exact H0.
  - cbn [keeps_cors] in He.
    rewrite lookup_insert_ne; [exact H0|]. intros ->.
    apply negb_true_iff in He.
    assert (Hex : existsb (fun kv => String.eqb (fst kv) k) cors_headers = true).
    { apply existsb_exists. exists (k, v). split; [exact Hin|].
      apply String.eqb_refl. }
    congruence.
  - cbn [cors_headers In] in Hin.
    destruct Hin as [Heq|[Heq|[Heq|[]]]]; injection Heq as <- <-;
      rewrite !lookup_insert_ne, lookup_delete_ne by discriminate; exact H0.
Qed.

Lemma debug_relay_keeps_cors (w : World) (rs : list ReadResult) (k : nat) (total : Z) :
  forallb keeps_cors (trace (DebugGo.relay w rs k total)) = true.
Proof.
  revert k total. induction rs as [|r rs IH]; intros k total; [reflexivity|].
  rewrite debug_relay_cons. unfold flush_events, read_error_log.
  destruct (nonempty r), (write_err w k), (rerr r) as [[|m]|], (flusher w);
    cbn [trace fst forallb keeps_cors andb app DebugGo.is_EOF]; auto.
Qed.

Lemma debug_after_loop_keeps_cors (w : World) (vidURL : string) (total : Z) :
  forallb keeps_cors (debug_after_loop w vidURL total) = true.
Proof.
  unfold debug_after_loop.
  destruct (0 <? String.length (ytdlp_stderr w))%nat,
    (0 <? String.length (ffmpeg_stderr w))%nat, (total =? 0)%Z; reflexivity.
Qed.

(** No path through the debug variant's handler sets one of the three
    headers. *)
Lemma debug_handler_keeps_cors (yt ff ck : string) (w : World) (vidURL dbg : string) :
  forallb keeps_cors (trace (DebugGo.streamHandler yt ff ck w vidURL dbg)) = true.
Proof.
  destruct (String.eqb vidURL "") eqn:E0.
  { unfold DebugGo.streamHandler. rewrite E0. reflexivity. }
  destruct (isYouTubeURL vidURL) eqn:Eu.
  2: { unfold DebugGo.streamHandler. rewrite E0, Eu. reflexivity. }
  destruct (String.eqb dbg "1" || String.eqb dbg "true") eqn:Ed.
  { unfold DebugGo.streamHandler, DebugGo.listFormats. rewrite E0, Eu, Ed.
    destruct (formats_output w); reflexivity. }
  destruct (setup_ok w) eqn:Es.
  - rewrite (debug_streaming yt ff ck w vidURL dbg Eu Ed Es).
    pose proof (debug_relay_keeps_cors w (reads w) 0 0) as Hk.
    destruct (DebugGo.relay w (reads w) 0 0) as [t [total|[]|]];
      cbn [trace fst] in *; rewrite !forallb_app, ?Hk,
        ?debug_after_loop_keeps_cors; reflexivity.
  - unfold DebugGo.streamHandler.
    rewrite E0, Eu, Ed. cbn [negb]. unfold setup_ok in Es.
    unfold cmd_StdoutPipe, cmd_Start, pipe_result, start_result.
    destruct (ytdlp_StdoutPipe w); [reflexivity|].
    destruct (ffmpeg_StdoutPipe w); [reflexivity|].
    destruct (ytdlp_Start w); [reflexivity|].
    destruct (ffmpeg_Start w); [reflexivity|].
    discriminate.
Qed.

End RouteFacts.

(** X13.  The function that [main] of the debug variant registers for
    /radio/stream puts the three CORS headers on every response, whatever the
    method, the URL and the outcome: no path through the handler, not even
    [http.Error], touches them.  An OPTIONS request is answered 200 with an
    empty body, and neither the handler nor any process is involved. *)
Theorem cors_headers_on_every_response :
  forall (yt ff ck : string) (w : Sys.World) (method vidURL dbg k v : string),
    In (k, v) cors_headers ->
    Sys.header (Mux.respond (DebugGo.radio_stream yt ff ck w method vidURL dbg)) !! k
    = Some v
    /\ (method = "OPTIONS" ->
        let r := Mux.respond (DebugGo.radio_stream yt ff ck w method vidURL dbg) in
        Sys.status r = Some Sys.StatusOK
        /\ Sys.body r = []
        /\ existsb Mux.is_process_step
             (DebugGo.radio_stream yt ff ck w method vidURL dbg) = false).
Proof.
  intros yt ff ck w method vidURL dbg k v Hin. split.
  - unfold DebugGo.radio_stream, Mux.respond. rewrite fold_left_app.
    set (r0 := fold_left Mux.route_step _ Sys.fresh).
    assert (H0 : Sys.header r0 !! k = Some v).
    { cbn [cors_headers In] in Hin.
      destruct Hin as [Heq|[Heq|[Heq|[]]]]; injection Heq as <- <-;
        vm_compute; reflexivity. }
    destruct (String.eqb method "OPTIONS").
    + cbn [fold_left Mux.route_step].
      destruct (Sys.status r0); exact H0.
    + rewrite mux_respond_inner.
      apply (cors_kept _ _ _ _ Hin (debug_handler_keeps_cors _ _ _ _ _ _) H0).
  - intros ->. cbv zeta. unfold DebugGo.radio_stream. cbn [String.eqb Ascii.eqb Bool.eqb].
    split; [|split]; vm_compute; reflexivity.
Qed.

Lemma cors_headers_on_every_response_witness :
  Sys.header (Mux.respond
                (DebugGo.radio_stream "yt-dlp" "ffmpeg" "" Samples.no_ffmpeg
                   "GET" Samples.good_url ""))
    !! "Access-Control-Allow-Origin" = Some "*".
Proof.
  apply (proj1 (cors_headers_on_every_response "yt-dlp" "ffmpeg" ""
                  Samples.no_ffmpeg "GET" Samples.good_url ""
                  "Access-Control-Allow-Origin" "*" (or_introl eq_refl))).
Defined.

(** ** The validated URL on the command line *)
Section DashFacts.
Import Strings GoURL Validator.

Lemma take_dash (n : nat) (t : string) :
  HasPrefix (take n (String "-" t)) "/" = false
  /\ HasPrefix (take n (String "-" t)) "//" = false.
Proof. destruct n; split; reflexivity. Qed.

Lemma Cut_dash (t : string) (sep : ascii) :
  Ascii.eqb "-" sep = false ->
  exists t', fst (Cut (String "-" t) sep) = String "-" t'.
Proof.
  intros Hsep. unfold Cut. cbn [IndexByte]. rewrite Hsep.
  destruct (IndexByte t sep) as [i|]; cbn [fst take]; eexists; reflexivity.
Qed.

(** A string that begins with a dash has no scheme and no authority: if it
    parses at all, it parses as a path. *)
Lemma parse_dash (t : string) :
  match parse (String "-" t) false with
  | Ok url => Host url = ""
  | Err _ => True
  end.
Proof.
  unfold parse.
  destruct (stringContainsCTLByte (String "-" t)); [exact I|].
  cbn [String.eqb Ascii.eqb Bool.eqb andb].
  change (getScheme (String "-" t)) with (@Ok (string * string) ("", String "-" t)).
  cbn [ToLower].
  set (rest0 := String "-" t).
  assert (Hrest : forall x : string * bool * string,
             x = (if HasSuffix rest0 "?" && (Count rest0 "?" =? 1)%nat
                  then (take (String.length rest0 - 1) rest0, true, "")
                  else let (r, q) := Cut rest0 "?" in (r, false, q)) ->
             HasPrefix (fst (fst x)) "/" = false
             /\ HasPrefix (fst (fst x)) "//" = false).
  { intros x ->. destruct (HasSuffix rest0 "?" && (Count rest0 "?" =? 1)%nat).
    - cbn [fst]. apply take_dash.
    - destruct (Cut_dash t "?" eq_refl) as [t' Ht'].
      fold rest0 in Ht'. destruct (Cut rest0 "?") as [r q]. cbn [fst] in *.
      subst r. split; reflexivity. }
  destruct (if HasSuffix rest0 "?" && (Count rest0 "?" =? 1)%nat
            then (take (String.length rest0 - 1) rest0, true, "")
            else let (r, q) := Cut rest0 "?" in (r, false, q))
    as [[rest forceQuery] rawQuery] eqn:E.
  destruct (Hrest _ eq_refl) as [H1 H2]. cbn [fst] in H1, H2.
  rewrite H1, H2. cbn [negb andb orb String.eqb]. rewrite ?andb_false_r.
  destruct (Contains (fst (Cut rest "/")) ":"); [exact I|].
  unfold setPath. destruct (unescape rest encodePath); cbn; [reflexivity | exact I].
Qed.

Lemma Parse_dash (t : string) :
  match Parse (String "-" t) with
  | Ok url => Host url = ""
  | Err _ => True
  end.
Proof.
  unfold Parse.
  destruct (Cut_dash t "#" eq_refl) as [t' Ht'].
  destruct (Cut (String "-" t) "#") as [u frag]. cbn [fst] in Ht'. subst u.
  pose proof (parse_dash t') as Hp.
  destruct (parse (String "-" t') false) as [url|e]; [|exact I].
  destruct (String.eqb frag ""); [exact Hp|].
  unfold setFragment. destruct (unescape frag encodeFragment); cbn; [exact Hp | exact I].
Qed.

Lemma rejects_leading_dash (t : string) : isYouTubeURL (String "-" t) = false.
Proof.
  unfold isYouTubeURL. pose proof (Parse_dash t) as Hp.
  destruct (Parse (String "-" t)) as [url|e]; [|reflexivity].
  unfold Hostname. rewrite Hp. reflexivity.
Qed.

End DashFacts.

(** X14.  A URL the validator accepts never begins with a dash (a string
    that does has no authority, hence an empty host name), so the URL that
    every variant puts last on the extractor's command line cannot be taken
    for an option. *)
Theorem validated_url_cannot_pass_for_an_option :
  forall u : string,
    Validator.isYouTubeURL u = true ->
    (exists c rest, u = String c rest /\ c <> "-"%char)
    /\ (forall cookiesPath : string,
           exists init c rest,
             Main2Go.ytdlpArgs cookiesPath u = init ++ [String c rest]
             /\ c <> "-"%char)
    /\ (exists init c rest,
           Sys.cmd_args (MainGo.ytdlpCmd u) = init ++ [String c rest]
           /\ c <> "-"%char).
Proof.
  intros u Hu.
  assert (Hc : exists c rest, u = String c rest /\ c <> "-"%char).
  { destruct u as [|c rest]; [vm_compute in Hu; discriminate|].
    exists c, rest. split; [reflexivity|]. intros ->.
    rewrite rejects_leading_dash in Hu. discriminate. }
  split; [exact Hc|].
  destruct Hc as (c & rest & -> & Hc). split.
  - intros cookiesPath. rewrite main2_args_shape.
    exists (main2_fixed_args
              ++ (if String.eqb cookiesPath "" then [] else ["--cookies"; cookiesPath])),
      c, rest.
    split; [rewrite <- app_assoc; reflexivity | exact Hc].
  - exists ["-f"; "bestaudio[ext=m4a]/bestaudio"; "-o"; "-"; "--no-warnings"; "--quiet"],
      c, rest.
    split; [reflexivity | exact Hc].
Qed.

Lemma validated_url_cannot_pass_for_an_option_witness :
  exists c rest, Samples.good_url = String c rest /\ c <> "-"%char.
Proof.
  apply (proj1 (validated_url_cannot_pass_for_an_option Samples.good_url eq_refl)).
Defined.

(** ** The variants side by side *)
Section VariantFacts.
Import Sys Validator.

(** One turn of the loop of main_simple.go. *)
Lemma simple_relay_cons (w : World) (r : ReadResult) (rs : list ReadResult) (k : nat) :
  MainSimpleGo.relay w (r :: rs) k =
  if nonempty r then
    match write_err w k with
    | Some _ =>
        ([Read r; Write (data r) false; Kill Extractor; Kill Transcoder],
         Return tt)
    | None =>
        match rerr r with
        | Some _ => (Read r :: Write (data r) true :: flush_events w, Next tt)
        | None =>
            (Read r :: Write (data r) true :: flush_events w
               ++ trace (MainSimpleGo.relay w rs (S k)),
             flow (MainSimpleGo.relay w rs (S k)))
        end
    end
  else
    match rerr r with
    | Some _ => ([Read r], Next tt)
    | None =>
        (Read r :: trace (MainSimpleGo.relay w rs k),
         flow (MainSimpleGo.relay w rs k))
    end.
Proof.
  unfold nonempty, flush_events. cbn [MainSimpleGo.relay].
  unfold mbind, Run_bind, bind, emit, w_Write, w_Flush, process_Kill, return_,
    ret, emit, trace, flow.
  destruct (0 <? length (data r))%nat; cbn [fst snd app].
  - destruct (write_err w k); cbn [fst snd app isNil]; [reflexivity|].
    destruct (flusher w); cbn [fst snd app];
      destruct (rerr r); cbn [fst snd app]; reflexivity.
  - destruct (rerr r); cbn [fst snd app]; reflexivity.
Qed.

Lemma simple_relay_is_main_relay (w : World) (rs : list ReadResult) (k : nat) :
  MainSimpleGo.relay w rs k = MainGo.relay w rs k.
Proof.
  revert k. induction rs as [|r rs IH]; intros k; [reflexivity|].
  rewrite simple_relay_cons, main_relay_cons, !IH. reflexivity.
Qed.

Lemma simple_cmds_at_defaults (vidURL : string) :
  MainSimpleGo.ytdlpCmd "yt-dlp" vidURL = MainGo.ytdlpCmd vidURL
  /\ MainSimpleGo.ffmpegCmd "ffmpeg" = MainGo.ffmpegCmd.
Proof. split; reflexivity. Qed.

End VariantFacts.

(** X15.  With the tool paths at their defaults (yt-dlp and ffmpeg, what
    [getConfig] returns when the variables are not set), the handler of
    main_simple.go does what the handler of main.go does, step for step and
    for every request and environment: the same pipes, starts, kills, waits,
    reads, writes and flushes with the same commands, the same status codes,
    the same way of ending.  Only the texts of the log lines and of the error
    bodies differ. *)
Theorem main_simple_at_defaults_is_main :
  forall (w : Sys.World) (vidURL : string),
    map erase_text (Sys.trace (MainSimpleGo.streamHandler "yt-dlp" "ffmpeg" w vidURL))
    = map erase_text (Sys.trace (MainGo.streamHandler w vidURL))
    /\ Sys.flow (MainSimpleGo.streamHandler "yt-dlp" "ffmpeg" w vidURL)
       = Sys.flow (MainGo.streamHandler w vidURL)
    /\ Sys.status (Sys.respond
         (Sys.trace (MainSimpleGo.streamHandler "yt-dlp" "ffmpeg" w vidURL)))
       = Sys.status (Sys.respond (Sys.trace (MainGo.streamHandler w vidURL))).
Proof.
  intros w vidURL.
  unfold MainSimpleGo.streamHandler, MainGo.streamHandler.
  destruct (String.eqb vidURL ""); [repeat split|].
  destruct (Validator.isYouTubeURL vidURL); [|repeat split].
  cbn [negb].
  unfold Sys.cmd_StdoutPipe, Sys.cmd_Start, Sys.pipe_result, Sys.start_result.
  destruct (Sys.ytdlp_StdoutPipe w); [repeat split|].
  destruct (Sys.ytdlp_Start w); [repeat split|].
  destruct (Sys.ffmpeg_StdoutPipe w); [repeat split|].
  destruct (Sys.ffmpeg_Start w); [repeat split|].
  rewrite simple_relay_is_main_relay.
  destruct (MainGo.relay w (Sys.reads w) 0) as [t [[]|[]|]]; repeat split.
Qed.

(** ** The debug variant: listing formats, and streaming without a deadline *)
Section DebugFacts.
Import Sys Validator.

Lemma observe_never_killed (tl : Timeline) : observe None tl = map snd tl.
Proof.
  induction tl as [|[t r] tl IH]; [reflexivity|].
  cbn [observe map snd]. rewrite IH. reflexivity.
Qed.

Lemma debug_relay_body_complete (w : World) (rs : list ReadResult) (k : nat)
      (total : Z) (r0 : Response) :
  client_stays w ->
  body (fold_left resp_step (trace (DebugGo.relay w rs k total)) r0)
  = body r0 ++ flat_map data (until_error rs).
Proof.
  intros Hc. revert k total r0.
  induction rs as [|r rs IH]; intros k total r0.
  - cbn. rewrite app_nil_r. reflexivity.
  - rewrite debug_relay_cons, (Hc k). cbn [until_error].
    destruct (nonempty r) eqn:En.
    + cbv zeta. destruct (rerr r) as [e|]; cbn [trace fst].
      * destruct (chunk_step w r (read_error_log e) r0) as (mid & Hf & Hb).
        rewrite Hf, (body_no_body _ _ (proj1 (read_error_log_facts e))), Hb.
        cbn. rewrite app_nil_r. reflexivity.
      * destruct (chunk_step w r
                    (trace (DebugGo.relay w rs (S k)
                              (int_add total (len (data r))))) r0)
          as (mid & Hf & Hb).
        rewrite Hf, IH, Hb. cbn [flat_map]. rewrite <- app_assoc. reflexivity.
    + pose proof (data_of_empty r En) as Hd.
      destruct (rerr r) as [e|]; cbn [trace fst].
      * cbn [fold_left].
        rewrite (body_no_body _ _ (proj1 (read_error_log_facts e))).
        cbn. rewrite Hd, app_nil_r. reflexivity.
      * cbn [fold_left flat_map]. rewrite IH, Hd. reflexivity.
Qed.

End DebugFacts.

(** X16.  With debug=1 (or true) and an accepted URL, the debug variant runs
    the format listing and nothing else: no pipe, no pipeline process.  The
    listing command is not bound to any context (nothing kills it when the
    client goes away) and has the URL as its last argument.  The response is
    200 text/plain whether the listing worked or not: a failure is reported
    in the body, as "Failed to list formats: ..." after the banner. *)
Theorem debug_listing_branch :
  forall (yt ff ck : string) (w : Sys.World) (vidURL dbg : string),
    Validator.isYouTubeURL vidURL = true ->
    String.eqb dbg "1" || String.eqb dbg "true" = true ->
    let t := Sys.trace (DebugGo.streamHandler yt ff ck w vidURL dbg) in
    List.filter Sys.is_process_event t
    = [Sys.CombinedOutput (DebugGo.listFormats_cmd yt ck vidURL)]
    /\ (forall client_gone : option Z,
           kill_time client_gone (DebugGo.listFormats_cmd yt ck vidURL) = None)
    /\ ends_with vidURL (Sys.cmd_args (DebugGo.listFormats_cmd yt ck vidURL))
    /\ Sys.status (Sys.respond t) = Some Sys.StatusOK
    /\ Sys.header (Sys.respond t) !! "Content-Type" = Some "text/plain"
    /\ (Sys.write_err w 0 = None -> Sys.write_err w 1 = None ->
        Sys.body (Sys.respond t)
        = list_byte_of_string
            ("=== Available Formats ===" +:+ DebugGo.newline +:+ DebugGo.newline)
            ++ list_byte_of_string
                 match Sys.formats_output w with
                 | Ok output => output
                 | Err e => "Failed to list formats: " +:+ e
                 end).
Proof.
  intros yt ff ck w vidURL dbg Hu Hd. cbv zeta.
  unfold DebugGo.streamHandler, DebugGo.listFormats.
  rewrite (accepted_nonempty _ Hu), Hu, Hd. cbn [negb].
  split; [destruct (Sys.formats_output w); reflexivity|].
  split; [intros client_gone; reflexivity|].
  split.
  { unfold DebugGo.listFormats_cmd, Sys.Command. cbn [Sys.cmd_args].
    eexists. reflexivity. }
  split; [destruct (Sys.formats_output w); reflexivity|].
  split; [destruct (Sys.formats_output w); vm_compute; reflexivity|].
  intros H0 H1. unfold Sys.w_Write. rewrite H0, H1.
  destruct (Sys.formats_output w); reflexivity.
Qed.

Lemma debug_listing_branch_witness :
  Sys.status (Sys.respond (Sys.trace
     (DebugGo.streamHandler "yt-dlp" "ffmpeg" "" (Samples.healthy [])
        Samples.good_url "1")))
  = Some Sys.StatusOK.
Proof.
  apply (proj1 (proj2 (proj2 (proj2
           (debug_listing_branch "yt-dlp" "ffmpeg" "" (Samples.healthy [])
              Samples.good_url "1" eq_refl eq_refl))))).
Defined.

(** X17.  The commands of the debug variant are bound to the request
    context alone, so while the client stays nothing ends the stream but the
    transcoder: whatever the timeline of the transcoder's output, however
    long, a client that takes every write receives every chunk up to and
    including the first read that carries an error. *)
Theorem debug_variant_streams_without_deadline :
  forall (yt ff ck : string) (w : Sys.World) (tl : Sys.Timeline)
         (vidURL dbg : string),
    Validator.isYouTubeURL vidURL = true ->
    String.eqb dbg "1" || String.eqb dbg "true" = false ->
    setup_ok w = true ->
    client_stays w ->
    kill_time None (DebugGo.ffmpegCmd ff) = None
    /\ kill_time None (DebugGo.ytdlpCmd yt ck vidURL) = None
    /\ Sys.body (Sys.respond (Sys.trace
          (DebugGo.streamHandler yt ff ck
             (Sys.with_reads w
                (Sys.observe (kill_time None (DebugGo.ffmpegCmd ff)) tl))
             vidURL dbg)))
       = flat_map Sys.data (until_error (map snd tl)).
Proof.
  intros yt ff ck w tl vidURL dbg Hu Hd Hs Hc.
  split; [reflexivity|]. split; [reflexivity|].
  change (kill_time None (DebugGo.ffmpegCmd ff)) with (@None Z).
  rewrite observe_never_killed.
  set (w' := Sys.with_reads w (map snd tl)).
  assert (Hs' : setup_ok w' = true) by exact Hs.
  assert (Hc' : client_stays w') by exact Hc.
  rewrite (debug_streaming yt ff ck w' vidURL dbg Hu Hd Hs').
  pose proof (debug_relay_body_complete w' (Sys.reads w') 0 0
                (Sys.respond (debug_setup_trace yt ff ck vidURL)) Hc') as Hb.
  destruct (DebugGo.relay w' (Sys.reads w') 0 0) as [t [total|[]|]];
    cbn [Sys.trace fst] in *;
    rewrite !respond_app, ?fold_left_app,
      ?(body_no_body _ _ (debug_after_loop_no_body _ _ _)), Hb; reflexivity.
Qed.

Lemma debug_variant_streams_without_deadline_witness :
  Sys.body (Sys.respond (Sys.trace
     (DebugGo.streamHandler "yt-dlp" "ffmpeg" ""
        (Sys.with_reads (Samples.healthy [])
           (Sys.observe (kill_time None (DebugGo.ffmpegCmd "ffmpeg"))
              [(1000%Z, Samples.chunk [Byte.x01]);
               (50000%Z, Samples.chunk [Byte.x02]);
               (51000%Z, end_of_stream)]))
        Samples.good_url "")))
  = flat_map Sys.data
      (until_error (map snd [(1000%Z, Samples.chunk [Byte.x01]);
                             (50000%Z, Samples.chunk [Byte.x02]);
                             (51000%Z, end_of_stream)])).
Proof.
  apply (proj2 (proj2 (debug_variant_streams_without_deadline
                         "yt-dlp" "ffmpeg" "" (Samples.healthy [])
                         [(1000%Z, Samples.chunk [Byte.x01]);
                          (50000%Z, Samples.chunk [Byte.x02]);
                          (51000%Z, end_of_stream)]
                         Samples.good_url "" eq_refl eq_refl eq_refl
                         (fun _ => eq_refl)))).
Defined.
